(** * OT compliance dashboard: the ingestion, reconciliation and
      classification engine of [src/utils/excelHelpers.ts] and the filtered
      views of the dashboard component, embedded in Rocq.

    Conventions of the embedding.
    - A JavaScript string is a [string]: a sequence of code units below 256.
    - A JavaScript number is a binary64 [float]; counters that only ever
      count rows are [nat].
    - A [Date] object is its time value: an integral number of milliseconds
      since the Unix epoch within the range of ECMAScript dates, or NaN.
    - A plain object used as a dictionary is a [gmap string _] of its own
      properties; a lookup [row[field]] on a raw row also finds what the row
      inherits from its prototype. The [Map] of the reconciliation pass
      keeps insertion order and is an association list.
    - What ECMAScript leaves to the engine (the local time zone with its
      clock changes, the rendering of numbers and dates as text, the
      parsing of free text as a number or a date, the members of
      [Object.prototype]) is collected in a [Host] record that the
      definitions take as an argument. *)

From stdpp Require Import gmap strings list.
From Stdlib Require Import Ascii String ZArith Floats DecimalString Lia Sorted.

Local Open Scope string_scope.
Local Open Scope list_scope.

(** ** Text *)

(** [WhiteSpace] and [LineTerminator] code units below 256: TAB, LF, VT, FF,
    CR, SPACE and NO-BREAK SPACE. *)
Definition isWhiteSpace (c : ascii) : bool :=
  let n := N_of_ascii c in
  ((9 <=? n) && (n <=? 13) || (n =? 32) || (n =? 160))%N.

(** [\d] of a regular expression. *)
Definition isDigit (c : ascii) : bool :=
  let n := N_of_ascii c in ((48 <=? n) && (n <=? 57))%N.

Fixpoint trimStart (s : string) : string :=
  match s with
  | EmptyString => EmptyString
  | String c s' => if isWhiteSpace c then trimStart s' else s
  end.

Fixpoint trimEnd (s : string) : string :=
  match s with
  | EmptyString => EmptyString
  | String c s' =>
      match trimEnd s' with
      | EmptyString => if isWhiteSpace c then EmptyString else String c EmptyString
      | t => String c t
      end
  end.

(** [String.prototype.trim]. *)
Definition trim (s : string) : string := trimEnd (trimStart s).

(** A string made of white space only (possibly empty). *)
Fixpoint whitespaceOnly (s : string) : bool :=
  match s with
  | EmptyString => true
  | String c s' => isWhiteSpace c && whitespaceOnly s'
  end.

(** [s.includes(c)] for a one-character needle. *)
Fixpoint includes (s : string) (c : ascii) : bool :=
  match s with
  | EmptyString => false
  | String d s' => if Ascii.eqb c d then true else includes s' c
  end.

(** [s.replace(/[^0-9.-]/g, '')]. *)
Fixpoint keepAmountChars (s : string) : string :=
  match s with
  | EmptyString => EmptyString
  | String c s' =>
      if isDigit c || Ascii.eqb c "." || Ascii.eqb c "-"
      then String c (keepAmountChars s') else keepAmountChars s'
  end.

(** Truthiness of a string: every string but the empty one. *)
Definition nonEmpty (s : string) : bool :=
  match s with EmptyString => false | _ => true end.

(** [arr.includes(x)] on an array of strings. *)
Definition includesStr (l : list string) (x : string) : bool :=
  existsb (String.eqb x) l.

(** Decimal rendering of an integer, as [Number.prototype.toString] renders
    an integral number of moderate size. *)
Definition Z_toString (z : Z) : string :=
  NilZero.string_of_int (Z.to_int z).

(** ** Numbers and dates *)

Module JsDate.
Local Open Scope Z_scope.

(** The time value of a [Date]: [None] is NaN (an Invalid Date). *)
Record Date := { getTime : option Z }.

Definition invalid : Date := {| getTime := None |}.
Definition at_ms (t : Z) : Date := {| getTime := Some t |}.

Definition msPerDay : Z := 86400000.
Definition maxTime : Z := 8640000000000000.

(** [TimeClip] on an integral argument. *)
Definition TimeClip (t : Z) : Date :=
  if Z.abs t <=? maxTime then at_ms t else invalid.

(** [isNaN(date.getTime())]. *)
Definition isInvalid (d : Date) : bool :=
  match getTime d with None => true | Some _ => false end.

(** [Math.round(x)] for a finite [x]: the nearest integer, halves rounded
    up. [None] stands for NaN and the infinities, which [Math.round] returns
    unchanged and which no [Date] accepts. *)
Definition Math_round (x : float) : option Z :=
  match Prim2SF x with
  | S754_zero _ => Some 0
  | S754_finite s m e =>
      let v := if s then Z.neg m else Z.pos m in
      Some (if 0 <=? e then v * 2 ^ e
            else (2 * v + 2 ^ (- e)) / 2 ^ (- e + 1))
  | S754_infinity _ | S754_nan => None
  end.

(** [new Date(n)] for the number [n] that [Math.round] returned. *)
Definition new_Date_number (n : option Z) : Date :=
  match n with
  | Some t => TimeClip t
  | None => invalid
  end.

(** Days from 1970-01-01 to the first of month [m] (1 to 12) of year [y] in
    the proleptic Gregorian calendar, plus [d - 1]. *)
Definition days_from_civil (y m d : Z) : Z :=
  let y' := if m <=? 2 then y - 1 else y in
  let era := y' / 400 in
  let yoe := y' - era * 400 in
  let doy := (153 * (if 2 <? m then m - 3 else m + 9) + 2) / 5 + d - 1 in
  let doe := yoe * 365 + yoe / 4 - yoe / 100 + doy in
  era * 146097 + doe - 719468.

(** Year and month (0 to 11) of a day number: [YearFromTime] and
    [MonthFromTime]. *)
Definition civil_from_days (z : Z) : Z * Z :=
  let z' := z + 719468 in
  let era := z' / 146097 in
  let doe := z' - era * 146097 in
  let yoe := (doe - doe / 1460 + doe / 36524 - doe / 146096) / 365 in
  let doy := doe - (365 * yoe + yoe / 4 - yoe / 100) in
  let mp := (5 * doy + 2) / 153 in
  let m := if mp <? 10 then mp + 3 else mp - 9 in
  ((if m <=? 2 then yoe + era * 400 + 1 else yoe + era * 400), m - 1).

(** [Day(t)]: the day number of a time value. *)
Definition Day (t : Z) : Z := t / msPerDay.

(** The local time zone, as ECMAScript leaves it to the engine:
    [LocalTZA(t, isUTC)], the offset of local time from UTC in
    milliseconds. With [isUTC = true], [t] is a UTC time value and the
    offset is the one in force at that instant; with [isUTC = false], [t]
    is a local time, and the offset is the one of the instant that this
    local time denotes (a local time that a clock change skips or repeats
    is read with the offset before the change). The offset may differ from
    one date to another. *)
Definition Zone : Type := Z -> bool -> Z.

Section LocalTime.
Variable tza : Zone.

(** [LocalTime(t)] and [UTC(t)]. *)
Definition LocalTime (t : Z) : Z := t + tza t true.
Definition UTC (t : Z) : Z := t - tza t false.

(** [new Date(year, month, day)]: local midnight of that day, taken to
    UTC with the offset of that local time and clipped; years 0 to 99
    stand for 1900 to 1999, months beyond 0..11 carry into the year. *)
Definition new_Date_ymd (year month day : Z) : Date :=
  let yr := if (0 <=? year) && (year <=? 99) then 1900 + year else year in
  let ym := yr + month / 12 in
  let mn := month mod 12 in
  TimeClip (UTC (days_from_civil ym (mn + 1) day * msPerDay)).

(** The local day number of a time value: [Day(LocalTime(t))]. *)
Definition localDay (t : Z) : Z := Day (LocalTime t).

(** [d.setHours(0, 0, 0, 0)]: the local time of [d] is cut down to the
    start of its day, [MakeDate(Day(LocalTime(t)), 0)], which is taken
    back to UTC with the offset of that local midnight and clipped by
    [TimeClip]; an Invalid Date stays one. *)
Definition setHours0 (d : Date) : Date :=
  match getTime d with
  | None => invalid
  | Some t => TimeClip (UTC (localDay t * msPerDay))
  end.

(** [getFullYear] and [getMonth]: [YearFromTime(LocalTime(t))] and
    [MonthFromTime(LocalTime(t))]. *)
Definition getFullYear (t : Z) : Z := fst (civil_from_days (localDay t)).
Definition getMonth (t : Z) : Z := snd (civil_from_days (localDay t)).
End LocalTime.

(** [a <= b] on two dates, through their time values; false when either
    is NaN. *)
Definition le (a b : Date) : bool :=
  match getTime a, getTime b with
  | Some x, Some y => x <=? y
  | _, _ => false
  end.

(** [a > b], likewise. *)
Definition gt (a b : Date) : bool :=
  match getTime a, getTime b with
  | Some x, Some y => y <? x
  | _, _ => false
  end.

End JsDate.
Export JsDate (Date, getTime).

(** ** Spreadsheet cells *)

(** A value found under a key of a raw row. The spreadsheet decoder stores
    text, a number, a boolean, a [Date] (the workbook is read with
    [cellDates]) or [null] (for an error cell). [Other] is any other
    value, a function or an object that is no [Date], such as the members
    of [Object.prototype] that every row inherits; [text] is what [String]
    makes of it. *)
Inductive cell :=
| Text (s : string)
| Num (x : float)
| Bool (b : bool)
| DateCell (d : Date)
| Null
| Other (text : string).

(** A raw row is an object from column header to cell: the map holds its
    own properties. [__proto__] is never one of them: the decoder writes a
    cell by assignment, which under that header makes a date cell the
    prototype of the row and does nothing with a cell of another kind. The
    date is kept under that key here, where [row["__proto__"]] finds it. *)
Abbreviation ExcelRow := (gmap string cell).

(** What the engine decides. *)
Record Host := {
  (** [LocalTZA(t, isUTC)]: offset of local time from UTC, in
      milliseconds *)
  LocalTZA : JsDate.Zone;
  (** [String(x)] for a number *)
  Number_toString : float -> string;
  (** [String(d)] for a valid date, given its time value *)
  Date_toString : Z -> string;
  (** [Number(s)] *)
  Number_ofString : string -> float;
  (** [parseFloat(s)] *)
  parseFloat : string -> float;
  (** [new Date(s)] *)
  Date_parse : string -> Date;
  (** what a row finds on its prototype chain under a name it has no
      property of its own for: a member of [Object.prototype]
      ([constructor], [toString], [valueOf], ...), a member of the date
      that took the place of the prototype, or nothing ([undefined]) *)
  inherited : ExcelRow -> string -> option cell
}.

(** [row[field]]: the row's own property, or else what it inherits. *)
Definition rowGet (h : Host) (row : ExcelRow) (field : string)
  : option cell :=
  match row !! field with
  | Some c => Some c
  | None => inherited h row field
  end.

(** Truthiness of a cell: the falsy cells are the empty text, the numbers
    zero and NaN, [false] and [null]; every object is truthy. *)
Definition truthy (c : cell) : bool :=
  match c with
  | Text s => nonEmpty s
  | Num x => negb (PrimFloat.is_nan x || PrimFloat.eqb x 0)
  | Bool b => b
  | DateCell _ => true
  | Null => false
  | Other _ => true
  end.

(** [v || dflt] for a text default. *)
Definition orText (v : option cell) (dflt : string) : cell :=
  match v with
  | Some c => if truthy c then c else Text dflt
  | None => Text dflt
  end.

(** [String(c)]. *)
Definition ToString (h : Host) (c : cell) : string :=
  match c with
  | Text s => s
  | Num x => Number_toString h x
  | Bool b => if b then "true" else "false"
  | DateCell d =>
      match getTime d with
      | Some t => Date_toString h t
      | None => "Invalid Date"
      end
  | Null => "null"
  | Other text => text
  end.

(** ** Regular expressions of the date normalizer *)

Definition isSep (c : ascii) : bool := Ascii.eqb c "/" || Ascii.eqb c "-".

Definition digitVal (c : ascii) : Z := (Z.of_N (N_of_ascii c) - 48)%Z.

(** [(\d{1,2})[\/\-]] at the head of [s]: the number read and the rest. *)
Definition group12sep (s : string) : option (Z * string) :=
  match s with
  | String a (String b r) =>
      if isDigit a && isSep b then Some (digitVal a, r)
      else
        match r with
        | String c r' =>
            if isDigit a && isDigit b && isSep c
            then Some (10 * digitVal a + digitVal b, r')%Z
            else None
        | EmptyString => None
        end
  | _ => None
  end.

(** [(\d{1,2})] at the head of [s], greedy. *)
Definition group12 (s : string) : option Z :=
  match s with
  | String a r =>
      if isDigit a then
        match r with
        | String b _ =>
            if isDigit b then Some (10 * digitVal a + digitVal b)%Z
            else Some (digitVal a)
        | EmptyString => Some (digitVal a)
        end
      else None
  | EmptyString => None
  end.

(** [(\d{4})] at the head of [s]: the number read and the rest. *)
Definition group4 (s : string) : option (Z * string) :=
  match s with
  | String a (String b (String c (String d r))) =>
      if isDigit a && isDigit b && isDigit c && isDigit d
      then Some (1000 * digitVal a + 100 * digitVal b
                 + 10 * digitVal c + digitVal d, r)%Z
      else None
  | _ => None
  end.

(** [/^(\d{1,2})[\/\-](\d{1,2})[\/\-](\d{4})/]: day, month, year. *)
Definition matchLatam (s : string) : option (Z * Z * Z) :=
  '(day, r1) ← group12sep s;
  '(month, r2) ← group12sep r1;
  '(year, _) ← group4 r2;
  Some (day, month, year).

(** [/^(\d{4})[\/\-](\d{1,2})[\/\-](\d{1,2})/]: year, month, day. *)
Definition matchIso (s : string) : option (Z * Z * Z) :=
  '(year, r1) ← group4 s;
  match r1 with
  | String c r2 =>
      if isSep c then
        '(month, r3) ← group12sep r2;
        day ← group12 r3;
        Some (year, month, day)
      else None
  | EmptyString => None
  end.

(** ** Field normalizers *)

Definition INTERNAL_CLIENT_CODES : list string :=
  ["C0008157"; "C0001114"; "C0001140"].

(** [isNaN(date.getTime()) ? null : date]. *)
Definition validOrNull (d : Date) : option Date :=
  if JsDate.isInvalid d then None else Some d.

(** The date of a spreadsheet serial number:
    [new Date(Math.round((n - 25569) * 86400 * 1000))]. *)
Definition serialDate (n : float) : Date :=
  JsDate.new_Date_number
    (JsDate.Math_round ((n - 25569) * 86400 * 1000)%float).

Section Normalizers.
Variable h : Host.

Definition parseExcelDate (dateVal : option cell) : option Date :=
  match dateVal with
  | None => None
  | Some (Text EmptyString) => None
  | Some (DateCell d) => validOrNull d
  | Some (Num n) => validOrNull (serialDate n)
  | Some (Text s) =>
      let trimmed := trim s in
      if negb (nonEmpty trimmed) then None
      else if negb (PrimFloat.is_nan (Number_ofString h trimmed))
              && negb (includes trimmed "/")
              && negb (includes trimmed "-")
              && negb (includes trimmed ":")
      then validOrNull (serialDate (Number_ofString h trimmed))
      else
        match matchLatam trimmed with
        | Some (day, month, year) =>
            validOrNull
              (JsDate.new_Date_ymd (LocalTZA h) year (month - 1) day)
        | None =>
            match matchIso trimmed with
            | Some (year, month, day) =>
                validOrNull
                  (JsDate.new_Date_ymd (LocalTZA h) year (month - 1) day)
            | None => validOrNull (Date_parse h trimmed)
            end
        end
  | Some (Bool _) | Some Null | Some (Other _) => None
  end.

Definition parseAmount (val : option cell) : float :=
  match val with
  | Some (Num n) => n
  | Some (Text s) =>
      let num := parseFloat h (keepAmountChars s) in
      if PrimFloat.is_nan num then 0%float else num
  | _ => 0%float
  end.

(** [String(row[field] || dflt).trim()]. *)
Definition textField (row : ExcelRow) (field dflt : string) : string :=
  trim (ToString h (orText (rowGet h row field) dflt)).
End Normalizers.

(** ** Records *)

Module ColumnMapping.
(** The optional roles ([secondPromisedDate?], [billingDate?],
    [invoiceNumber?]) are [None] when the property is absent. *)
Record t := {
  otNumber : string;
  folio : string;
  clientCode : string;
  workshop : string;
  promisedDate : string;
  secondPromisedDate : option string;
  realDeliveryDate : string;
  billingDate : option string;
  amount : string;
  otType : string;
  invoiceNumber : option string;
  additionalFilters : list string
}.
End ColumnMapping.
Abbreviation ColumnMapping := ColumnMapping.t.

(** The [ParsedOT] interface ([clientName?] is never assigned and is left
    out; [invoiceId] is [None] when [undefined]). *)
Record ParsedOT := {
  id : string;
  invoiceId : option string;
  folio : string;
  workshop : string;
  estimatedDate : option Date;
  secondEstimatedDate : option Date;
  realDate : option Date;
  billingDate : option Date;
  status : string;
  clientCode : string;
  isInternalClient : bool;
  amount : float;
  otType : string;
  customValues : gmap string string
}.

(** A [ParsedOT] object on the heap. The pass allocates one object per
    ingested row and never writes to it afterwards, so an object is its
    allocation number [addr] together with its contents; two references
    denote the same object exactly when their [addr] agree. *)
Record Obj := { addr : nat; val : ParsedOT }.

Record ProcessingReport := {
  totalRows : nat;
  emptyRows : nat;
  duplicatesRemovedForCompliance : nat;
  removedOtIds : list string;
  internalClientsCount : nat;
  internalClientsByCode : gmap string nat
}.

Record ProcessResult := {
  allRows : list Obj;
  uniqueOTs : list Obj;
  report : ProcessingReport
}.

(** Truthiness of [Date | null]: every [Date] object is truthy. *)
Definition present {A : Type} (o : option A) : bool :=
  match o with Some _ => true | None => false end.

(** ** The insertion-ordered [Map] *)

Section OrderedMap.
Context {V : Type}.

Fixpoint Map_get (m : list (string * V)) (k : string) : option V :=
  match m with
  | [] => None
  | (k', v) :: m' => if String.eqb k k' then Some v else Map_get m' k
  end.

(** [m.set(k, v)]: a key already present keeps its position. *)
Fixpoint Map_set (m : list (string * V)) (k : string) (v : V)
  : list (string * V) :=
  match m with
  | [] => [(k, v)]
  | (k', v') :: m' =>
      if String.eqb k k' then (k, v) :: m' else (k', v') :: Map_set m' k v
  end.

(** [Array.from(m.values())]. *)
Definition Map_values (m : list (string * V)) : list V := map snd m.

Definition Map_keys (m : list (string * V)) : list string := map fst m.
End OrderedMap.

(** ** [processSheet] *)

(** The variables of the pass over the rows. *)
Module Loop.
Record state := {
  allRows : list Obj;
  otMapForCompliance : list (string * Obj);
  totalRows : nat;
  emptyRows : nat;
  duplicatesRemovedForCompliance : nat;
  removedOtIds : list string
}.

Definition init : state :=
  {| allRows := []; otMapForCompliance := []; totalRows := 0;
     emptyRows := 0; duplicatesRemovedForCompliance := 0;
     removedOtIds := [] |}.
End Loop.

(** Lines 150 to 172: the compliance map on a record already pushed to
    [allRows]. *)
Definition reconcile (st : Loop.state) (parsedRow : Obj) : Loop.state :=
  let otNumber := id (val parsedRow) in
  match Map_get (Loop.otMapForCompliance st) otNumber with
  | Some existingOT =>
      let dups := S (Loop.duplicatesRemovedForCompliance st) in
      let upd (replace : bool) (reason : string) :=
        {| Loop.allRows := Loop.allRows st;
           Loop.otMapForCompliance :=
             if replace
             then Map_set (Loop.otMapForCompliance st) otNumber parsedRow
             else Loop.otMapForCompliance st;
           Loop.totalRows := Loop.totalRows st;
           Loop.emptyRows := Loop.emptyRows st;
           Loop.duplicatesRemovedForCompliance := dups;
           Loop.removedOtIds := Loop.removedOtIds st ++ [reason] |} in
      if isInternalClient (val existingOT)
         && negb (isInternalClient (val parsedRow))
      then upd true
             (id (val existingOT) +:+ " (Reemplazado interno por externo)")
      else if negb (isInternalClient (val existingOT))
              && isInternalClient (val parsedRow)
      then upd false
             (id (val parsedRow) +:+ " (Duplicado interno ignorado)")
      else if negb (present (realDate (val existingOT)))
              && present (realDate (val parsedRow))
      then upd true
             (id (val existingOT)
              +:+ " (Reemplazado por registro con fecha entrega)")
      else upd false (id (val parsedRow) +:+ " (Duplicado ignorado)")
  | None =>
      {| Loop.allRows := Loop.allRows st;
         Loop.otMapForCompliance :=
           Map_set (Loop.otMapForCompliance st) otNumber parsedRow;
         Loop.totalRows := Loop.totalRows st;
         Loop.emptyRows := Loop.emptyRows st;
         Loop.duplicatesRemovedForCompliance :=
           Loop.duplicatesRemovedForCompliance st;
         Loop.removedOtIds := Loop.removedOtIds st |}
  end.

(** [allRows.push(parsedRow)], the new object taking the next address. *)
Definition push (st : Loop.state) (r : ParsedOT) : Loop.state * Obj :=
  let o := {| addr := List.length (Loop.allRows st); val := r |} in
  ({| Loop.allRows := Loop.allRows st ++ [o];
      Loop.otMapForCompliance := Loop.otMapForCompliance st;
      Loop.totalRows := Loop.totalRows st;
      Loop.emptyRows := Loop.emptyRows st;
      Loop.duplicatesRemovedForCompliance :=
        Loop.duplicatesRemovedForCompliance st;
      Loop.removedOtIds := Loop.removedOtIds st |}, o).

(** [totalRows++] and [emptyRows++]. *)
Definition countRow (st : Loop.state) : Loop.state :=
  {| Loop.allRows := Loop.allRows st;
     Loop.otMapForCompliance := Loop.otMapForCompliance st;
     Loop.totalRows := S (Loop.totalRows st);
     Loop.emptyRows := Loop.emptyRows st;
     Loop.duplicatesRemovedForCompliance :=
       Loop.duplicatesRemovedForCompliance st;
     Loop.removedOtIds := Loop.removedOtIds st |}.

Definition countEmpty (st : Loop.state) : Loop.state :=
  {| Loop.allRows := Loop.allRows st;
     Loop.otMapForCompliance := Loop.otMapForCompliance st;
     Loop.totalRows := Loop.totalRows st;
     Loop.emptyRows := S (Loop.emptyRows st);
     Loop.duplicatesRemovedForCompliance :=
       Loop.duplicatesRemovedForCompliance st;
     Loop.removedOtIds := Loop.removedOtIds st |}.

(** Lines 147 to 172 for one record: push it, then reconcile it. *)
Definition ingest (st : Loop.state) (r : ParsedOT) : Loop.state :=
  let '(st', parsedRow) := push st r in reconcile st' parsedRow.

(** [o[k] = v] on a plain object for a text [v]: an own property is
    written, but under the key [__proto__], where the assignment goes to
    the setter that every object inherits, which ignores a value that is
    no object. *)
Definition setProp (o : gmap string string) (k v : string)
  : gmap string string :=
  if String.eqb k "__proto__" then o else <[k := v]> o.

Section Ingestion.
Variable h : Host.
Variable mapping : ColumnMapping.

(** A mapped optional column: the property is present and not empty. *)
Definition mapped (o : option string) : option string :=
  match o with
  | Some s => if nonEmpty s then Some s else None
  | None => None
  end.

(** Lines 110 to 145: the record of a row whose OT number is [otNumber]. *)
Definition parseRow (row : ExcelRow) (otNumber : string) : ParsedOT :=
  let clientCode :=
    textField h row (ColumnMapping.clientCode mapping) "" in
  let folio :=
    if nonEmpty (ColumnMapping.folio mapping)
    then textField h row (ColumnMapping.folio mapping) "" else "" in
  let workshopName :=
    textField h row (ColumnMapping.workshop mapping)
      "Sin Taller Asignado" in
  let amount :=
    if nonEmpty (ColumnMapping.amount mapping)
    then parseAmount h (rowGet h row (ColumnMapping.amount mapping))
    else 0%float in
  let otType :=
    if nonEmpty (ColumnMapping.otType mapping)
    then textField h row (ColumnMapping.otType mapping) "" else "N/A" in
  let invoiceId :=
    match mapped (ColumnMapping.invoiceNumber mapping) with
    | Some c => Some (textField h row c "")
    | None => None
    end in
  let isInternal := includesStr INTERNAL_CLIENT_CODES clientCode in
  let estimatedDate :=
    parseExcelDate h
      (rowGet h row (ColumnMapping.promisedDate mapping)) in
  let secondEstimatedDate :=
    match mapped (ColumnMapping.secondPromisedDate mapping) with
    | Some c => parseExcelDate h (rowGet h row c)
    | None => None
    end in
  let realDate :=
    parseExcelDate h
      (rowGet h row (ColumnMapping.realDeliveryDate mapping)) in
  let billingDate :=
    match mapped (ColumnMapping.billingDate mapping) with
    | Some c => parseExcelDate h (rowGet h row c)
    | None => None
    end in
  let customValues :=
    foldl (fun (cv : gmap string string) field =>
             setProp cv field (textField h row field "N/A"))
          ∅ (ColumnMapping.additionalFilters mapping) in
  {| id := otNumber;
     invoiceId := invoiceId;
     folio := folio;
     workshop := if nonEmpty workshopName then workshopName
                 else "Sin Taller";
     estimatedDate := estimatedDate;
     secondEstimatedDate := secondEstimatedDate;
     realDate := realDate;
     billingDate := billingDate;
     status := "Procesado";
     clientCode := clientCode;
     isInternalClient := isInternal;
     amount := amount;
     otType := otType;
     customValues := customValues |}.

(** The body of [jsonData.forEach]. *)
Definition processRow (st : Loop.state) (row : ExcelRow) : Loop.state :=
  let st1 := countRow st in
  let otNumber := textField h row (ColumnMapping.otNumber mapping) "" in
  if negb (nonEmpty otNumber) then countEmpty st1
  else ingest st1 (parseRow row otNumber).

(** The tally of internal clients over [allRows] (lines 177 to 185): the
    counter and the per-code object. The keys written are codes of
    records flagged internal, which [parseRow] takes from
    [INTERNAL_CLIENT_CODES]: none of them is a name that an object
    inherits a property for. *)
Definition tallyInternal (rows : list Obj) : nat * gmap string nat :=
  foldl (fun (acc : nat * gmap string nat) ot =>
           if isInternalClient (val ot)
           then (S (fst acc),
                 <[clientCode (val ot) :=
                     S (default 0 (snd acc !! clientCode (val ot)))]>
                   (snd acc))
           else acc)
        (0, ∅) rows.

(** [processSheet], from the rows that [sheet_to_json] produced. *)
Definition processSheet (jsonData : list ExcelRow) : ProcessResult :=
  let st := foldl processRow Loop.init jsonData in
  let internal := tallyInternal (Loop.allRows st) in
  {| allRows := Loop.allRows st;
     uniqueOTs := Map_values (Loop.otMapForCompliance st);
     report :=
       {| totalRows := Loop.totalRows st;
          emptyRows := Loop.emptyRows st;
          duplicatesRemovedForCompliance :=
            Loop.duplicatesRemovedForCompliance st;
          removedOtIds := Loop.removedOtIds st;
          internalClientsCount := fst internal;
          internalClientsByCode := snd internal |} |}.
End Ingestion.

(** ** [calculateStats] *)

Inductive Delivery := OnTime | Late | Pending.

(** The counters kept per workshop in [workshopMap]. *)
Module Tally.
Record t := {
  total : nat;
  onTime : nat;
  late : nat;
  pending : nat;
  amount : float
}.
Definition zero : t :=
  {| total := 0; onTime := 0; late := 0; pending := 0; amount := 0%float |}.
End Tally.

(** The accumulators of [calculateStats] when its loop ends. The
    percentages and the ordering of the workshop list, which are derived
    from these afterwards, are not part of this development. *)
Record GlobalStats := {
  totalOTs : nat;
  totalOnTime : nat;
  totalLate : nat;
  totalPending : nat;
  totalAmount : float;
  workshopMap : list (string * Tally.t)
}.

Section Stats.
(** The local time zone. *)
Variable tza : JsDate.Zone.

(** [ot.secondEstimatedDate || ot.estimatedDate]. *)
Definition targetDate (ot : ParsedOT) : option Date :=
  match secondEstimatedDate ot with
  | Some d => Some d
  | None => estimatedDate ot
  end.

(** The branch taken at lines 225 to 246. *)
Definition classify (ot : ParsedOT) : Delivery :=
  match realDate ot, targetDate ot with
  | Some realD, Some targetD =>
      let target := JsDate.setHours0 tza targetD in
      let real := JsDate.setHours0 tza realD in
      if JsDate.le real target then OnTime else Late
  | None, Some _ => Pending
  | _, None => Pending
  end.

Definition statsStep (g : GlobalStats) (o : Obj) : GlobalStats :=
  let ot := val o in
  let wm :=
    match Map_get (workshopMap g) (workshop ot) with
    | Some _ => workshopMap g
    | None => Map_set (workshopMap g) (workshop ot) Tally.zero
    end in
  let stats := default Tally.zero (Map_get wm (workshop ot)) in
  let c := classify ot in
  let hit (d : Delivery) (n : nat) : nat :=
    match c, d with
    | OnTime, OnTime | Late, Late | Pending, Pending => S n
    | _, _ => n
    end in
  {| totalOTs := S (totalOTs g);
     totalOnTime := hit OnTime (totalOnTime g);
     totalLate := hit Late (totalLate g);
     totalPending := hit Pending (totalPending g);
     totalAmount := (totalAmount g + amount ot)%float;
     workshopMap :=
       Map_set wm (workshop ot)
         {| Tally.total := S (Tally.total stats);
            Tally.onTime := hit OnTime (Tally.onTime stats);
            Tally.late := hit Late (Tally.late stats);
            Tally.pending := hit Pending (Tally.pending stats);
            Tally.amount := (Tally.amount stats + amount ot)%float |} |}.

Definition calculateStats (ots : list Obj) : GlobalStats :=
  foldl statsStep
    {| totalOTs := 0; totalOnTime := 0; totalLate := 0; totalPending := 0;
       totalAmount := 0%float; workshopMap := [] |}
    ots.
End Stats.

(** ** The filtered views of the dashboard *)

(** The filter state of the dashboard; ["all"] switches a criterion off. *)
Record FilterState := {
  selectedYear : string;
  selectedMonth : string;
  selectedWorkshop : string;
  dynamicFilters : gmap string string
}.

Section Views.
Variable tza : JsDate.Zone.
Variable f : FilterState.

(** [d.getFullYear().toString()] and [d.getMonth().toString()]. *)
Definition yearText (d : Date) : string :=
  match getTime d with
  | Some t => Z_toString (JsDate.getFullYear tza t)
  | None => "NaN"
  end.
Definition monthText (d : Date) : string :=
  match getTime d with
  | Some t => Z_toString (JsDate.getMonth tza t)
  | None => "NaN"
  end.

(** In the dynamic filters, [ot.customValues[field] !== value] compares
    with a text: a field that [customValues] has no property of its own
    for reads as [undefined] or as an inherited function or object, which
    differs from every text. *)
Definition checkFilters (ot : ParsedOT) : bool :=
  let dateMatch :=
    if negb (String.eqb (selectedYear f) "all") then
      match billingDate ot with
      | None => false
      | Some d =>
          let yearMatch := String.eqb (yearText d) (selectedYear f) in
          let monthMatch :=
            String.eqb (selectedMonth f) "all"
            || String.eqb (monthText d) (selectedMonth f) in
          yearMatch && monthMatch
      end
    else true in
  let workshopMatch :=
    String.eqb (selectedWorkshop f) "all"
    || String.eqb (workshop ot) (selectedWorkshop f) in
  let dynamicMatch :=
    forallb (fun '(field, value) =>
               negb (negb (String.eqb value "all")
                     && negb (bool_decide
                                (customValues ot !! field = Some value))))
            (map_to_list (dynamicFilters f)) in
  dateMatch && workshopMatch && dynamicMatch.

(** The predicate of [complianceData] and of [financialData]. *)
Definition keepExternal (o : Obj) : bool :=
  if includesStr ["C0008157"; "C0001114"; "C0001140"] (clientCode (val o))
  then false
  else checkFilters (val o).

Definition complianceData (uniqueOTs : list Obj) : list Obj :=
  List.filter keepExternal uniqueOTs.

Definition financialData (allRows : list Obj) : list Obj :=
  List.filter keepExternal allRows.
End Views.

(** ** A host for closed examples *)

Fixpoint digitsValue (acc : Z) (s : string) : option Z :=
  match s with
  | EmptyString => Some acc
  | String c r =>
      if isDigit c then digitsValue (10 * acc + digitVal c) r else None
  end.

(** The float of an integer; exact below [2 ^ 53]. *)
Definition float_of_Z (z : Z) : float :=
  if (z <? 0)%Z then (- PrimFloat.of_uint63 (Uint63.of_Z (- z)))%float
  else PrimFloat.of_uint63 (Uint63.of_Z z).

(** The functions that [Object.prototype] holds. *)
Definition objectPrototypeFunctions : list string :=
  ["constructor"; "hasOwnProperty"; "isPrototypeOf"; "propertyIsEnumerable";
   "toLocaleString"; "toString"; "valueOf"; "__defineGetter__";
   "__defineSetter__"; "__lookupGetter__"; "__lookupSetter__"].

(** The members of [Object.prototype], with the text that [String] makes
    of a built-in function in V8 and the like; [constructor] is the
    function [Object], and [__proto__] reads as [Object.prototype]
    itself. *)
Definition Object_prototype (name : string) : option cell :=
  if String.eqb name "constructor"
  then Some (Other "function Object() { [native code] }")
  else if includesStr objectPrototypeFunctions name
  then Some (Other ("function " +:+ name +:+ "() { [native code] }"))
  else if String.eqb name "__proto__" then Some (Other "[object Object]")
  else None.

(** Local time three hours behind UTC the year round. Numbers are
    rendered by their nearest integer and only digit-only text is read as
    a number, which is exact on the integral values the examples below use
    and stands in for the engine's conversions elsewhere; no free text is
    accepted as a date; every row has [Object.prototype] as its
    prototype. *)
Definition example_host : Host :=
  {| LocalTZA := fun _ _ => (-10800000)%Z;
     Number_toString x :=
       match JsDate.Math_round x with
       | Some z => Z_toString z
       | None => "NaN"
       end;
     Date_toString t := "Date " +:+ Z_toString t;
     Number_ofString s :=
       match digitsValue 0 s with
       | Some z => float_of_Z z
       | None => PrimFloat.nan
       end;
     parseFloat s :=
       match s, digitsValue 0 s with
       | String _ _, Some z => float_of_Z z
       | _, _ => PrimFloat.nan
       end;
     Date_parse _ := JsDate.invalid;
     inherited _ name := Object_prototype name |}.

(** A zone with the two clock changes of Asuncion in the summer of
    2023-24: four hours behind UTC until local midnight of 1 October 2023,
    when the clocks go forward to 01:00; three hours behind until local
    midnight of 24 March 2024, when they go back to 23:00 of 23 March; four
    hours behind from then on. The local times from 00:00 to 01:00 of
    1 October do not exist, and those from 23:00 to 24:00 of 23 March come
    twice; both are read with the offset before the change. *)
Definition asuncion_zone : JsDate.Zone :=
  fun t isUTC =>
    if isUTC then
      if (t <? 1696132800000)%Z then (-14400000)%Z
      else if (t <? 1711249200000)%Z then (-10800000)%Z
      else (-14400000)%Z
    else
      if (t <? 1696122000000)%Z then (-14400000)%Z
      else if (t <? 1711238400000)%Z then (-10800000)%Z
      else (-14400000)%Z.

(** A zone that skips a day, as the Line Islands did: ten hours behind
    UTC until the end of 30 December 1994, fourteen hours ahead from
    1 January 1995; 31 December 1994 does not exist. *)
Definition line_islands_zone : JsDate.Zone :=
  fun t isUTC =>
    if isUTC then
      if (t <? 788868000000)%Z then (-36000000)%Z else 50400000%Z
    else
      if (t <? 788918400000)%Z then (-36000000)%Z else 50400000%Z.

(** [example_host] in another zone. *)
Definition host_in (z : JsDate.Zone) : Host :=
  {| LocalTZA := z;
     Number_toString := Number_toString example_host;
     Date_toString := Date_toString example_host;
     Number_ofString := Number_ofString example_host;
     parseFloat := parseFloat example_host;
     Date_parse := Date_parse example_host;
     inherited := inherited example_host |}.

(** A mapping with the five required roles and an OT-type column. *)
Definition example_mapping : ColumnMapping :=
  {| ColumnMapping.otNumber := "OT";
     ColumnMapping.folio := "";
     ColumnMapping.clientCode := "Cliente";
     ColumnMapping.workshop := "Taller";
     ColumnMapping.promisedDate := "Estimada";
     ColumnMapping.secondPromisedDate := None;
     ColumnMapping.realDeliveryDate := "Real";
     ColumnMapping.billingDate := None;
     ColumnMapping.amount := "";
     ColumnMapping.otType := "Tipo";
     ColumnMapping.invoiceNumber := None;
     ColumnMapping.additionalFilters := [] |}.

(** The same mapping with other headers for the OT type and the
    workshop. *)
Definition example_mapping_with (otType workshop : string)
  : ColumnMapping :=
  {| ColumnMapping.otNumber := "OT";
     ColumnMapping.folio := "";
     ColumnMapping.clientCode := "Cliente";
     ColumnMapping.workshop := workshop;
     ColumnMapping.promisedDate := "Estimada";
     ColumnMapping.secondPromisedDate := None;
     ColumnMapping.realDeliveryDate := "Real";
     ColumnMapping.billingDate := None;
     ColumnMapping.amount := "";
     ColumnMapping.otType := otType;
     ColumnMapping.invoiceNumber := None;
     ColumnMapping.additionalFilters := [] |}.

(** The mapping with an amount column as well. *)
Definition example_mapping_amount : ColumnMapping :=
  {| ColumnMapping.otNumber := "OT";
     ColumnMapping.folio := "";
     ColumnMapping.clientCode := "Cliente";
     ColumnMapping.workshop := "Taller";
     ColumnMapping.promisedDate := "Estimada";
     ColumnMapping.secondPromisedDate := None;
     ColumnMapping.realDeliveryDate := "Real";
     ColumnMapping.billingDate := None;
     ColumnMapping.amount := "Importe";
     ColumnMapping.otType := "Tipo";
     ColumnMapping.invoiceNumber := None;
     ColumnMapping.additionalFilters := [] |}.

(** A row with an OT number and a client code. *)
Definition example_row (ot client : string) : ExcelRow :=
  {[ "OT" := Text ot; "Cliente" := Text client ]}.

(** The filter state with every criterion switched off. *)
Definition example_filter : FilterState :=
  {| selectedYear := "all"; selectedMonth := "all";
     selectedWorkshop := "all"; dynamicFilters := ∅ |}.

(** A record with the given identity, client and dates and nothing else. *)
Definition example_record (otId client : string)
    (estimated real : option Date) : ParsedOT :=
  {| id := otId; invoiceId := None; folio := ""; workshop := "Taller 1";
     estimatedDate := estimated; secondEstimatedDate := None;
     realDate := real; billingDate := None; status := "Procesado";
     clientCode := client;
     isInternalClient := includesStr INTERNAL_CLIENT_CODES client;
     amount := 0%float; otType := "N/A"; customValues := ∅ |}.

(** ** Vocabulary of the properties *)

(** The OT ids of a list of records, in order. *)
Definition idsOf (rows : list Obj) : list string :=
  map (fun o => id (val o)) rows.

(** How many times [k] occurs in [l]. *)
Definition occurrences (k : string) (l : list string) : nat :=
  List.length (List.filter (String.eqb k) l).

(** The distinct ids that occur more than once. *)
Definition repeatedIds (l : list string) : list string :=
  List.filter (fun k => (2 <=? occurrences k l)%nat) (remove_dups l).

(** The number of occurrences of ids that are not the first of their id. *)
Fixpoint nonFirstOccurrences (seen l : list string) : nat :=
  match l with
  | [] => 0
  | k :: l' =>
      (if includesStr seen k then 1 else 0)
      + nonFirstOccurrences (k :: seen) l'
  end.

(** The reconciliation of a sequence of records: what [processSheet] does
    with the records of the rows that have an OT number. *)
Definition reconcileAll (rs : list ParsedOT) : Loop.state :=
  foldl ingest Loop.init rs.

Definition survivors (rs : list ParsedOT) : list Obj :=
  Map_values (Loop.otMapForCompliance (reconcileAll rs)).

(** The OT number read from a row, and whether it is blank. *)
Definition otNumberOf (h : Host) (mapping : ColumnMapping) (row : ExcelRow)
  : string :=
  textField h row (ColumnMapping.otNumber mapping) "".

Definition blankOt (h : Host) (mapping : ColumnMapping) (row : ExcelRow)
  : bool :=
  negb (nonEmpty (otNumberOf h mapping row)).

(** A value read from a row that is [undefined] or falsy, and one that is
    a text of white space only. *)
Definition falsyCell (v : option cell) : bool :=
  match v with Some c => negb (truthy c) | None => true end.

Definition whitespaceCell (v : option cell) : bool :=
  match v with
  | Some (Text s) => nonEmpty s && whitespaceOnly s
  | _ => false
  end.

(** A blank value: [undefined], [null], or a text that is empty or of
    white space only. *)
Definition blankCell (v : option cell) : bool :=
  match v with
  | None | Some Null => true
  | Some (Text s) => whitespaceOnly s
  | Some _ => false
  end.

Definition Delivery_eqb (a b : Delivery) : bool :=
  match a, b with
  | OnTime, OnTime | Late, Late | Pending, Pending => true
  | _, _ => false
  end.

(** How many records of a list are classified as [d]. *)
Definition countDelivery (tza : JsDate.Zone) (d : Delivery) (ots : list Obj) : nat :=
  List.length
    (List.filter (fun o => Delivery_eqb (classify tza (val o)) d) ots).

(** The start of the local day of a time value, before it is clipped:
    what [setHours(0, 0, 0, 0)] hands to [TimeClip]. *)
Definition startOfLocalDay (tza : JsDate.Zone) (t : Z) : Z :=
  JsDate.UTC tza (JsDate.localDay tza t * JsDate.msPerDay).

(** An integer that is a time value: within the range of [TimeClip]. *)
Definition isTimeValue (t : Z) : bool := (Z.abs t <=? JsDate.maxTime)%Z.

(** Day-granularity comparison of two time values in local time. *)
Definition dayLe (tza : JsDate.Zone) (r t : Z) : bool :=
  (JsDate.localDay tza r <=? JsDate.localDay tza t)%Z.

(** A zone in which the local midnights of later days are later instants
    (it fails where a clock change skips a whole day), and one in which
    they are never earlier. *)
Definition midnightsIncrease (tza : JsDate.Zone) : Prop :=
  forall d1 d2 : Z,
    (d1 < d2)%Z ->
    (JsDate.UTC tza (d1 * JsDate.msPerDay)
     < JsDate.UTC tza (d2 * JsDate.msPerDay))%Z.

Definition midnightsInOrder (tza : JsDate.Zone) : Prop :=
  forall d1 d2 : Z,
    (d1 <= d2)%Z ->
    (JsDate.UTC tza (d1 * JsDate.msPerDay)
     <= JsDate.UTC tza (d2 * JsDate.msPerDay))%Z.

(** A zone in which the local day never goes back as time goes on (it
    fails where the clocks are put back across a midnight). *)
Definition localDaysInOrder (tza : JsDate.Zone) : Prop :=
  forall a b : Z,
    (a <= b)%Z -> (JsDate.localDay tza a <= JsDate.localDay tza b)%Z.

(** The local day [day] starts on itself: its local midnight, as the
    zone places it in time, is a time of that local day, and the offset
    there is within a day. It fails where the zone skips the whole day. *)
Definition dayKept (tza : JsDate.Zone) (day : Z) : bool :=
  ((Z.abs (tza (day * JsDate.msPerDay) false) <=? JsDate.msPerDay)
   && (JsDate.localDay tza (JsDate.UTC tza (day * JsDate.msPerDay))
       =? day))%Z.

(** Modelled from the spec: the serial number of a date, days since
    1899-12-30, as milliseconds since the Unix epoch divided by 86400000
    plus 25569; the source has no such function. *)
Definition serialOfDate_spec (d : Date) : option float :=
  match getTime d with
  | Some t => Some (float_of_Z t / 86400000 + 25569)%float
  | None => None
  end.

(** The invariant of the pass over the rows: objects are numbered in the
    order of [allRows]; the compliance map has one entry per id seen, each
    holding an object of [allRows] with that id; and the counters add up. *)
Record loopInv (st : Loop.state) : Prop := {
  inv_addr :
    map addr (Loop.allRows st) = seq 0 (List.length (Loop.allRows st));
  inv_nodup : NoDup (Map_keys (Loop.otMapForCompliance st));
  inv_entry : forall k o,
    (k, o) ∈ Loop.otMapForCompliance st ->
    id (val o) = k /\ o ∈ Loop.allRows st;
  inv_keys : forall k,
    k ∈ Map_keys (Loop.otMapForCompliance st)
    <-> k ∈ idsOf (Loop.allRows st);
  inv_dups :
    Loop.duplicatesRemovedForCompliance st
    + List.length (Loop.otMapForCompliance st)
    = List.length (Loop.allRows st);
  inv_seen :
    Loop.duplicatesRemovedForCompliance st
    = nonFirstOccurrences [] (idsOf (Loop.allRows st));
  inv_removed :
    List.length (Loop.removedOtIds st)
    = Loop.duplicatesRemovedForCompliance st
}.

(** The state with [total] more rows read and [empty] more of them blank. *)
Definition addCounts (total empty : nat) (st : Loop.state) : Loop.state :=
  {| Loop.allRows := Loop.allRows st;
     Loop.otMapForCompliance := Loop.otMapForCompliance st;
     Loop.totalRows := total + Loop.totalRows st;
     Loop.emptyRows := empty + Loop.emptyRows st;
     Loop.duplicatesRemovedForCompliance :=
       Loop.duplicatesRemovedForCompliance st;
     Loop.removedOtIds := Loop.removedOtIds st |}.

(** The records of the rows that have an OT number, in order, and the
    number of rows that have none. *)
Definition recordsOf (h : Host) (mapping : ColumnMapping)
    (rows : list ExcelRow) : list ParsedOT :=
  omap (fun row =>
          if blankOt h mapping row then None
          else Some (parseRow h mapping row (otNumberOf h mapping row)))
       rows.

Definition blankRows (h : Host) (mapping : ColumnMapping)
    (rows : list ExcelRow) : nat :=
  List.length (List.filter (blankOt h mapping) rows).

(** ** The rest of the helpers, the dashboard, the audit panel and the
       column mapper *)

(** An element of the header array that [sheet_to_json] returns with
    [header: 1]: an empty slot of the array (which [map] and [filter] skip),
    [undefined], or a cell. *)
Inductive slot :=
| Hole
| Undefined
| Value (c : cell).

(** [getSheetHeaders], from the rows of the sheet as arrays:
    [data[0].map(h => String(h).trim()).filter(h => h !== '')], and no
    header when the sheet has no row. *)
Definition getSheetHeaders (h : Host) (data : list (list slot))
  : list string :=
  match data with
  | [] => []
  | first :: _ =>
      List.filter nonEmpty
        (omap (fun x =>
                 match x with
                 | Hole => None
                 | Undefined => Some (trim "undefined")
                 | Value c => Some (trim (ToString h c))
                 end)
              first)
  end.

(** [validRows] of the audit panel:
    [totalRows - emptyRows - duplicatesRemovedForCompliance]. *)
Definition validRows (r : ProcessingReport) : Z :=
  (Z.of_nat (totalRows r) - Z.of_nat (emptyRows r)
   - Z.of_nat (duplicatesRemovedForCompliance r))%Z.

(** [handleFilterToggle] of the column mapper, on the mapping it updates. *)
Definition handleFilterToggle (prev : ColumnMapping) (header : string)
  : ColumnMapping :=
  let exists_ :=
    includesStr (ColumnMapping.additionalFilters prev) header in
  {| ColumnMapping.otNumber := ColumnMapping.otNumber prev;
     ColumnMapping.folio := ColumnMapping.folio prev;
     ColumnMapping.clientCode := ColumnMapping.clientCode prev;
     ColumnMapping.workshop := ColumnMapping.workshop prev;
     ColumnMapping.promisedDate := ColumnMapping.promisedDate prev;
     ColumnMapping.secondPromisedDate :=
       ColumnMapping.secondPromisedDate prev;
     ColumnMapping.realDeliveryDate := ColumnMapping.realDeliveryDate prev;
     ColumnMapping.billingDate := ColumnMapping.billingDate prev;
     ColumnMapping.amount := ColumnMapping.amount prev;
     ColumnMapping.otType := ColumnMapping.otType prev;
     ColumnMapping.invoiceNumber := ColumnMapping.invoiceNumber prev;
     ColumnMapping.additionalFilters :=
       if exists_
       then List.filter (fun f => negb (String.eqb f header))
              (ColumnMapping.additionalFilters prev)
       else ColumnMapping.additionalFilters prev ++ [header] |}.

(** [String.prototype.toLowerCase] on code units below 256: the letters A
    to Z and the capital letters of Latin-1 (192 to 222 but for the
    multiplication sign 215) move up by 32. *)
Definition lowerChar (c : ascii) : ascii :=
  let n := N_of_ascii c in
  if ((65 <=? n) && (n <=? 90)
      || (192 <=? n) && (n <=? 222) && negb (n =? 215))%N
  then ascii_of_N (n + 32) else c.

Fixpoint toLowerCase (s : string) : string :=
  match s with
  | EmptyString => EmptyString
  | String c s' => String (lowerChar c) (toLowerCase s')
  end.

(** [s.startsWith(p)] and [s.includes(p)] for a text [p]. *)
Fixpoint startsWith (s p : string) : bool :=
  match p, s with
  | EmptyString, _ => true
  | String _ _, EmptyString => false
  | String a p', String b s' => Ascii.eqb a b && startsWith s' p'
  end.

Fixpoint includesText (s p : string) : bool :=
  startsWith s p
  || match s with
     | EmptyString => false
     | String _ s' => includesText s' p
     end.

Section MoreViews.
Variable tza : JsDate.Zone.
Variable f : FilterState.

(** The predicate of [claimsData]: the designated client, an OT type that
    is not empty and contains "reclamo" in any case, and the common
    filters. *)
Definition keepClaim (o : Obj) : bool :=
  let isClientMatch := String.eqb (clientCode (val o)) "C0008157" in
  let isTypeMatch :=
    nonEmpty (otType (val o))
    && includesText (toLowerCase (otType (val o))) "reclamo" in
  if negb isClientMatch || negb isTypeMatch then false
  else checkFilters tza f (val o).

Definition claimsData (allRows : list Obj) : list Obj :=
  List.filter keepClaim allRows.

(** [claimsData.length] and [new Set(claimsData.map(c => c.id)).size]. *)
Definition claimsCount (allRows : list Obj) : nat :=
  List.length (claimsData allRows).

Definition claimsUniqueOTs (allRows : list Obj) : nat :=
  List.length (remove_dups (idsOf (claimsData allRows))).

(** [financialData.length]. *)
Definition financialCount (allRows : list Obj) : nat :=
  List.length (financialData tza f allRows).
End MoreViews.

(** The ['Estado'] column of the exported sheet (lines 184 to 186 of the
    dashboard): it reads [estimatedDate] and compares the dates as they
    are. *)
Definition estado (ot : ParsedOT) : string :=
  if negb (present (realDate ot)) && negb (present (estimatedDate ot))
  then "Sin Fecha"
  else if match realDate ot, estimatedDate ot with
          | Some r, Some e => JsDate.le r e
          | _, _ => false
          end
  then "A Tiempo"
  else if negb (present (realDate ot)) then "Pendiente"
  else "Retraso".

(** A stable sort by a comparison, as [Array.prototype.sort] is with a
    consistent comparator: [before a b] tells that [a] may stay ahead of
    [b]. *)
Section Sort.
Context {A : Type} (before : A -> A -> bool).

Fixpoint insertSorted (x : A) (l : list A) : list A :=
  match l with
  | [] => [x]
  | y :: l' => if before x y then x :: y :: l' else y :: insertSorted x l'
  end.

Definition sortBy (l : list A) : list A := foldr insertSorted [] l.
End Sort.

(** One line of the workshop ranking. *)
Module WorkshopStats.
Record t := {
  name : string;
  totalOTs : nat;
  onTime : nat;
  late : nat;
  pending : nat;
  complianceRate : float;
  totalAmount : float
}.
End WorkshopStats.

Section Ranking.
Variable h : Host.
(** [x.toFixed(2)], which the engine renders. *)
Variable toFixed2 : float -> string.

(** [parseFloat(((onTime / total) * 100).toFixed(2))], and [0] when there
    is nothing to divide by. *)
Definition rate (onTime total : nat) : float :=
  let complianceRate :=
    if (0 <? total)%nat
    then (float_of_Z (Z.of_nat onTime) / float_of_Z (Z.of_nat total)
          * 100)%float
    else 0%float in
  parseFloat h (toFixed2 complianceRate).

(** Lines 249 to 264 of [calculateStats]: one line per entry of
    [workshopMap], sorted by [b.totalOTs - a.totalOTs]. *)
Definition workshops (g : GlobalStats) : list WorkshopStats.t :=
  sortBy
    (fun a b => (WorkshopStats.totalOTs b <=? WorkshopStats.totalOTs a)%nat)
    (map (fun '(key, v) =>
            {| WorkshopStats.name := key;
               WorkshopStats.totalOTs := Tally.total v;
               WorkshopStats.onTime := Tally.onTime v;
               WorkshopStats.late := Tally.late v;
               WorkshopStats.pending := Tally.pending v;
               WorkshopStats.complianceRate :=
                 rate (Tally.onTime v) (Tally.total v);
               WorkshopStats.totalAmount := Tally.amount v |})
         (workshopMap g)).

(** [averageCompliance] of the result. *)
Definition averageCompliance (g : GlobalStats) : float :=
  rate (totalOnTime g) (totalOTs g).
End Ranking.

(** [availableWorkshops] of the dashboard: the workshops of the rows, each
    once, in the order of [Array.prototype.sort] without a comparator (by
    code units). *)
Definition availableWorkshops (allRows : list Obj) : list string :=
  sortBy String.leb (remove_dups (map (fun o => workshop (val o)) allRows)).

(** *** Vocabulary of the further properties *)

(** The priority of a record among those of its id: external before
    internal, then with a real delivery date before without. *)
Definition priority (r : ParsedOT) : nat :=
  (if isInternalClient r then 0 else 2)
  + (if present (realDate r) then 1 else 0).

(** The distinct elements of a list in the order of their first
    occurrence. *)
Fixpoint firstOccurrences (seen l : list string) : list string :=
  match l with
  | [] => []
  | k :: l' =>
      if includesStr seen k then firstOccurrences seen l'
      else k :: firstOccurrences (k :: seen) l'
  end.

(** The records of a list that belong to a workshop. *)
Definition inWorkshop (w : string) (ots : list Obj) : list Obj :=
  List.filter (fun o => String.eqb (workshop (val o)) w) ots.

(** A date field that is [null] or a valid date. *)
Definition nullOrValid (d : option Date) : bool :=
  match d with
  | Some d' => negb (JsDate.isInvalid d')
  | None => true
  end.

(** The length of a month (1 to 12), February without its leap day. *)
Definition monthLength (m : Z) : Z :=
  if (m =? 2)%Z then 28
  else if ((m =? 4) || (m =? 6) || (m =? 9) || (m =? 11))%Z then 30
  else 31.

(** A filter state that filters nothing: no year, no workshop, and every
    dynamic filter on ["all"]. *)
Definition noFilter (f : FilterState) : Prop :=
  selectedYear f = "all" /\ selectedWorkshop f = "all"
  /\ forall field value,
       dynamicFilters f !! field = Some value -> value = "all".

(** The filter state [g] is [f] with some criteria switched off. *)
Definition relaxes (g f : FilterState) : Prop :=
  (selectedYear g = "all"
   \/ selectedYear g = selectedYear f
      /\ (selectedMonth g = "all" \/ selectedMonth g = selectedMonth f))
  /\ (selectedWorkshop g = "all" \/ selectedWorkshop g = selectedWorkshop f)
  /\ forall field value,
       dynamicFilters g !! field = Some value ->
       value = "all" \/ dynamicFilters f !! field = Some value.

(** A record with a billing date. *)
Definition billed_record (otId client : string) (billed : Date) : ParsedOT :=
  {| id := otId; invoiceId := None; folio := ""; workshop := "Taller 1";
     estimatedDate := None; secondEstimatedDate := None;
     realDate := None; billingDate := Some billed; status := "Procesado";
     clientCode := client;
     isInternalClient := includesStr INTERNAL_CLIENT_CODES client;
     amount := 0%float; otType := "N/A"; customValues := ∅ |}.

(** * Properties *)

(** ** The normalizers on examples *)

Example trim_example : trim "  OT 12 " = "OT 12".
Proof. reflexivity. Qed.

(** Day first, then year first, then a serial number written as text: all
    three are 10 March 2024 at local midnight, three hours behind UTC, and
    the serial is midnight UTC. *)
Example parseExcelDate_text_examples :
  parseExcelDate example_host (Some (Text "10/03/2024"))
  = Some (JsDate.at_ms 1710039600000)
  /\ parseExcelDate example_host (Some (Text " 2024-3-10 "))
     = Some (JsDate.at_ms 1710039600000)
  /\ parseExcelDate example_host (Some (Text "45361"))
     = Some (JsDate.at_ms 1710028800000)
  /\ parseExcelDate example_host (Some (Text "   ")) = None
  /\ parseExcelDate example_host (Some (Bool true)) = None
  /\ parseExcelDate example_host None = None.
Proof. repeat split; vm_compute; reflexivity. Qed.

(** A sheet of six rows: three rows of one OT, a row with no OT number, a
    row of another OT and a row whose OT number is a numeric cell. *)
Example processSheet_example :
  let res :=
    processSheet example_host example_mapping
      [example_row "A" "X"; example_row "A" "C0008157"; example_row "A" "Y";
       ∅; example_row "B" "C0008157"; {[ "OT" := Num 12 ]}] in
  map (fun o => (addr o, id (val o), clientCode (val o))) (allRows res)
  = [(0, "A", "X"); (1, "A", "C0008157"); (2, "A", "Y");
     (3, "B", "C0008157"); (4, "12", "")]
  /\ map (fun o => (addr o, id (val o))) (uniqueOTs res)
     = [(0, "A"); (3, "B"); (4, "12")]
  /\ totalRows (report res) = 6
  /\ emptyRows (report res) = 1
  /\ duplicatesRemovedForCompliance (report res) = 2
  /\ removedOtIds (report res)
     = ["A (Duplicado interno ignorado)"; "A (Duplicado ignorado)"]
  /\ internalClientsCount (report res) = 2
  /\ internalClientsByCode (report res) !! "C0008157" = Some 2.
Proof. repeat split; vm_compute; reflexivity. Qed.

(** ** Text *)

Lemma nonEmpty_false (s : string) : nonEmpty s = false <-> s = "".
Proof. destruct s; simpl; split; congruence. Qed.

Lemma nonEmpty_true (s : string) : nonEmpty s = true <-> s <> "".
Proof. destruct s; simpl; split; congruence. Qed.

Lemma trimStart_whitespaceOnly (s : string) :
  whitespaceOnly s = true -> trimStart s = "".
Proof.
  induction s as [|c s IH]; simpl; [reflexivity|].
  intros [Hc Hs]%andb_prop. rewrite Hc. auto.
Qed.

Lemma trim_whitespaceOnly (s : string) :
  whitespaceOnly s = true -> trim s = "".
Proof. intros H. unfold trim. now rewrite trimStart_whitespaceOnly. Qed.

Lemma includesStr_In (l : list string) (x : string) :
  includesStr l x = true <-> x ∈ l.
Proof.
  unfold includesStr. rewrite existsb_exists. split.
  - intros (y & Hy & ->%String.eqb_eq). now apply list_elem_of_In.
  - intros Hx. exists x. split; [now apply list_elem_of_In|].
    apply String.eqb_refl.
Qed.

Lemma includesStr_false (l : list string) (x : string) :
  includesStr l x = false <-> x ∉ l.
Proof.
  rewrite <- includesStr_In. destruct (includesStr l x); split; congruence.
Qed.

(** ** The insertion-ordered map *)

Section OrderedMapFacts.
Context {V : Type}.
Implicit Types (m : list (string * V)) (k : string) (v : V).

Lemma Map_get_Some m k v : Map_get m k = Some v -> (k, v) ∈ m.
Proof.
  induction m as [|[k' v'] m IH]; simpl; [discriminate|].
  destruct (String.eqb_spec k k') as [->|Hne].
  - intros [= ->]. left.
  - intros H. right. auto.
Qed.

Lemma Map_get_None m k : Map_get m k = None <-> k ∉ Map_keys m.
Proof.
  induction m as [|[k' v'] m IH]; simpl.
  - split; [intros _; apply not_elem_of_nil | reflexivity].
  - rewrite not_elem_of_cons.
    destruct (String.eqb_spec k k') as [->|Hne]; split.
    + discriminate.
    + intros [? _]. congruence.
    + intros H. split; [assumption | now apply IH].
    + intros [_ H]. now apply IH.
Qed.

Lemma Map_get_is_Some m k : is_Some (Map_get m k) <-> k ∈ Map_keys m.
Proof.
  destruct (Map_get m k) as [v|] eqn:E.
  - split; [intros _ | eauto].
    destruct (decide (k ∈ Map_keys m)) as [|Hn]; [assumption|].
    apply Map_get_None in Hn. congruence.
  - split; [intros [? ?]; discriminate|].
    intros Hin. apply Map_get_None in E. contradiction.
Qed.

Lemma Map_keys_set_new m k v :
  k ∉ Map_keys m -> Map_set m k v = m ++ [(k, v)].
Proof.
  induction m as [|[k' v'] m IH]; simpl; [reflexivity|].
  rewrite not_elem_of_cons. intros [Hne Hnin].
  destruct (String.eqb_spec k k'); [contradiction|].
  now rewrite IH.
Qed.

Lemma Map_keys_set_old m k v :
  k ∈ Map_keys m -> Map_keys (Map_set m k v) = Map_keys m.
Proof.
  induction m as [|[k' v'] m IH]; simpl.
  - intros H. now apply elem_of_nil in H.
  - destruct (String.eqb_spec k k') as [->|Hne]; [reflexivity|].
    intros [?|Hin]%elem_of_cons; [contradiction|].
    unfold Map_keys in *. simpl. now rewrite IH.
Qed.

Lemma Map_set_length_old m k v :
  k ∈ Map_keys m -> List.length (Map_set m k v) = List.length m.
Proof.
  intros H. apply (Map_keys_set_old m k v) in H.
  apply (f_equal (@List.length _)) in H.
  unfold Map_keys in H. now rewrite !length_map in H.
Qed.

Lemma Map_set_elem m k v k' v' :
  (k', v') ∈ Map_set m k v -> (k', v') = (k, v) \/ (k', v') ∈ m.
Proof.
  induction m as [|[k0 v0] m IH]; simpl.
  - intros ->%list_elem_of_singleton. now left.
  - destruct (String.eqb_spec k k0) as [->|Hne].
    + intros [->|Hin]%elem_of_cons; [now left | right; now right].
    + intros [->|Hin]%elem_of_cons; [right; left|].
      destruct (IH Hin) as [?|?]; [now left | right; now right].
Qed.

Lemma Map_get_set_eq m k v : Map_get (Map_set m k v) k = Some v.
Proof.
  induction m as [|[k0 v0] m IH]; simpl.
  - now rewrite String.eqb_refl.
  - destruct (String.eqb_spec k k0) as [->|Hne]; simpl.
    + now rewrite String.eqb_refl.
    + destruct (String.eqb_spec k k0); [contradiction | assumption].
Qed.
End OrderedMapFacts.

(** ** Counting occurrences *)

Lemma includesStr_perm (l1 l2 : list string) (k : string) :
  (forall x, x ∈ l1 <-> x ∈ l2) -> includesStr l1 k = includesStr l2 k.
Proof.
  intros H. apply Bool.eq_iff_eq_true. rewrite !includesStr_In. apply H.
Qed.

Lemma nonFirstOccurrences_snoc (seen l : list string) (k : string) :
  nonFirstOccurrences seen (l ++ [k])
  = nonFirstOccurrences seen l + (if includesStr (seen ++ l) k then 1 else 0).
Proof.
  revert seen. induction l as [|x l IH]; intros seen; simpl.
  - rewrite app_nil_r. lia.
  - rewrite IH.
    rewrite (includesStr_perm ((x :: seen) ++ l) (seen ++ x :: l) k).
    + lia.
    + intros y. simpl. rewrite !elem_of_cons, !elem_of_app, elem_of_cons.
      tauto.
Qed.

Lemma idsOf_snoc (l : list Obj) (o : Obj) :
  idsOf (l ++ [o]) = idsOf l ++ [id (val o)].
Proof. unfold idsOf. now rewrite map_app. Qed.

(** ** One record through the pass *)

(** What [ingest] does, in the two cases of the compliance map. *)
Lemma ingest_cases (st : Loop.state) (r : ParsedOT) :
  let o := {| addr := List.length (Loop.allRows st); val := r |} in
  exists (m : list (string * Obj)) (d : nat) (reasons : list string),
    ingest st r =
      {| Loop.allRows := Loop.allRows st ++ [o];
         Loop.otMapForCompliance := m;
         Loop.totalRows := Loop.totalRows st;
         Loop.emptyRows := Loop.emptyRows st;
         Loop.duplicatesRemovedForCompliance :=
           d + Loop.duplicatesRemovedForCompliance st;
         Loop.removedOtIds := Loop.removedOtIds st ++ reasons |}
    /\ List.length reasons = d
    /\ match Map_get (Loop.otMapForCompliance st) (id r) with
       | Some _ =>
           d = 1
           /\ (m = Loop.otMapForCompliance st
               \/ m = Map_set (Loop.otMapForCompliance st) (id r) o)
       | None => d = 0 /\ m = Loop.otMapForCompliance st ++ [(id r, o)]
       end.
Proof.
  intros o. unfold ingest, push, reconcile. simpl. fold o.
  destruct (Map_get (Loop.otMapForCompliance st) (id r)) as [e|] eqn:E.
  - repeat match goal with
           | |- context [if ?b then _ else _] => destruct b
           end;
      (eexists _, 1, [_]; split; [reflexivity|]; split; [reflexivity|];
       split; [reflexivity|]; auto).
  - exists (Loop.otMapForCompliance st ++ [(id r, o)]), 0, [].
    rewrite app_nil_r. apply Map_get_None in E.
    rewrite (Map_keys_set_new _ _ _ E). auto.
Qed.

Lemma ingest_inv (st : Loop.state) (r : ParsedOT) :
  loopInv st -> loopInv (ingest st r).
Proof.
  intros I. pose proof (ingest_cases st r) as (m & d & rs & -> & Hrs & Hm).
  set (o := {| addr := List.length (Loop.allRows st); val := r |}) in *.
  assert (Hids : id r ∈ Map_keys (Loop.otMapForCompliance st)
                 <-> includesStr (idsOf (Loop.allRows st)) (id r) = true).
  { rewrite includesStr_In. apply (inv_keys _ I). }
  destruct (Map_get (Loop.otMapForCompliance st) (id r)) as [e|] eqn:E.
  - destruct Hm as [-> Hm].
    assert (Hk : id r ∈ Map_keys (Loop.otMapForCompliance st)).
    { apply Map_get_is_Some. rewrite E. eauto. }
    assert (Hkeys : Map_keys m = Map_keys (Loop.otMapForCompliance st)).
    { destruct Hm as [->| ->]; [reflexivity | now apply Map_keys_set_old]. }
    assert (Hlen : List.length m
                   = List.length (Loop.otMapForCompliance st)).
    { apply (f_equal (@List.length _)) in Hkeys.
      unfold Map_keys in Hkeys. now rewrite !length_map in Hkeys. }
    constructor; simpl.
    + rewrite map_app, length_app, (inv_addr _ I). simpl.
      now rewrite Nat.add_1_r, seq_S.
    + rewrite Hkeys. apply (inv_nodup _ I).
    + intros k o' Hin. rewrite elem_of_app.
      destruct Hm as [->| ->].
      * destruct (inv_entry _ I k o' Hin). auto.
      * apply Map_set_elem in Hin as [[= -> ->]|Hin].
        -- split; [reflexivity|]. right. apply list_elem_of_singleton.
           reflexivity.
        -- destruct (inv_entry _ I k o' Hin). auto.
    + intros k. rewrite Hkeys, idsOf_snoc, elem_of_app, (inv_keys _ I).
      rewrite list_elem_of_singleton. simpl. split; [tauto|].
      intros [?| ->]; [assumption|]. now apply (inv_keys _ I).
    + rewrite Hlen, length_app. simpl. pose proof (inv_dups _ I). lia.
    + rewrite idsOf_snoc, nonFirstOccurrences_snoc. simpl.
      apply Hids in Hk. rewrite Hk. pose proof (inv_seen _ I). lia.
    + rewrite length_app, Hrs. pose proof (inv_removed _ I). lia.
  - destruct Hm as [-> ->].
    assert (Hk : id r ∉ Map_keys (Loop.otMapForCompliance st)).
    { now apply Map_get_None. }
    constructor; simpl.
    + rewrite map_app, length_app, (inv_addr _ I). simpl.
      now rewrite Nat.add_1_r, seq_S.
    + unfold Map_keys. rewrite map_app. simpl.
      apply NoDup_app. split; [apply (inv_nodup _ I)|].
      split; [|apply NoDup_singleton].
      intros k Hin ->%list_elem_of_singleton. contradiction.
    + intros k o' [Hin|[= -> ->]%list_elem_of_singleton]%elem_of_app;
        rewrite elem_of_app.
      * destruct (inv_entry _ I k o' Hin). auto.
      * split; [reflexivity|]. right. apply list_elem_of_singleton.
        reflexivity.
    + intros k. unfold Map_keys. rewrite map_app, idsOf_snoc. simpl.
      rewrite !elem_of_app, !list_elem_of_singleton.
      pose proof (inv_keys _ I k) as Hkk. unfold Map_keys in Hkk. tauto.
    + rewrite !length_app. simpl. pose proof (inv_dups _ I). lia.
    + rewrite idsOf_snoc, nonFirstOccurrences_snoc. simpl.
      destruct (includesStr (idsOf (Loop.allRows st)) (id r)) eqn:Hi.
      * exfalso. apply Hk. now apply Hids.
      * pose proof (inv_seen _ I). lia.
    + rewrite length_app, Hrs. pose proof (inv_removed _ I). lia.
Qed.

Lemma init_inv : loopInv Loop.init.
Proof.
  constructor; simpl; try reflexivity.
  - apply NoDup_nil_2.
  - intros k o H. now apply elem_of_nil in H.
Qed.

(** ** The pass over the rows *)

Lemma ingest_addCounts (a b : nat) (st : Loop.state) (r : ParsedOT) :
  ingest (addCounts a b st) r = addCounts a b (ingest st r).
Proof.
  unfold ingest, push, reconcile, addCounts. simpl.
  destruct (Map_get _ _);
    repeat match goal with
           | |- context [if ?c then _ else _] => destruct c
           end; reflexivity.
Qed.

Lemma processRow_blank (h : Host) (mapping : ColumnMapping)
    (st : Loop.state) (row : ExcelRow) :
  blankOt h mapping row = true ->
  processRow h mapping st row = addCounts 1 1 st.
Proof.
  unfold blankOt, otNumberOf, processRow. intros ->. reflexivity.
Qed.

Lemma processRow_record (h : Host) (mapping : ColumnMapping)
    (st : Loop.state) (row : ExcelRow) :
  blankOt h mapping row = false ->
  processRow h mapping st row
  = addCounts 1 0
      (ingest st (parseRow h mapping row (otNumberOf h mapping row))).
Proof.
  unfold blankOt, otNumberOf, processRow. intros ->.
  rewrite <- ingest_addCounts. reflexivity.
Qed.

Lemma addCounts_add (a b c d : nat) (st : Loop.state) :
  addCounts a b (addCounts c d st) = addCounts (a + c) (b + d) st.
Proof. unfold addCounts. simpl. f_equal; lia. Qed.

Lemma foldl_ingest_addCounts (a b : nat) (rs : list ParsedOT)
    (st : Loop.state) :
  foldl ingest (addCounts a b st) rs = addCounts a b (foldl ingest st rs).
Proof.
  revert st. induction rs as [|r rs IH]; intros st; simpl; [reflexivity|].
  now rewrite ingest_addCounts, IH.
Qed.

(** The pass is the reconciliation of the records of the non-blank rows,
    with the two row counters on top. *)
Lemma foldl_processRow (h : Host) (mapping : ColumnMapping)
    (rows : list ExcelRow) (st : Loop.state) :
  foldl (processRow h mapping) st rows
  = addCounts (List.length rows) (blankRows h mapping rows)
      (foldl ingest st (recordsOf h mapping rows)).
Proof.
  revert st. induction rows as [|row rows IH]; intros st.
  - destruct st; reflexivity.
  - simpl. rewrite IH. unfold recordsOf, blankRows. simpl.
    destruct (blankOt h mapping row) eqn:B.
    + rewrite (processRow_blank _ _ _ _ B). simpl.
      rewrite foldl_ingest_addCounts, addCounts_add.
      f_equal; lia.
    + rewrite (processRow_record _ _ _ _ B). simpl.
      rewrite foldl_ingest_addCounts, addCounts_add.
      f_equal; lia.
Qed.

Lemma reconcileAll_inv (rs : list ParsedOT) : loopInv (reconcileAll rs).
Proof.
  unfold reconcileAll. generalize init_inv. generalize Loop.init.
  induction rs as [|r rs IH]; intros st I; simpl; [assumption|].
  apply IH. now apply ingest_inv.
Qed.

Lemma processSheet_allRows (h : Host) (mapping : ColumnMapping)
    (rows : list ExcelRow) :
  allRows (processSheet h mapping rows)
  = Loop.allRows (reconcileAll (recordsOf h mapping rows)).
Proof. unfold processSheet. simpl. now rewrite foldl_processRow. Qed.

Lemma processSheet_uniqueOTs (h : Host) (mapping : ColumnMapping)
    (rows : list ExcelRow) :
  uniqueOTs (processSheet h mapping rows)
  = survivors (recordsOf h mapping rows).
Proof. unfold processSheet. simpl. now rewrite foldl_processRow. Qed.

Lemma foldl_ingest_rows (rs : list ParsedOT) (st : Loop.state) :
  Loop.totalRows (foldl ingest st rs) = Loop.totalRows st
  /\ Loop.emptyRows (foldl ingest st rs) = Loop.emptyRows st.
Proof.
  revert st. induction rs as [|r rs IH]; intros st; simpl; [auto|].
  destruct (IH (ingest st r)) as [-> ->].
  destruct (ingest_cases st r) as (m & d & reasons & -> & _). auto.
Qed.

Lemma processSheet_report (h : Host) (mapping : ColumnMapping)
    (rows : list ExcelRow) :
  let st := reconcileAll (recordsOf h mapping rows) in
  report (processSheet h mapping rows)
  = {| totalRows := List.length rows;
       emptyRows := blankRows h mapping rows;
       duplicatesRemovedForCompliance :=
         Loop.duplicatesRemovedForCompliance st;
       removedOtIds := Loop.removedOtIds st;
       internalClientsCount := fst (tallyInternal (Loop.allRows st));
       internalClientsByCode := snd (tallyInternal (Loop.allRows st)) |}.
Proof.
  unfold processSheet. simpl. rewrite foldl_processRow. simpl.
  destruct (foldl_ingest_rows (recordsOf h mapping rows) Loop.init)
    as [-> ->].
  simpl. unfold reconcileAll. f_equal; lia.
Qed.

(** ** Lists of ids *)

Lemma occurrences_cons (k x : string) (l : list string) :
  occurrences k (x :: l)
  = (if String.eqb k x then 1 else 0) + occurrences k l.
Proof. unfold occurrences. simpl. now destruct (String.eqb k x). Qed.

Lemma occurrences_notin (k : string) (l : list string) :
  k ∉ l -> occurrences k l = 0.
Proof.
  induction l as [|x l IH]; [reflexivity|].
  rewrite not_elem_of_cons, occurrences_cons. intros [Hne Hnin].
  destruct (String.eqb_spec k x); [contradiction|]. now rewrite IH.
Qed.

Lemma occurrences_in (k : string) (l : list string) :
  k ∈ l -> 1 <= occurrences k l.
Proof.
  induction l as [|x l IH]; [intros H; now apply elem_of_nil in H|].
  rewrite occurrences_cons. intros [->|Hin]%elem_of_cons.
  - rewrite String.eqb_refl. lia.
  - specialize (IH Hin). lia.
Qed.

Lemma occurrences_NoDup (k : string) (l : list string) :
  NoDup l -> k ∈ l -> occurrences k l = 1.
Proof.
  induction 1 as [|x l Hnin Hnd IH]; [intros H; now apply elem_of_nil in H|].
  rewrite occurrences_cons. intros [->|Hin]%elem_of_cons.
  - rewrite String.eqb_refl, occurrences_notin; auto.
  - destruct (String.eqb_spec k x) as [->|]; [contradiction|]. auto.
Qed.

(** Changing a predicate at one point of a duplicate-free list changes the
    filtered length by at most one. *)
Lemma filter_change_one (P Q : string -> bool) (x : string)
    (l : list string) :
  NoDup l -> (forall k, k <> x -> Q k = P k) ->
  List.length (List.filter Q l) <= S (List.length (List.filter P l)).
Proof.
  intros Hnd Hagree. induction Hnd as [|y l Hnin Hnd IH]; simpl; [lia|].
  destruct (decide (y = x)) as [->|Hne].
  - rewrite (filter_ext_in Q P l).
    + destruct (Q x), (P x); simpl; lia.
    + intros k Hk%list_elem_of_In. apply Hagree. intros ->. contradiction.
  - rewrite (Hagree y Hne). destruct (P y); simpl; lia.
Qed.

Lemma filter_gain_one (P Q : string -> bool) (x : string)
    (l : list string) :
  NoDup l -> x ∈ l -> P x = false -> Q x = true ->
  (forall k, k <> x -> Q k = P k) ->
  List.length (List.filter Q l) = S (List.length (List.filter P l)).
Proof.
  intros Hnd Hin HP HQ Hagree.
  induction Hnd as [|y l Hnin Hnd IH]; [now apply elem_of_nil in Hin|].
  simpl. destruct (decide (y = x)) as [->|Hne].
  - rewrite HP, HQ, (filter_ext_in Q P l); [reflexivity|].
    intros k Hk%list_elem_of_In. apply Hagree. intros ->. contradiction.
  - apply elem_of_cons in Hin as [->|Hin]; [contradiction|].
    rewrite (Hagree y Hne). destruct (P y); simpl; rewrite IH; auto.
Qed.

(** The ids that occur more than once are at most as many as the
    occurrences beyond the first of each id. *)
Lemma repeatedIds_bound (l : list string) :
  List.length (repeatedIds l) + List.length (remove_dups l)
  <= List.length l.
Proof.
  induction l as [|x l IH]; [simpl; lia|].
  unfold repeatedIds in *. simpl remove_dups.
  destruct (decide_rel elem_of x l) as [Hin|Hnin].
  - pose proof (filter_change_one
                  (fun k => (2 <=? occurrences k l)%nat)
                  (fun k => (2 <=? occurrences k (x :: l))%nat)
                  x (remove_dups l) (NoDup_remove_dups l)) as Hc.
    assert (Hc' := Hc ltac:(intros k Hne; cbv beta; rewrite occurrences_cons;
                             destruct (String.eqb_spec k x);
                             [contradiction | reflexivity])).
    cbn [List.length]. lia.
  - cbn [List.filter List.length].
    rewrite occurrences_cons, String.eqb_refl.
    rewrite (occurrences_notin _ _ Hnin). cbn [Nat.add Nat.leb].
    rewrite (filter_ext_in _ (fun k => (2 <=? occurrences k l)%nat)).
    + lia.
    + intros k Hk. apply (proj2 (list_elem_of_In _ _)) in Hk.
      apply (proj1 (elem_of_remove_dups _ _)) in Hk.
      rewrite occurrences_cons.
      destruct (String.eqb_spec k x) as [->|]; [contradiction | reflexivity].
Qed.

(** When no id occurs more than twice the two numbers agree. *)
Lemma repeatedIds_exact (l : list string) :
  (forall k, occurrences k l <= 2) ->
  List.length (repeatedIds l) + List.length (remove_dups l)
  = List.length l.
Proof.
  induction l as [|x l IH]; intros Htwice; [reflexivity|].
  assert (Hl : forall k, occurrences k l <= 2).
  { intros k. specialize (Htwice k). rewrite occurrences_cons in Htwice.
    lia. }
  specialize (IH Hl). unfold repeatedIds in *. simpl remove_dups.
  destruct (decide_rel elem_of x l) as [Hin|Hnin].
  - assert (Hx : occurrences x l = 1).
    { pose proof (occurrences_in _ _ Hin). specialize (Htwice x).
      rewrite occurrences_cons, String.eqb_refl in Htwice. lia. }
    rewrite (filter_gain_one
               (fun k => (2 <=? occurrences k l)%nat)
               (fun k => (2 <=? occurrences k (x :: l))%nat)
               x (remove_dups l) (NoDup_remove_dups l)).
    + cbn [List.length]. lia.
    + now apply elem_of_remove_dups.
    + cbv beta. now rewrite Hx.
    + cbv beta. now rewrite occurrences_cons, String.eqb_refl, Hx.
    + intros k Hne. cbv beta. rewrite occurrences_cons.
      destruct (String.eqb_spec k x); [contradiction | reflexivity].
  - cbn [List.filter List.length].
    rewrite occurrences_cons, String.eqb_refl.
    rewrite (occurrences_notin _ _ Hnin). cbn [Nat.add Nat.leb].
    rewrite (filter_ext_in _ (fun k => (2 <=? occurrences k l)%nat)).
    + cbn [List.length]. lia.
    + intros k Hk. apply (proj2 (list_elem_of_In _ _)) in Hk.
      apply (proj1 (elem_of_remove_dups _ _)) in Hk.
      rewrite occurrences_cons.
      destruct (String.eqb_spec k x) as [->|]; [contradiction | reflexivity].
Qed.

(** ** What the invariant gives on the result *)

Lemma idsOf_values (m : list (string * Obj)) :
  (forall k o, (k, o) ∈ m -> id (val o) = k) ->
  idsOf (Map_values m) = Map_keys m.
Proof.
  intros H. unfold idsOf, Map_values, Map_keys. rewrite map_map.
  apply map_ext_in. intros [k o] Hin%list_elem_of_In. simpl. eauto.
Qed.

Lemma addr_inj (l : list Obj) (x y : Obj) :
  NoDup (map addr l) -> x ∈ l -> y ∈ l -> addr x = addr y -> x = y.
Proof.
  intros Hnd [i Hi]%list_elem_of_lookup [j Hj]%list_elem_of_lookup Heq.
  assert (i = j) as ->.
  { apply (NoDup_lookup _ i j (addr x) Hnd).
    - change (map addr l) with (addr <$> l).
      now rewrite list_lookup_fmap, Hi.
    - change (map addr l) with (addr <$> l).
      now rewrite list_lookup_fmap, Hj, Heq. }
  congruence.
Qed.

Lemma inv_addr_NoDup (st : Loop.state) :
  loopInv st -> NoDup (map addr (Loop.allRows st)).
Proof. intros I. rewrite (inv_addr _ I). apply NoDup_seq. Qed.

Lemma inv_distinct_length (st : Loop.state) :
  loopInv st ->
  List.length (remove_dups (idsOf (Loop.allRows st)))
  = List.length (Loop.otMapForCompliance st).
Proof.
  intros I.
  transitivity (List.length (Map_keys (Loop.otMapForCompliance st))).
  - apply Permutation_length, NoDup_Permutation.
    + apply NoDup_remove_dups.
    + apply (inv_nodup _ I).
    + intros k. rewrite elem_of_remove_dups. symmetry. apply (inv_keys _ I).
  - unfold Map_keys. apply length_map.
Qed.

(** ** Reconciliation: the two views *)

(** C7. For every input, every record of [uniqueOTs] is, as an object, one
    of the records of [allRows] (whose objects are pairwise distinct, as are
    those of [uniqueOTs]); every OT id that occurs in [allRows] has exactly
    one representative in [uniqueOTs]; and [uniqueOTs] is no longer than
    [allRows]. *)
Theorem C7_unique_view_of_all (h : Host) (mapping : ColumnMapping)
    (rows : list ExcelRow) :
  let res := processSheet h mapping rows in
  NoDup (map addr (allRows res))
  /\ (forall u, u ∈ uniqueOTs res -> u ∈ allRows res)
  /\ NoDup (map addr (uniqueOTs res))
  /\ (forall r, r ∈ allRows res ->
        occurrences (id (val r)) (idsOf (uniqueOTs res)) = 1)
  /\ List.length (uniqueOTs res) <= List.length (allRows res).
Proof.
  intros res. subst res.
  rewrite processSheet_allRows, processSheet_uniqueOTs. unfold survivors.
  pose proof (reconcileAll_inv (recordsOf h mapping rows)) as I.
  set (st := reconcileAll (recordsOf h mapping rows)) in *.
  assert (Hids : idsOf (Map_values (Loop.otMapForCompliance st))
                 = Map_keys (Loop.otMapForCompliance st)).
  { apply idsOf_values. intros k o Hin. now apply (inv_entry _ I). }
  assert (Hsub : forall u, u ∈ Map_values (Loop.otMapForCompliance st)
                           -> u ∈ Loop.allRows st).
  { intros u Hu. unfold Map_values in Hu.
    apply (proj1 (list_elem_of_fmap _ _ _)) in Hu as ([k o] & -> & Hin).
    now apply (inv_entry _ I k o). }
  assert (Hnd : NoDup (Map_values (Loop.otMapForCompliance st))).
  { apply (NoDup_fmap_1 (fun o => id (val o))).
    change (NoDup (idsOf (Map_values (Loop.otMapForCompliance st)))).
    rewrite Hids. apply (inv_nodup _ I). }
  split; [now apply inv_addr_NoDup|].
  split; [exact Hsub|].
  split.
  { apply NoDup_fmap_2_strong; [|exact Hnd].
    intros x y Hx Hy. apply (addr_inj (Loop.allRows st)); auto.
    now apply inv_addr_NoDup. }
  split.
  - intros r Hr. rewrite Hids. apply occurrences_NoDup.
    + apply (inv_nodup _ I).
    + apply (inv_keys _ I). unfold idsOf.
      apply (proj2 (list_elem_of_fmap _ _ _)). eauto.
  - unfold Map_values. rewrite length_map. pose proof (inv_dups _ I). lia.
Qed.

(** C1, as amended. [duplicatesRemovedForCompliance] is the number of
    occurrences of ids in [allRows] that are not the first of their id:
    the length of [allRows] less the number of distinct ids, which is the
    length of [uniqueOTs]. The number of distinct ids that occur more than
    once is at most that. *)
Theorem C1_duplicates_are_later_occurrences (h : Host)
    (mapping : ColumnMapping) (rows : list ExcelRow) :
  let res := processSheet h mapping rows in
  let ids := idsOf (allRows res) in
  let dups := duplicatesRemovedForCompliance (report res) in
  dups = nonFirstOccurrences [] ids
  /\ dups + List.length (remove_dups ids) = List.length ids
  /\ dups + List.length (uniqueOTs res) = List.length (allRows res)
  /\ List.length (repeatedIds ids) <= dups.
Proof.
  intros res ids dups. subst res ids dups.
  rewrite processSheet_allRows, processSheet_uniqueOTs, processSheet_report.
  unfold survivors. simpl.
  pose proof (reconcileAll_inv (recordsOf h mapping rows)) as I.
  set (st := reconcileAll (recordsOf h mapping rows)) in *.
  pose proof (inv_dups _ I) as Hd.
  pose proof (inv_distinct_length _ I) as Hl.
  pose proof (repeatedIds_bound (idsOf (Loop.allRows st))) as Hb.
  assert (Hlen : List.length (idsOf (Loop.allRows st))
                 = List.length (Loop.allRows st)).
  { unfold idsOf. apply length_map. }
  unfold Map_values. rewrite length_map.
  split; [apply (inv_seen _ I)|]. lia.
Qed.

(** With no id more than twice in [allRows], the count of C1 is also the
    number of distinct ids that occur more than once. *)
Lemma duplicates_when_at_most_twice (h : Host) (mapping : ColumnMapping)
    (rows : list ExcelRow) :
  let res := processSheet h mapping rows in
  (forall k, occurrences k (idsOf (allRows res)) <= 2) ->
  List.length (repeatedIds (idsOf (allRows res)))
  = duplicatesRemovedForCompliance (report res).
Proof.
  intros res. subst res.
  rewrite processSheet_allRows, processSheet_report. simpl.
  pose proof (reconcileAll_inv (recordsOf h mapping rows)) as I.
  set (st := reconcileAll (recordsOf h mapping rows)) in *.
  intros Htwice. pose proof (repeatedIds_exact _ Htwice) as He.
  pose proof (inv_dups _ I). pose proof (inv_distinct_length _ I).
  assert (List.length (idsOf (Loop.allRows st))
          = List.length (Loop.allRows st)) by apply length_map.
  lia.
Qed.

(** C1, as stated, fails: three rows with the same OT id make one id that
    occurs more than once and a count of two. *)
Lemma C1_counterexample :
  let res :=
    processSheet example_host example_mapping
      [example_row "7" "X"; example_row "7" "X"; example_row "7" "X"] in
  List.length (repeatedIds (idsOf (allRows res))) = 1
  /\ duplicatesRemovedForCompliance (report res) = 2
  /\ List.length (repeatedIds (idsOf (allRows res)))
     <> duplicatesRemovedForCompliance (report res).
Proof. vm_compute. repeat split; try reflexivity. discriminate. Qed.

(** ** Rows and their records *)

Lemma foldl_ingest_vals (rs : list ParsedOT) (st : Loop.state) :
  map val (Loop.allRows (foldl ingest st rs))
  = map val (Loop.allRows st) ++ rs.
Proof.
  revert st. induction rs as [|r rs IH]; intros st; simpl.
  - now rewrite app_nil_r.
  - rewrite IH.
    destruct (ingest_cases st r) as (m & d & reasons & -> & _). simpl.
    rewrite map_app. simpl. now rewrite <- app_assoc.
Qed.

(** The contents of [allRows] are the records of the non-blank rows, in
    the order of the rows. *)
Lemma processSheet_vals (h : Host) (mapping : ColumnMapping)
    (rows : list ExcelRow) :
  map val (allRows (processSheet h mapping rows))
  = recordsOf h mapping rows.
Proof.
  rewrite processSheet_allRows. unfold reconcileAll.
  now rewrite foldl_ingest_vals.
Qed.

Lemma allRows_parseRow (h : Host) (mapping : ColumnMapping)
    (rows : list ExcelRow) (o : Obj) :
  o ∈ allRows (processSheet h mapping rows) ->
  exists row, row ∈ rows /\ blankOt h mapping row = false
              /\ val o = parseRow h mapping row (otNumberOf h mapping row).
Proof.
  intros Ho.
  assert (Hv : val o ∈ recordsOf h mapping rows).
  { rewrite <- processSheet_vals.
    apply (proj2 (list_elem_of_fmap _ _ _)). eauto. }
  unfold recordsOf in Hv.
  apply (proj1 (list_elem_of_omap _ _ _)) in Hv as (row & Hrow & Hf).
  exists row. destruct (blankOt h mapping row); [discriminate|].
  injection Hf as <-. auto.
Qed.

Lemma recordsOf_blank (h : Host) (mapping : ColumnMapping)
    (pre post : list ExcelRow) (row : ExcelRow) :
  blankOt h mapping row = true ->
  recordsOf h mapping (pre ++ row :: post)
  = recordsOf h mapping (pre ++ post).
Proof.
  intros B. unfold recordsOf. rewrite !omap_app. simpl. now rewrite B.
Qed.

Lemma blankRows_blank (h : Host) (mapping : ColumnMapping)
    (pre post : list ExcelRow) (row : ExcelRow) :
  blankOt h mapping row = true ->
  blankRows h mapping (pre ++ row :: post)
  = S (blankRows h mapping (pre ++ post)).
Proof.
  intros B. unfold blankRows. rewrite !List.filter_app. simpl. rewrite B.
  rewrite !length_app. simpl. lia.
Qed.

(** ** Rows without an OT number *)

(** C2, as amended. A row whose OT-number cell is blank after trimming adds
    one to [totalRows] and one to [emptyRows] and does nothing else: with
    the row or without it, [allRows], [uniqueOTs] and every other entry of
    the report are the same. *)
Theorem C2_blank_row_counted_as_read_and_empty (h : Host) (mapping : ColumnMapping)
    (pre post : list ExcelRow) (row : ExcelRow) :
  blankOt h mapping row = true ->
  let res := processSheet h mapping (pre ++ row :: post) in
  let res0 := processSheet h mapping (pre ++ post) in
  (forall st, processRow h mapping st row = countEmpty (countRow st))
  /\ allRows res = allRows res0
  /\ uniqueOTs res = uniqueOTs res0
  /\ totalRows (report res) = S (totalRows (report res0))
  /\ emptyRows (report res) = S (emptyRows (report res0))
  /\ duplicatesRemovedForCompliance (report res)
     = duplicatesRemovedForCompliance (report res0)
  /\ removedOtIds (report res) = removedOtIds (report res0)
  /\ internalClientsCount (report res) = internalClientsCount (report res0)
  /\ internalClientsByCode (report res)
     = internalClientsByCode (report res0).
Proof.
  intros B res res0. subst res res0.
  rewrite !processSheet_allRows, !processSheet_uniqueOTs,
    !processSheet_report.
  rewrite (recordsOf_blank _ _ _ _ _ B), (blankRows_blank _ _ _ _ _ B).
  simpl. rewrite !length_app. simpl.
  split.
  { intros st. now rewrite (processRow_blank _ _ _ _ B). }
  repeat split; lia.
Qed.

Lemma C2_blank_row_witness :
  blankOt example_host example_mapping (∅ : ExcelRow) = true
  /\ totalRows
       (report (processSheet example_host example_mapping
                  ([example_row "7" "X"] ++ ∅ :: [])))
     = S (totalRows
            (report (processSheet example_host example_mapping
                       ([example_row "7" "X"] ++ [])))).
Proof.
  split; [reflexivity|].
  apply (C2_blank_row_counted_as_read_and_empty example_host example_mapping
           [example_row "7" "X"] [] ∅).
  reflexivity.
Defined.

(** C2, as stated, fails: a blank row is also counted in [totalRows]. *)
Lemma C2_counterexample :
  blankOt example_host example_mapping (∅ : ExcelRow) = true
  /\ totalRows (report (processSheet example_host example_mapping [])) = 0
  /\ totalRows (report (processSheet example_host example_mapping [∅])) = 1
  /\ processRow example_host example_mapping Loop.init ∅
     <> countEmpty Loop.init.
Proof. repeat split; try reflexivity. vm_compute. discriminate. Qed.

(** ** Text fields of a record *)

Lemma rowGet_missing (h : Host) (row : ExcelRow) (field : string) :
  row !! field = None -> rowGet h row field = inherited h row field.
Proof. unfold rowGet. now intros ->. Qed.

Lemma textField_falsy (h : Host) (row : ExcelRow) (field dflt : string) :
  falsyCell (rowGet h row field) = true ->
  textField h row field dflt = trim dflt.
Proof.
  unfold textField, falsyCell, orText.
  destruct (rowGet h row field) as [c|]; [|reflexivity].
  destruct (truthy c); [discriminate | reflexivity].
Qed.

Lemma textField_truthy (h : Host) (row : ExcelRow) (field dflt : string)
    (v : cell) :
  rowGet h row field = Some v -> truthy v = true ->
  textField h row field dflt = trim (ToString h v).
Proof. unfold textField, orText. now intros -> ->. Qed.

Lemma textField_blank (h : Host) (row : ExcelRow) (field : string) :
  blankCell (rowGet h row field) = true -> textField h row field "" = "".
Proof.
  unfold textField, blankCell, orText.
  destruct (rowGet h row field) as [[s| | | | |]|];
    try discriminate; try reflexivity.
  intros Hs. simpl. destruct (nonEmpty s); [|reflexivity].
  now apply trim_whitespaceOnly.
Qed.

Lemma textField_whitespace (h : Host) (row : ExcelRow)
    (field dflt : string) :
  whitespaceCell (rowGet h row field) = true ->
  textField h row field dflt = "".
Proof.
  unfold textField, whitespaceCell, orText.
  destruct (rowGet h row field) as [[s| | | | |]|]; try discriminate.
  intros [Hn Hs]%andb_prop. simpl. rewrite Hn.
  now apply trim_whitespaceOnly.
Qed.







(** ** Tie-breaks between two records of one id *)

(** Two records with the same id: which reference the compliance map
    holds at the end. *)
Lemma survivors_pair (A B : ParsedOT) :
  id A = id B ->
  survivors [A; B]
  = [ if isInternalClient A && negb (isInternalClient B) then
        {| addr := 1; val := B |}
      else if negb (isInternalClient A) && isInternalClient B then
        {| addr := 0; val := A |}
      else if negb (present (realDate A)) && present (realDate B) then
        {| addr := 1; val := B |}
      else {| addr := 0; val := A |} ].
Proof.
  intros E. unfold survivors, reconcileAll, ingest, push, reconcile. simpl.
  rewrite <- E, String.eqb_refl. simpl.
  destruct (isInternalClient A), (isInternalClient B),
    (present (realDate A)), (present (realDate B));
    simpl; rewrite ?String.eqb_refl; reflexivity.
Qed.

(** An external record beats an internal one of the same id in either
    order, whatever their dates. *)
Lemma external_beats_internal (A B : ParsedOT) :
  id A = id B ->
  isInternalClient A = true -> isInternalClient B = false ->
  survivors [A; B] = [{| addr := 1; val := B |}]
  /\ survivors [B; A] = [{| addr := 0; val := B |}].
Proof.
  intros E HA HB.
  rewrite (survivors_pair A B E), (survivors_pair B A (eq_sym E)).
  now rewrite HA, HB.
Qed.

(** C4. For two records of the same id, [A] of an internal client and [B]
    of an external one, neither with a real delivery date, the survivor in
    [uniqueOTs] is [B] both when the input is [A] then [B] and when it is
    [B] then [A]. *)
Theorem C4_external_wins (A B : ParsedOT) :
  id A = id B ->
  isInternalClient A = true -> isInternalClient B = false ->
  realDate A = None -> realDate B = None ->
  map val (survivors [A; B]) = [B]
  /\ map val (survivors [B; A]) = [B]
  /\ survivors [A; B] = [{| addr := 1; val := B |}]
  /\ survivors [B; A] = [{| addr := 0; val := B |}].
Proof.
  intros E HA HB _ _.
  destruct (external_beats_internal A B E HA HB) as [-> ->]. auto.
Qed.

Lemma C4_external_wins_witness :
  let A := example_record "7" "C0008157" None None in
  let B := example_record "7" "X" None None in
  id A = id B /\ isInternalClient A = true /\ isInternalClient B = false
  /\ realDate A = None /\ realDate B = None
  /\ map val (survivors [A; B]) = [B]
  /\ map val (survivors [B; A]) = [B].
Proof.
  intros A B.
  pose proof (C4_external_wins A B eq_refl eq_refl eq_refl eq_refl eq_refl)
    as (H1 & H2 & _).
  do 5 (split; [reflexivity|]). split; [exact H1 | exact H2].
Defined.

(** C5. For two records of the same id that agree on being internal or
    external: when [C] has no real delivery date and [D] has one, the
    survivor is [D] in either order; when both have one, or neither has,
    the survivor is the record seen first. *)
Theorem C5_delivery_date_wins (C D : ParsedOT) :
  id C = id D ->
  isInternalClient C = isInternalClient D ->
  (realDate C = None -> present (realDate D) = true ->
   map val (survivors [C; D]) = [D] /\ map val (survivors [D; C]) = [D])
  /\ (present (realDate C) = present (realDate D) ->
      survivors [C; D] = [{| addr := 0; val := C |}]
      /\ map val (survivors [C; D]) = [C]).
Proof.
  intros E HI. rewrite (survivors_pair C D E), (survivors_pair D C (eq_sym E)).
  rewrite HI. split.
  - intros -> ->. destruct (isInternalClient D); simpl; auto.
  - intros ->.
    destruct (isInternalClient D), (present (realDate D)); simpl; auto.
Qed.

Lemma C5_delivery_date_witness :
  let C := example_record "7" "X" None None in
  let D := example_record "7" "Y" None (Some (JsDate.at_ms 1710039600000)) in
  id C = id D /\ isInternalClient C = isInternalClient D
  /\ realDate C = None /\ present (realDate D) = true
  /\ map val (survivors [C; D]) = [D] /\ map val (survivors [D; C]) = [D]
  /\ present (realDate D) = present (realDate D)
  /\ map val (survivors [D; D]) = [D].
Proof.
  intros C D.
  pose proof (C5_delivery_date_wins C D eq_refl eq_refl) as [H1 _].
  pose proof (C5_delivery_date_wins D D eq_refl eq_refl) as [_ H2].
  destruct (H1 eq_refl eq_refl) as [H3 H4].
  destruct (H2 eq_refl) as [_ H5].
  do 4 (split; [reflexivity|]). split; [exact H3|]. split; [exact H4|].
  split; [reflexivity | exact H5].
Defined.

(** ** Date serial numbers *)

(** C9. Normalizing the numeric serial 45000 yields a date (15 March 2023,
    midnight UTC), and the serial of that date, its milliseconds since the
    Unix epoch divided by 86400000 plus 25569, is exactly 45000: in binary64
    arithmetic, and in the integers, where the division leaves no
    remainder. *)
Theorem C9_serial_45000_roundtrip (h : Host) :
  parseExcelDate h (Some (Num 45000)) = Some (JsDate.at_ms 1678838400000)
  /\ serialOfDate_spec (JsDate.at_ms 1678838400000) = Some 45000%float
  /\ (1678838400000 mod 86400000 = 0)%Z
  /\ (1678838400000 / 86400000 + 25569 = 45000)%Z.
Proof. repeat split; vm_compute; reflexivity. Qed.

(** ** Internal clients *)

Lemma keepExternal_internal (tza : JsDate.Zone) (f : FilterState) (o : Obj) :
  includesStr INTERNAL_CLIENT_CODES (clientCode (val o)) = true ->
  keepExternal tza f o = false.
Proof.
  unfold keepExternal, INTERNAL_CLIENT_CODES. intros ->. reflexivity.
Qed.

(** No record of an internal client passes the filter of either view,
    whatever list the view is computed from. *)
Lemma internal_never_kept (tza : JsDate.Zone) (f : FilterState) (l : list Obj)
    (o : Obj) :
  includesStr INTERNAL_CLIENT_CODES (clientCode (val o)) = true ->
  (o ∉ complianceData tza f l) /\ (o ∉ financialData tza f l).
Proof.
  intros Hi. unfold complianceData, financialData.
  assert (H : o ∉ List.filter (keepExternal tza f) l).
  { intros Hin%list_elem_of_In%filter_In.
    rewrite (keepExternal_internal _ _ _ Hi) in Hin.
    destruct Hin; discriminate. }
  auto.
Qed.

Lemma In_length_pos {A : Type} (x : A) (l : list A) :
  In x l -> 1 <= List.length l.
Proof. destruct l; [intros [] | simpl; lia]. Qed.

Lemma tallyInternal_spec (rows : list Obj) :
  fst (tallyInternal rows)
  = List.length (List.filter (fun r => isInternalClient (val r)) rows)
  /\ forall c,
       default 0 (snd (tallyInternal rows) !! c)
       = List.length
           (List.filter
              (fun r => isInternalClient (val r)
                        && String.eqb (clientCode (val r)) c) rows).
Proof.
  unfold tallyInternal.
  assert (G : forall (acc : nat * gmap string nat),
    let r :=
      foldl (fun (acc : nat * gmap string nat) ot =>
               if isInternalClient (val ot)
               then (S (fst acc),
                     <[clientCode (val ot) :=
                         S (default 0 (snd acc !! clientCode (val ot)))]>
                       (snd acc))
               else acc) acc rows in
    fst r = fst acc
            + List.length
                (List.filter (fun r => isInternalClient (val r)) rows)
    /\ forall c,
         default 0 (snd r !! c)
         = default 0 (snd acc !! c)
           + List.length
               (List.filter
                  (fun r => isInternalClient (val r)
                            && String.eqb (clientCode (val r)) c) rows)).
  { induction rows as [|o rows IH]; intros acc; simpl.
    - split; [lia | intros c; lia].
    - destruct (isInternalClient (val o)) eqn:E; simpl.
      + destruct (IH (S (fst acc),
                      <[clientCode (val o) :=
                          S (default 0 (snd acc !! clientCode (val o)))]>
                        (snd acc))) as [H1 H2].
        split; [rewrite H1; simpl; lia|].
        intros c. rewrite H2. simpl.
        destruct (String.eqb_spec (clientCode (val o)) c) as [->|Hne].
        * rewrite lookup_insert_eq. simpl. lia.
        * rewrite lookup_insert_ne by assumption. simpl. lia.
      + apply IH. }
  destruct (G (0, ∅)) as [H1 H2]. split; [exact H1|].
  intros c. rewrite H2. simpl. now rewrite lookup_empty.
Qed.

Lemma allRows_isInternal (h : Host) (mapping : ColumnMapping)
    (rows : list ExcelRow) (o : Obj) :
  o ∈ allRows (processSheet h mapping rows) ->
  isInternalClient (val o)
  = includesStr INTERNAL_CLIENT_CODES (clientCode (val o)).
Proof. intros (r & _ & _ & ->)%allRows_parseRow. reflexivity. Qed.

(** C8. A record whose client code is one of the internal codes is in
    neither the compliance view nor the financial view, for every filter
    state; and the report counts the records of [allRows] with an internal
    code in [internalClientsCount], and those with this record's code in
    [internalClientsByCode] under that code, the record itself among them
    when it is in [allRows]. *)
Theorem C8_internal_excluded_but_counted (h : Host)
    (mapping : ColumnMapping) (rows : list ExcelRow) (tza : JsDate.Zone)
    (f : FilterState) (o : Obj) :
  includesStr INTERNAL_CLIENT_CODES (clientCode (val o)) = true ->
  let res := processSheet h mapping rows in
  let sameCode :=
    List.filter
      (fun r => String.eqb (clientCode (val r)) (clientCode (val o)))
      (allRows res) in
  (o ∉ complianceData tza f (uniqueOTs res))
  /\ (o ∉ financialData tza f (allRows res))
  /\ internalClientsCount (report res)
     = List.length
         (List.filter
            (fun r => includesStr INTERNAL_CLIENT_CODES (clientCode (val r)))
            (allRows res))
  /\ default 0 (internalClientsByCode (report res) !! clientCode (val o))
     = List.length sameCode
  /\ (o ∈ allRows res ->
      o ∈ sameCode
      /\ 1 <= default 0
                (internalClientsByCode (report res) !! clientCode (val o))
      /\ 1 <= internalClientsCount (report res)).
Proof.
  intros Hi res sameCode.
  destruct (internal_never_kept tza f (uniqueOTs res) o Hi) as [Hc _].
  destruct (internal_never_kept tza f (allRows res) o Hi) as [_ Hf].
  destruct (tallyInternal_spec (allRows res)) as [Hn Hby].
  assert (Hcount : internalClientsCount (report res)
                   = List.length
                       (List.filter
                          (fun r => includesStr INTERNAL_CLIENT_CODES
                                      (clientCode (val r)))
                          (allRows res))).
  { change (internalClientsCount (report res))
      with (fst (tallyInternal (allRows res))).
    rewrite Hn. f_equal. apply filter_ext_in.
    intros r Hr%list_elem_of_In. now apply (allRows_isInternal h mapping rows). }
  assert (Hcode : default 0 (internalClientsByCode (report res)
                             !! clientCode (val o))
                  = List.length sameCode).
  { change (internalClientsByCode (report res))
      with (snd (tallyInternal (allRows res))).
    rewrite Hby. subst sameCode. f_equal. apply filter_ext_in.
    intros r Hr%list_elem_of_In.
    rewrite (allRows_isInternal h mapping rows r Hr).
    destruct (String.eqb_spec (clientCode (val r)) (clientCode (val o)))
      as [->|]; [now rewrite Hi | apply andb_false_r]. }
  repeat split; try assumption.
  - subst sameCode. apply list_elem_of_In, filter_In. split.
    + now apply list_elem_of_In.
    + apply String.eqb_refl.
  - rewrite Hcode. subst sameCode.
    assert (Hin : In o (List.filter
                          (fun r => String.eqb (clientCode (val r))
                                      (clientCode (val o)))
                          (allRows res))).
    { apply filter_In. split; [now apply list_elem_of_In|].
      apply String.eqb_refl. }
    now apply In_length_pos in Hin.
  - rewrite Hcount.
    assert (Hin : In o (List.filter
                          (fun r => includesStr INTERNAL_CLIENT_CODES
                                      (clientCode (val r)))
                          (allRows res))).
    { apply filter_In. split; [now apply list_elem_of_In | exact Hi]. }
    now apply In_length_pos in Hin.
Qed.

Lemma C8_internal_witness :
  let rows := [example_row "7" "C0008157"; example_row "8" "X"] in
  let res := processSheet example_host example_mapping rows in
  let o :=
    {| addr := 0;
       val := parseRow example_host example_mapping
                (example_row "7" "C0008157") "7" |} in
  includesStr INTERNAL_CLIENT_CODES (clientCode (val o)) = true
  /\ o ∈ allRows res
  /\ (o ∉ complianceData (LocalTZA example_host) example_filter (uniqueOTs res))
  /\ (o ∉ financialData (LocalTZA example_host) example_filter (allRows res))
  /\ 1 <= default 0 (internalClientsByCode (report res) !! "C0008157").
Proof.
  intros rows res o.
  assert (Hi : includesStr INTERNAL_CLIENT_CODES (clientCode (val o)) = true)
    by reflexivity.
  assert (Ho : o ∈ allRows res) by (vm_compute; left).
  pose proof (C8_internal_excluded_but_counted example_host example_mapping
                rows (LocalTZA example_host) example_filter o Hi)
    as (H1 & H2 & _ & _ & H3).
  destruct (H3 Ho) as (_ & H4 & _).
  split; [exact Hi|]. split; [exact Ho|]. split; [exact H1|].
  split; [exact H2 | exact H4].
Defined.

(** ** Classification *)

Lemma le_TimeClip (x y : Z) :
  JsDate.le (JsDate.TimeClip x) (JsDate.TimeClip y)
  = isTimeValue x && isTimeValue y && (x <=? y)%Z.
Proof.
  unfold JsDate.le, JsDate.TimeClip, isTimeValue.
  destruct (Z.abs x <=? JsDate.maxTime)%Z,
           (Z.abs y <=? JsDate.maxTime)%Z; reflexivity.
Qed.

(** With both dates there, the branch is decided by the starts of the two
    local days. *)
Lemma classify_both (tza : JsDate.Zone) (ot : ParsedOT) (real target : Date)
    (r t : Z) :
  realDate ot = Some real -> targetDate ot = Some target ->
  getTime real = Some r -> getTime target = Some t ->
  classify tza ot
  = if isTimeValue (startOfLocalDay tza r)
       && isTimeValue (startOfLocalDay tza t)
       && (startOfLocalDay tza r <=? startOfLocalDay tza t)%Z
    then OnTime else Late.
Proof.
  intros Er Et Hr Ht. unfold classify. rewrite Er, Et.
  unfold JsDate.setHours0. rewrite Hr, Ht.
  now rewrite le_TimeClip.
Qed.

(** A constant offset is a zone with both orders. *)
Lemma constant_zone_midnightsIncrease (off : Z) :
  midnightsIncrease (fun _ _ => off).
Proof.
  intros d1 d2 H. unfold JsDate.UTC, JsDate.msPerDay. lia.
Qed.

Lemma constant_zone_localDaysInOrder (off : Z) :
  localDaysInOrder (fun _ _ => off).
Proof.
  intros a b H.
  unfold JsDate.localDay, JsDate.Day, JsDate.LocalTime, JsDate.msPerDay.
  apply Z.div_le_mono; lia.
Qed.

Lemma midnightsIncrease_inOrder (tza : JsDate.Zone) :
  midnightsIncrease tza -> midnightsInOrder tza.
Proof.
  intros H d1 d2 Hd. destruct (Z.eq_dec d1 d2) as [->|Hne]; [lia|].
  specialize (H d1 d2 ltac:(lia)). lia.
Qed.

(** So is the zone with the two clock changes: its midnights increase
    although one of them does not exist, and its local days never go back
    although an hour of one of them comes twice. *)
Lemma asuncion_zone_midnightsIncrease : midnightsIncrease asuncion_zone.
Proof.
  intros d1 d2 H. unfold JsDate.UTC, asuncion_zone, JsDate.msPerDay.
  destruct (Z.ltb_spec (d1 * 86400000) 1696122000000),
           (Z.ltb_spec (d1 * 86400000) 1711238400000),
           (Z.ltb_spec (d2 * 86400000) 1696122000000),
           (Z.ltb_spec (d2 * 86400000) 1711238400000); lia.
Qed.

Lemma asuncion_zone_localDaysInOrder : localDaysInOrder asuncion_zone.
Proof.
  intros a b H.
  unfold JsDate.localDay, JsDate.Day, JsDate.LocalTime, asuncion_zone,
    JsDate.msPerDay.
  destruct (Z.ltb_spec a 1696132800000), (Z.ltb_spec a 1711249200000),
           (Z.ltb_spec b 1696132800000), (Z.ltb_spec b 1711249200000);
    try lia; try (apply Z.div_le_mono; lia).
  Z.to_euclidean_division_equations; lia.
Qed.




(** The examples of the specification, three hours behind UTC: target
    2024-03-10 with real date 2024-03-10 (late in the evening) is on time,
    with real date 2024-03-11 is late, with none is pending; no dates at
    all is pending. *)
Example classification_examples :
  let day10 := JsDate.at_ms 1710039600000 in
  let day10_evening := JsDate.at_ms 1710125999999 in
  let day11 := JsDate.at_ms 1710126000000 in
  classify (LocalTZA example_host)
    (example_record "7" "X" (Some day10) (Some day10_evening)) = OnTime
  /\ classify (LocalTZA example_host)
       (example_record "7" "X" (Some day10) (Some day11)) = Late
  /\ classify (LocalTZA example_host)
       (example_record "7" "X" (Some day10) None)
     = Pending
  /\ classify (LocalTZA example_host) (example_record "7" "X" None None)
     = Pending.
Proof. repeat split; reflexivity. Qed.

(** The date of the spreadsheet serial -99974431 is the earliest time
    value there is. *)
Example earliest_date_from_sheet (h : Host) :
  parseExcelDate h (Some (Num (-99974431)))
  = Some (JsDate.at_ms (- JsDate.maxTime)).
Proof. vm_compute. reflexivity. Qed.

(** No constant offset gives the outcome of the zone with the clock
    changes on the record of the witness above: under every constant
    offset the two dates, more than a day apart, fall on different local
    days. *)
Example classification_needs_the_zone (off : Z) :
  let target := JsDate.at_ms 1711162800000 in
  let real := JsDate.at_ms 1711251000000 in
  let ot := example_record "7" "X" (Some target) (Some real) in
  classify asuncion_zone ot = OnTime
  /\ classify (fun _ _ => off) ot <> OnTime.
Proof.
  intros target real ot. split; [reflexivity|].
  rewrite (classify_both (fun _ _ => off) ot real target
             1711251000000 1711162800000 eq_refl eq_refl eq_refl eq_refl).
  assert (E : (startOfLocalDay (fun _ _ => off) 1711251000000
               <=? startOfLocalDay (fun _ _ => off) 1711162800000)%Z
              = false).
  { apply Z.leb_gt.
    unfold startOfLocalDay, JsDate.UTC, JsDate.localDay, JsDate.Day,
      JsDate.LocalTime, JsDate.msPerDay.
    Z.to_euclidean_division_equations; lia. }
  rewrite E, andb_false_r. discriminate.
Qed.

(** The global counters of [calculateStats] count the records by the
    branch that [classify] names. *)
Lemma calculateStats_totals (tza : JsDate.Zone) (ots : list Obj) :
  let g := calculateStats tza ots in
  totalOTs g = List.length ots
  /\ totalOnTime g = countDelivery tza OnTime ots
  /\ totalLate g = countDelivery tza Late ots
  /\ totalPending g = countDelivery tza Pending ots.
Proof.
  unfold calculateStats.
  assert (G : forall g0,
    let g := foldl (statsStep tza) g0 ots in
    totalOTs g = totalOTs g0 + List.length ots
    /\ totalOnTime g = totalOnTime g0 + countDelivery tza OnTime ots
    /\ totalLate g = totalLate g0 + countDelivery tza Late ots
    /\ totalPending g = totalPending g0 + countDelivery tza Pending ots).
  { induction ots as [|o ots IH]; intros g0; simpl.
    - unfold countDelivery. simpl. lia.
    - destruct (IH (statsStep tza g0 o)) as (H1 & H2 & H3 & H4).
      rewrite H1, H2, H3, H4. unfold countDelivery. simpl.
      destruct (classify tza (val o)); simpl; lia. }
  apply (G {| totalOTs := 0; totalOnTime := 0; totalLate := 0;
              totalPending := 0; totalAmount := 0%float;
              workshopMap := [] |}).
Qed.

(** * Further properties *)

(** ** Trimmed text *)

Lemma trimStart_head (s : string) :
  trimStart s = ""
  \/ exists c t, trimStart s = String c t /\ isWhiteSpace c = false.
Proof.
  induction s as [|c s IH]; simpl; [now left|].
  destruct (isWhiteSpace c) eqn:E; [exact IH | right; eauto].
Qed.

Lemma trimEnd_head (c : ascii) (u : string) :
  isWhiteSpace c = false -> exists t, trimEnd (String c u) = String c t.
Proof.
  intros E. simpl. destruct (trimEnd u); [rewrite E|]; eauto.
Qed.

Lemma trimEnd_idem (s : string) : trimEnd (trimEnd s) = trimEnd s.
Proof.
  induction s as [|c s IH]; [reflexivity|]. simpl.
  destruct (trimEnd s) as [|d t] eqn:E.
  - destruct (isWhiteSpace c) eqn:W; [reflexivity|]. simpl. now rewrite W.
  - change (trimEnd (String c (String d t)) = String c (String d t)).
    cbn [trimEnd] in *. now rewrite IH.
Qed.

(** Trimming twice is trimming once. *)
Lemma trim_idem (s : string) : trim (trim s) = trim s.
Proof.
  unfold trim. destruct (trimStart_head s) as [->|(c & t & -> & W)].
  - reflexivity.
  - destruct (trimEnd_head c t W) as [t' E]. rewrite E.
    cbn [trimStart]. rewrite W, <- E. apply trimEnd_idem.
Qed.

Lemma textField_trimmed (h : Host) (row : ExcelRow) (field dflt : string) :
  trim (textField h row field dflt) = textField h row field dflt.
Proof. unfold textField. apply trim_idem. Qed.

(** X1. Every header that [getSheetHeaders] returns is a non-empty text
    without white space around it; there are no more headers than slots in
    the first row, and a sheet without rows has none. *)
Theorem getSheetHeaders_clean (h : Host) (data : list (list slot)) :
  (forall x, x ∈ getSheetHeaders h data -> x <> "" /\ trim x = x)
  /\ List.length (getSheetHeaders h data) <= List.length (List.hd [] data)
  /\ getSheetHeaders h [] = [].
Proof.
  split; [|split; [|reflexivity]].
  - intros x Hx. destruct data as [|first rest]; simpl in Hx.
    + now apply elem_of_nil in Hx.
    + apply list_elem_of_In, filter_In in Hx as [Hx Hne].
      split; [now apply nonEmpty_true|].
      apply (proj2 (list_elem_of_In _ _)) in Hx.
      apply (proj1 (list_elem_of_omap _ _ _)) in Hx as (y & _ & Hy).
      destruct y as [| |c]; [discriminate| |];
        injection Hy as <-; apply trim_idem.
  - destruct data as [|first rest]; [simpl; lia|].
    cbn [getSheetHeaders List.hd]. etransitivity; [apply List.filter_length_le|].
    induction first as [|y first IH]; [simpl; lia|].
    cbn [omap list_omap List.length].
    destruct y; cbn [List.length]; lia.
Qed.

(** X2. In every record of [allRows] the OT id is not empty, and the id,
    the client code, the folio, the workshop and the OT type carry no white
    space around them. *)
Theorem records_text_is_trimmed (h : Host) (mapping : ColumnMapping)
    (rows : list ExcelRow) (o : Obj) :
  o ∈ allRows (processSheet h mapping rows) ->
  id (val o) <> ""
  /\ trim (id (val o)) = id (val o)
  /\ trim (clientCode (val o)) = clientCode (val o)
  /\ trim (folio (val o)) = folio (val o)
  /\ trim (workshop (val o)) = workshop (val o)
  /\ trim (otType (val o)) = otType (val o).
Proof.
  intros (row & _ & B & ->)%allRows_parseRow.
  unfold blankOt in B. apply negb_false_iff, nonEmpty_true in B.
  unfold parseRow. simpl. split; [exact B|].
  split; [apply textField_trimmed|]. split; [apply textField_trimmed|].
  split; [|split].
  - destruct (nonEmpty (ColumnMapping.folio mapping));
      [apply textField_trimmed | reflexivity].
  - destruct (nonEmpty (textField h row (ColumnMapping.workshop mapping)
                          "Sin Taller Asignado"));
      [apply textField_trimmed | reflexivity].
  - destruct (nonEmpty (ColumnMapping.otType mapping));
      [apply textField_trimmed | reflexivity].
Qed.

Lemma records_text_is_trimmed_witness :
  let rows := [example_row " 7 " "X"] in
  let o :=
    {| addr := 0;
       val := parseRow example_host example_mapping
                (example_row " 7 " "X") "7" |} in
  o ∈ allRows (processSheet example_host example_mapping rows)
  /\ id (val o) <> "" /\ trim (id (val o)) = id (val o).
Proof.
  intros rows o.
  assert (Ho : o ∈ allRows (processSheet example_host example_mapping rows))
    by (vm_compute; left).
  destruct (records_text_is_trimmed example_host example_mapping rows o Ho)
    as (H1 & H2 & _).
  split; [exact Ho|]. split; [exact H1 | exact H2].
Defined.

(** ** Dates of records *)

Lemma validOrNull_valid (d d' : Date) :
  validOrNull d = Some d' -> JsDate.isInvalid d' = false.
Proof.
  unfold validOrNull. destruct (JsDate.isInvalid d) eqn:E; [discriminate|].
  now intros [= <-].
Qed.

Lemma parseExcelDate_valid (h : Host) (dateVal : option cell) :
  nullOrValid (parseExcelDate h dateVal) = true.
Proof.
  destruct (parseExcelDate h dateVal) as [d|] eqn:E; [|reflexivity].
  simpl. apply negb_true_iff.
  unfold parseExcelDate in E.
  destruct dateVal as [[s|n|b|d0| |o]|]; try discriminate;
    [|now apply validOrNull_valid in E..].
  destruct s as [|c s]; [discriminate|].
  repeat match type of E with
         | (if ?c then _ else _) = _ => destruct c
         | match ?x with _ => _ end = _ => destruct x as [[[? ?] ?]|]
         end;
    try discriminate; now apply validOrNull_valid in E.
Qed.

(** X3. [parseExcelDate] never returns an Invalid Date: whatever the cell
    and the engine, the result is [null] or a date with a time value. A
    missing cell, a text of white space only, a boolean and an Invalid Date
    cell all give [null]. *)
Theorem parseExcelDate_null_or_valid (h : Host) (dateVal : option cell) :
  nullOrValid (parseExcelDate h dateVal) = true
  /\ parseExcelDate h None = None
  /\ (forall s, whitespaceOnly s = true ->
        parseExcelDate h (Some (Text s)) = None)
  /\ (forall b, parseExcelDate h (Some (Bool b)) = None)
  /\ parseExcelDate h (Some (DateCell JsDate.invalid)) = None.
Proof.
  split; [apply parseExcelDate_valid|].
  split; [reflexivity|]. split; [|split; reflexivity].
  intros s Hs. unfold parseExcelDate. destruct s as [|c s]; [reflexivity|].
  now rewrite (trim_whitespaceOnly _ Hs).
Qed.

(** X4. The four date fields of every record of [allRows] are [null] or
    valid dates: no record carries an Invalid Date. *)
Theorem records_dates_null_or_valid (h : Host) (mapping : ColumnMapping)
    (rows : list ExcelRow) (o : Obj) :
  o ∈ allRows (processSheet h mapping rows) ->
  nullOrValid (estimatedDate (val o)) = true
  /\ nullOrValid (secondEstimatedDate (val o)) = true
  /\ nullOrValid (realDate (val o)) = true
  /\ nullOrValid (billingDate (val o)) = true.
Proof.
  intros (row & _ & _ & ->)%allRows_parseRow. unfold parseRow. simpl.
  pose proof (parseExcelDate_valid h) as V.
  repeat split; try apply V;
    match goal with
    | |- context [mapped ?x] => destruct (mapped x); [apply V | reflexivity]
    end.
Qed.

Lemma records_dates_witness :
  let rows := [<["Real" := Text "10/03/2024"]> (example_row "7" "X")] in
  let o :=
    {| addr := 0;
       val := parseRow example_host example_mapping
                (<["Real" := Text "10/03/2024"]> (example_row "7" "X"))
                "7" |} in
  o ∈ allRows (processSheet example_host example_mapping rows)
  /\ realDate (val o) = Some (JsDate.at_ms 1710039600000)
  /\ nullOrValid (realDate (val o)) = true.
Proof.
  intros rows o.
  assert (Ho : o ∈ allRows (processSheet example_host example_mapping rows))
    by (vm_compute; left).
  destruct (records_dates_null_or_valid example_host example_mapping rows o
              Ho) as (_ & _ & H & _).
  split; [exact Ho|]. split; [vm_compute; reflexivity | exact H].
Defined.

(** ** Dates written as text *)

Lemma isDigit_range (c : ascii) :
  isDigit c = true -> (0 <= digitVal c <= 9)%Z.
Proof.
  unfold isDigit, digitVal. intros [H1 H2]%andb_prop.
  apply N.leb_le in H1, H2. lia.
Qed.

Lemma isDigit_not_sep (c : ascii) : isDigit c = true -> isSep c = false.
Proof.
  unfold isSep. intros H.
  destruct (Ascii.eqb_spec c "/") as [->|_]; [discriminate H|].
  destruct (Ascii.eqb_spec c "-") as [->|_]; [discriminate H|].
  reflexivity.
Qed.

Lemma includes_sep_head (c : ascii) (s : string) :
  isSep c = true -> includes (String c s) "/" || includes (String c s) "-" = true.
Proof.
  unfold isSep. cbn [includes].
  rewrite (Ascii.eqb_sym "/" c), (Ascii.eqb_sym "-" c).
  destruct (Ascii.eqb c "/"), (Ascii.eqb c "-"); simpl; try discriminate;
    auto using orb_true_r.
Qed.

Lemma includes_sep_tail (c : ascii) (s : string) :
  includes s "/" || includes s "-" = true ->
  includes (String c s) "/" || includes (String c s) "-" = true.
Proof.
  cbn [includes]. intros H.
  destruct (Ascii.eqb "/" c), (Ascii.eqb "-" c); auto using orb_true_r.
Qed.

Lemma group12sep_sep (s r : string) (n : Z) :
  group12sep s = Some (n, r) ->
  includes s "/" || includes s "-" = true.
Proof.
  unfold group12sep. destruct s as [|a [|b t]]; try discriminate.
  destruct (isDigit a && isSep b) eqn:E.
  - intros _. apply andb_prop in E as [_ E].
    apply includes_sep_tail, includes_sep_head, E.
  - destruct t as [|c t']; [discriminate|].
    destruct (isDigit a && isDigit b && isSep c) eqn:F; [|discriminate].
    intros _. apply andb_prop in F as [_ F].
    apply includes_sep_tail, includes_sep_tail, includes_sep_head, F.
Qed.

Lemma group12sep_range (s r : string) (n : Z) :
  group12sep s = Some (n, r) -> (0 <= n <= 99)%Z.
Proof.
  unfold group12sep. destruct s as [|a [|b t]]; try discriminate.
  destruct (isDigit a && isSep b) eqn:E.
  - intros [= <- _]. apply andb_prop in E as [E _].
    apply isDigit_range in E. lia.
  - destruct t as [|c t']; [discriminate|].
    destruct (isDigit a && isDigit b && isSep c) eqn:F; [|discriminate].
    intros [= <- _]. apply andb_prop in F as [[F1 F2]%andb_prop _].
    apply isDigit_range in F1, F2. lia.
Qed.

Lemma group4_range (s r : string) (n : Z) :
  group4 s = Some (n, r) -> (0 <= n <= 9999)%Z.
Proof.
  unfold group4. destruct s as [|a [|b [|c [|d t]]]]; try discriminate.
  destruct (isDigit a && isDigit b && isDigit c && isDigit d) eqn:E;
    [|discriminate].
  intros [= <- _].
  apply andb_prop in E as [[[E1 E2]%andb_prop E3]%andb_prop E4].
  apply isDigit_range in E1, E2, E3, E4. lia.
Qed.

Lemma matchLatam_inv (s : string) (d m y : Z) :
  matchLatam s = Some (d, m, y) ->
  (includes s "/" || includes s "-" = true) /\ (0 <= y <= 9999)%Z.
Proof.
  unfold matchLatam.
  destruct (group12sep s) as [[d' r1]|] eqn:E1; [|discriminate]. simpl.
  destruct (group12sep r1) as [[m' r2]|] eqn:E2; [|discriminate]. simpl.
  destruct (group4 r2) as [[y' r3]|] eqn:E3; [|discriminate]. simpl.
  intros [= <- <- <-]. split.
  - eapply group12sep_sep, E1.
  - eapply group4_range, E3.
Qed.

Lemma matchIso_inv (s : string) (y m d : Z) :
  matchIso s = Some (y, m, d) ->
  (includes s "/" || includes s "-" = true) /\ (0 <= y <= 9999)%Z
  /\ matchLatam s = None.
Proof.
  unfold matchIso.
  destruct (group4 s) as [[y' r1]|] eqn:E1; [|discriminate]. simpl.
  destruct r1 as [|c r2]; [discriminate|].
  destruct (isSep c) eqn:Ec; [|discriminate].
  destruct (group12sep r2) as [[m' r3]|] eqn:E2; [|discriminate]. simpl.
  destruct (group12 r3) as [d'|] eqn:E3; [|discriminate]. simpl.
  intros [= <- <- <-].
  pose proof (group4_range _ _ _ E1) as Hy.
  unfold group4 in E1.
  destruct s as [|a [|b [|c0 [|d0 t]]]]; try discriminate.
  destruct (isDigit a && isDigit b && isDigit c0 && isDigit d0) eqn:E;
    [|discriminate].
  injection E1 as _ ->.
  apply andb_prop in E as [[[Ea Eb]%andb_prop Ec0]%andb_prop Ed0].
  split; [|split; [exact Hy|]].
  - do 4 apply includes_sep_tail. now apply includes_sep_head.
  - unfold matchLatam, group12sep.
    now rewrite (isDigit_not_sep _ Eb), (isDigit_not_sep _ Ec0), !andb_false_r.
Qed.

(** The branch that [parseExcelDate] takes on a text that one of the two
    patterns matches. *)
Lemma parseExcelDate_pattern (h : Host) (s : string) (d m y : Z) :
  matchLatam (trim s) = Some (d, m, y)
  \/ matchIso (trim s) = Some (y, m, d) ->
  parseExcelDate h (Some (Text s))
  = validOrNull (JsDate.new_Date_ymd (LocalTZA h) y (m - 1) d).
Proof.
  intros H.
  assert (Hsep : includes (trim s) "/" || includes (trim s) "-" = true).
  { destruct H as [H|H]; [apply (matchLatam_inv _ _ _ _ H)
                         | apply (matchIso_inv _ _ _ _ H)]. }
  assert (Hne : nonEmpty (trim s) = true).
  { destruct (trim s); [destruct H; discriminate | reflexivity]. }
  unfold parseExcelDate. destruct s as [|c s]; [destruct H; discriminate|].
  rewrite Hne. simpl negb.
  assert (Hnum : negb (PrimFloat.is_nan
                         (Number_ofString h (trim (String c s))))
                 && negb (includes (trim (String c s)) "/")
                 && negb (includes (trim (String c s)) "-")
                 && negb (includes (trim (String c s)) ":") = false).
  { apply orb_prop in Hsep as [-> | ->]; simpl;
      rewrite ?andb_false_r; reflexivity. }
  rewrite Hnum. destruct H as [-> | H]; [reflexivity|].
  destruct (matchIso_inv _ _ _ _ H) as (_ & _ & ->). now rewrite H.
Qed.

(** X5. A text that the day-first pattern [D/M/YYYY] or, failing that, the
    year-first pattern [YYYY/M/D] matches is read by that pattern alone: it
    is never taken for a serial number nor handed to the engine's own date
    parser, whatever the engine answers on such text; and the day-first
    pattern never matches a text that the year-first one matches. *)
Theorem date_patterns_decide (h : Host) (s : string) (d m y : Z) :
  (matchLatam (trim s) = Some (d, m, y) ->
   parseExcelDate h (Some (Text s))
   = validOrNull (JsDate.new_Date_ymd (LocalTZA h) y (m - 1) d))
  /\ (matchIso (trim s) = Some (y, m, d) ->
      matchLatam (trim s) = None
      /\ parseExcelDate h (Some (Text s))
         = validOrNull (JsDate.new_Date_ymd (LocalTZA h) y (m - 1) d)).
Proof.
  split.
  - intros H. apply parseExcelDate_pattern. now left.
  - intros H. split; [apply (matchIso_inv _ _ _ _ H)|].
    apply parseExcelDate_pattern. now right.
Qed.

Lemma date_patterns_decide_witness :
  matchLatam (trim " 10/03/2024") = Some (10, 3, 2024)%Z
  /\ parseExcelDate example_host (Some (Text " 10/03/2024"))
     = validOrNull (JsDate.new_Date_ymd (LocalTZA example_host) 2024 2 10)
  /\ matchIso (trim "2024-03-10") = Some (2024, 3, 10)%Z
  /\ parseExcelDate example_host (Some (Text "2024-03-10"))
     = validOrNull (JsDate.new_Date_ymd (LocalTZA example_host) 2024 2 10).
Proof.
  destruct (date_patterns_decide example_host " 10/03/2024" 10 3 2024)
    as [H1 _].
  destruct (date_patterns_decide example_host "2024-03-10" 10 3 2024)
    as [_ H2].
  split; [reflexivity|]. split; [exact (H1 eq_refl)|].
  split; [reflexivity|]. exact (proj2 (H2 eq_refl)).
Defined.

(** ** The calendar *)

Lemma yoe_recover (yoe doy : Z) :
  (0 <= yoe <= 399 -> 0 <= doy <= 364 ->
   let doe := yoe * 365 + yoe / 4 - yoe / 100 + doy in
   (doe - doe / 1460 + doe / 36524 - doe / 146096) / 365 = yoe
   /\ 0 <= doe <= 146096)%Z.
Proof.
  intros Hy Hd doe. subst doe.
  Z.to_euclidean_division_equations; lia.
Qed.

(** Year and month of the day number of a calendar day are the year and
    the month of that day. *)
Lemma civil_roundtrip (y m d : Z) :
  (1 <= m <= 12 -> 1 <= d <= monthLength m ->
   JsDate.civil_from_days (JsDate.days_from_civil y m d) = (y, m - 1))%Z.
Proof.
  intros Hm Hd. unfold JsDate.civil_from_days, JsDate.days_from_civil.
  set (y' := if (m <=? 2)%Z then (y - 1)%Z else y).
  set (era := (y' / 400)%Z).
  set (yoe := (y' - era * 400)%Z).
  set (doy := ((153 * (if (2 <? m)%Z then m - 3 else m + 9) + 2) / 5
               + d - 1)%Z).
  assert (Hyoe : (0 <= yoe <= 399)%Z).
  { subst yoe era. Z.to_euclidean_division_equations; lia. }
  assert (Hcase : m = 1%Z \/ m = 2%Z \/ m = 3%Z \/ m = 4%Z \/ m = 5%Z
                  \/ m = 6%Z \/ m = 7%Z \/ m = 8%Z \/ m = 9%Z \/ m = 10%Z
                  \/ m = 11%Z \/ m = 12%Z) by lia.
  assert (Hdoy : (0 <= doy <= 364)%Z
                 /\ ((5 * doy + 2) / 153
                     = (if (2 <? m)%Z then m - 3 else m + 9))%Z).
  { subst doy.
    destruct Hcase as [->|[->|[->|[->|[->|[->|[->|[->|[->|[->|[->| ->]]]]]]]]]]];
      match type of Hd with
      | context [monthLength ?k] =>
          let v := eval vm_compute in (monthLength k) in
          change (monthLength k) with v in Hd
      end;
      match goal with
      | |- context [(2 <? ?k)%Z] =>
          let v := eval vm_compute in (2 <? k)%Z in
          change (2 <? k)%Z with v
      end;
      cbv iota; split; Z.to_euclidean_division_equations; lia. }
  destruct Hdoy as [Hdoy Hmp].
  destruct (yoe_recover yoe doy Hyoe Hdoy) as [Hrec Hdoe].
  set (doe := (yoe * 365 + yoe / 4 - yoe / 100 + doy)%Z) in *.
  replace (era * 146097 + doe - 719468 + 719468)%Z
    with (era * 146097 + doe)%Z by lia.
  assert (Hera : ((era * 146097 + doe) / 146097 = era)%Z).
  { Z.to_euclidean_division_equations; lia. }
  rewrite Hera.
  replace (era * 146097 + doe - era * 146097)%Z with doe by lia.
  rewrite Hrec.
  replace (doe - (365 * yoe + yoe / 4 - yoe / 100))%Z with doy
    by (subst doe; lia).
  rewrite Hmp. subst y' yoe.
  destruct (Z.ltb_spec 2 m), (Z.leb_spec m 2); try lia.
  - destruct (Z.ltb_spec (m - 3) 10), (Z.leb_spec (m - 3 + 3) 2);
      try lia; f_equal; lia.
  - destruct (Z.ltb_spec (m + 9) 10), (Z.leb_spec (m + 9 - 9) 2);
      try lia; f_equal; lia.
Qed.

Lemma days_from_civil_bounds (y m d : Z) :
  (0 <= y <= 9999 -> 1 <= m <= 12 -> 1 <= d <= 31 ->
   -1000000 <= JsDate.days_from_civil y m d <= 3000000)%Z.
Proof.
  intros Hy Hm Hd. unfold JsDate.days_from_civil.
  destruct (Z.leb_spec m 2), (Z.ltb_spec 2 m); try lia;
    Z.to_euclidean_division_equations; lia.
Qed.

Lemma monthLength_le (m : Z) : (monthLength m <= 31)%Z.
Proof.
  unfold monthLength.
  destruct (m =? 2)%Z; [lia|].
  destruct ((m =? 4) || (m =? 6) || (m =? 9) || (m =? 11))%Z; lia.
Qed.

(** [new Date(y, m - 1, d)] of a calendar day of the years 100 to 9999,
    in a zone that keeps that day: the start of the day as the zone places
    it, whose local year and month are [y] and [m - 1]. *)
Lemma new_Date_ymd_calendar (tza : JsDate.Zone) (y m d : Z) :
  (100 <= y <= 9999 -> 1 <= m <= 12 -> 1 <= d <= monthLength m ->
   dayKept tza (JsDate.days_from_civil y m d) = true ->
   let t := JsDate.UTC tza (JsDate.days_from_civil y m d * JsDate.msPerDay) in
   JsDate.new_Date_ymd tza y (m - 1) d = JsDate.at_ms t
   /\ JsDate.getFullYear tza t = y
   /\ JsDate.getMonth tza t = m - 1)%Z.
Proof.
  intros Hy Hm Hd Hk t. pose proof (monthLength_le m) as Hml.
  apply andb_prop in Hk as [Hoff Hday].
  apply Z.leb_le in Hoff. apply Z.eqb_eq in Hday.
  assert (Hmn : ((m - 1) / 12 = 0 /\ (m - 1) mod 12 = m - 1)%Z).
  { split; [apply Z.div_small | apply Z.mod_small]; lia. }
  destruct Hmn as [Hq Hr].
  pose proof (days_from_civil_bounds y m d ltac:(lia) Hm ltac:(lia)) as Hb.
  split; [|split].
  - unfold JsDate.new_Date_ymd. rewrite Hq, Hr.
    destruct ((0 <=? y)%Z && (y <=? 99)%Z) eqn:E.
    { apply andb_prop in E as [_ E]. apply Z.leb_le in E. lia. }
    replace (y + 0)%Z with y by lia.
    replace (m - 1 + 1)%Z with m by lia.
    fold t. unfold JsDate.TimeClip.
    assert (Ht : (Z.abs t <= JsDate.maxTime)%Z).
    { subst t. unfold JsDate.UTC, JsDate.maxTime, JsDate.msPerDay in *.
      lia. }
    now apply Z.leb_le in Ht as ->.
  - unfold JsDate.getFullYear. subst t. rewrite Hday.
    now rewrite civil_roundtrip.
  - unfold JsDate.getMonth. subst t. rewrite Hday.
    now rewrite civil_roundtrip.
Qed.

(** X6. A billing date written as text in one of the two patterns, for a
    calendar day of the years 100 to 9999 (the month 1 to 12, the day within
    the month, 29 February apart), in a zone that keeps that day: the date
    read is the start of that local day as the zone places it, and its year
    and month, as the dashboard renders them for its filters, are the year
    and the month written (the month counted from zero). A record with that
    billing date therefore passes the filter on that year and that month. *)
Theorem text_date_keeps_year_and_month (h : Host) (s : string)
    (d m y : Z) :
  matchLatam (trim s) = Some (d, m, y)
  \/ matchIso (trim s) = Some (y, m, d) ->
  (100 <= y)%Z -> (1 <= m <= 12)%Z -> (1 <= d <= monthLength m)%Z ->
  dayKept (LocalTZA h) (JsDate.days_from_civil y m d) = true ->
  let date :=
    JsDate.at_ms
      (JsDate.UTC (LocalTZA h)
         (JsDate.days_from_civil y m d * JsDate.msPerDay)) in
  parseExcelDate h (Some (Text s)) = Some date
  /\ yearText (LocalTZA h) date = Z_toString y
  /\ monthText (LocalTZA h) date = Z_toString (m - 1)
  /\ forall ot,
       billingDate ot = Some date ->
       checkFilters (LocalTZA h)
         {| selectedYear := Z_toString y;
            selectedMonth := Z_toString (m - 1);
            selectedWorkshop := "all";
            dynamicFilters := ∅ |} ot = true.
Proof.
  intros Hpat Hy Hm Hd Hk date.
  assert (Hy' : (0 <= y <= 9999)%Z).
  { destruct Hpat as [H|H];
      [apply (matchLatam_inv _ _ _ _ H) | apply (matchIso_inv _ _ _ _ H)]. }
  destruct (new_Date_ymd_calendar (LocalTZA h) y m d ltac:(lia) Hm Hd Hk)
    as (Ht & Hyear & Hmonth).
  assert (HY : yearText (LocalTZA h) date = Z_toString y).
  { unfold yearText. simpl. now rewrite Hyear. }
  assert (HM : monthText (LocalTZA h) date = Z_toString (m - 1)).
  { unfold monthText. simpl. now rewrite Hmonth. }
  split; [|split; [exact HY|split; [exact HM|]]].
  - rewrite (parseExcelDate_pattern h s d m y Hpat), Ht. reflexivity.
  - intros ot Hb. unfold checkFilters. cbn [selectedYear selectedMonth
      selectedWorkshop dynamicFilters].
    rewrite Hb, HY, HM, !String.eqb_refl, map_to_list_empty.
    destruct (negb (String.eqb (Z_toString y) "all"));
      now rewrite ?orb_true_r.
Qed.

(** On 1 October 2023 the zone with the two clock changes has no
    midnight: the day starts at 01:00, and the date read is that instant,
    04:00 UTC. *)
Lemma text_date_keeps_year_and_month_witness :
  let h := host_in asuncion_zone in
  matchLatam (trim "01/10/2023") = Some (1, 10, 2023)%Z
  /\ dayKept (LocalTZA h) (JsDate.days_from_civil 2023 10 1) = true
  /\ parseExcelDate h (Some (Text "01/10/2023"))
     = Some (JsDate.at_ms 1696132800000)
  /\ yearText (LocalTZA h) (JsDate.at_ms 1696132800000) = "2023"
  /\ monthText (LocalTZA h) (JsDate.at_ms 1696132800000) = "9".
Proof.
  intros h.
  destruct (text_date_keeps_year_and_month h "01/10/2023"
              1 10 2023 (or_introl eq_refl))
    as (H1 & H2 & H3 & _);
    [vm_compute; discriminate | vm_compute; split; discriminate
     | vm_compute; split; discriminate | reflexivity |].
  split; [reflexivity|]. split; [reflexivity|].
  split; [exact H1|]. split; [exact H2 | exact H3].
Defined.

(** Where the zone skips the whole day, the text is read as the next day
    that exists: 31 December 1994 becomes 1 January 1995, and the record
    is filed under another year and month. *)
Example text_date_on_skipped_day :
  let h := host_in line_islands_zone in
  dayKept (LocalTZA h) (JsDate.days_from_civil 1994 12 31) = false
  /\ exists date,
       parseExcelDate h (Some (Text "31/12/1994")) = Some date
       /\ yearText (LocalTZA h) date = "1995"
       /\ monthText (LocalTZA h) date = "0".
Proof.
  split; [reflexivity|].
  exists (JsDate.at_ms 788868000000). repeat split; vm_compute; reflexivity.
Qed.

(** ** The audit report *)

(** X7. The counts of the report add up: the rows read are the blank rows
    plus the records of [allRows]; there is one removal reason per
    duplicate; and [validRows], which the audit panel shows as the number of
    unique rows, is the length of [uniqueOTs] (so it is never negative). *)
Theorem audit_counts_add_up (h : Host) (mapping : ColumnMapping)
    (rows : list ExcelRow) :
  let res := processSheet h mapping rows in
  totalRows (report res) = List.length rows
  /\ totalRows (report res)
     = emptyRows (report res) + List.length (allRows res)
  /\ List.length (removedOtIds (report res))
     = duplicatesRemovedForCompliance (report res)
  /\ validRows (report res) = Z.of_nat (List.length (uniqueOTs res)).
Proof.
  intros res. subst res. unfold validRows.
  rewrite processSheet_report, processSheet_uniqueOTs, processSheet_allRows.
  cbn [totalRows emptyRows duplicatesRemovedForCompliance removedOtIds].
  pose proof (reconcileAll_inv (recordsOf h mapping rows)) as I.
  pose proof (inv_dups _ I) as Hd. pose proof (inv_removed _ I) as Hr.
  pose proof (foldl_ingest_vals (recordsOf h mapping rows) Loop.init) as Hl.
  apply (f_equal (@List.length _)) in Hl. simpl in Hl.
  rewrite length_map in Hl.
  fold (reconcileAll (recordsOf h mapping rows)) in Hl.
  assert (Hsplit : List.length rows
                   = blankRows h mapping rows
                     + List.length (recordsOf h mapping rows)).
  { unfold blankRows, recordsOf. clear.
    induction rows as [|row rows IH]; [reflexivity|].
    cbn [List.filter omap list_omap List.length].
    destruct (blankOt h mapping row); cbn [List.length]; lia. }
  unfold survivors, Map_values. rewrite length_map.
  repeat split; lia.
Qed.

(** ** The order and the choice of the survivors *)

Lemma firstOccurrences_snoc (seen l : list string) (k : string) :
  firstOccurrences seen (l ++ [k])
  = firstOccurrences seen l
    ++ (if includesStr (seen ++ l) k then [] else [k]).
Proof.
  revert seen. induction l as [|x l IH]; intros seen; simpl.
  - rewrite app_nil_r. now destruct (includesStr seen k).
  - destruct (includesStr seen x) eqn:E.
    + rewrite IH. f_equal.
      rewrite (includesStr_perm (seen ++ x :: l) (seen ++ l) k);
        [reflexivity|].
      apply includesStr_In in E. intros y.
      rewrite !elem_of_app, elem_of_cons. split; [|tauto].
      intros [?|[->|?]]; auto.
    + rewrite IH. simpl. f_equal. f_equal.
      rewrite (includesStr_perm (seen ++ x :: l) ((x :: seen) ++ l) k);
        [reflexivity|].
      intros y. simpl. rewrite !elem_of_cons, !elem_of_app, elem_of_cons.
      tauto.
Qed.

(** What [ingest] does to the compliance map, by the priorities of the
    record held and of the record arriving. *)
Lemma ingest_map (st : Loop.state) (r : ParsedOT) :
  let o := {| addr := List.length (Loop.allRows st); val := r |} in
  Loop.allRows (ingest st r) = Loop.allRows st ++ [o]
  /\ Loop.otMapForCompliance (ingest st r)
     = match Map_get (Loop.otMapForCompliance st) (id r) with
       | Some e =>
           if (priority (val e) <? priority r)%nat
           then Map_set (Loop.otMapForCompliance st) (id r) o
           else Loop.otMapForCompliance st
       | None => Loop.otMapForCompliance st ++ [(id r, o)]
       end.
Proof.
  intros o. unfold ingest, push, reconcile. simpl. fold o.
  destruct (Map_get (Loop.otMapForCompliance st) (id r)) as [e|] eqn:E.
  - split.
    + repeat match goal with
             | |- context [if ?b then _ else _] => destruct b
             end; reflexivity.
    + unfold priority.
      destruct (isInternalClient (val e)), (isInternalClient r),
        (present (realDate (val e))), (present (realDate r)); reflexivity.
  - split; [reflexivity|]. simpl. apply Map_get_None in E.
    now rewrite (Map_keys_set_new _ _ _ E).
Qed.

Lemma foldl_ingest_inv (rs : list ParsedOT) (st : Loop.state) :
  loopInv st -> loopInv (foldl ingest st rs).
Proof.
  revert st. induction rs as [|r rs IH]; intros st I; simpl; [assumption|].
  apply IH. now apply ingest_inv.
Qed.

Lemma Map_keys_firstOccurrences (rs : list ParsedOT) :
  Map_keys (Loop.otMapForCompliance (reconcileAll rs))
  = firstOccurrences [] (idsOf (Loop.allRows (reconcileAll rs))).
Proof.
  unfold reconcileAll.
  assert (G : forall st,
    loopInv st ->
    Map_keys (Loop.otMapForCompliance st)
    = firstOccurrences [] (idsOf (Loop.allRows st)) ->
    Map_keys (Loop.otMapForCompliance (foldl ingest st rs))
    = firstOccurrences [] (idsOf (Loop.allRows (foldl ingest st rs)))).
  { induction rs as [|r rs IH]; intros st I H; simpl; [assumption|].
    apply IH; [now apply ingest_inv|].
    destruct (ingest_map st r) as [-> ->].
    rewrite idsOf_snoc, firstOccurrences_snoc. simpl.
    destruct (Map_get (Loop.otMapForCompliance st) (id r)) as [e|] eqn:E.
    - assert (Hk : id r ∈ Map_keys (Loop.otMapForCompliance st)).
      { apply Map_get_is_Some. rewrite E. eauto. }
      assert (Hi : includesStr (idsOf (Loop.allRows st)) (id r) = true).
      { apply includesStr_In, (inv_keys _ I), Hk. }
      rewrite Hi, app_nil_r, <- H.
      destruct (priority (val e) <? priority r)%nat;
        [now apply Map_keys_set_old | reflexivity].
    - assert (Hi : includesStr (idsOf (Loop.allRows st)) (id r) = false).
      { apply includesStr_false. rewrite <- (inv_keys _ I).
        now apply Map_get_None. }
      rewrite Hi, <- H. unfold Map_keys. now rewrite map_app. }
  apply G; [apply init_inv | reflexivity].
Qed.

(** X8. [uniqueOTs] lists the OT ids in the order in which they first
    appear in [allRows]: a survivor that replaces another takes its place
    and does not move to the end. *)
Theorem uniqueOTs_in_first_seen_order (h : Host) (mapping : ColumnMapping)
    (rows : list ExcelRow) :
  let res := processSheet h mapping rows in
  idsOf (uniqueOTs res) = firstOccurrences [] (idsOf (allRows res)).
Proof.
  intros res. subst res.
  rewrite processSheet_allRows, processSheet_uniqueOTs. unfold survivors.
  rewrite <- Map_keys_firstOccurrences. apply idsOf_values.
  intros k o Hin.
  now apply (inv_entry _ (reconcileAll_inv (recordsOf h mapping rows))).
Qed.

Lemma Map_set_elem_ne {V : Type} (m : list (string * V)) (k k' : string)
    (v v' : V) :
  NoDup (Map_keys m) ->
  (k', v') ∈ Map_set m k v ->
  (k', v') = (k, v) \/ ((k', v') ∈ m /\ k' <> k).
Proof.
  induction m as [|[k0 v0] m IH]; simpl; intros Hnd.
  - intros ->%list_elem_of_singleton. now left.
  - apply NoDup_cons in Hnd as [Hnin Hnd].
    destruct (String.eqb_spec k k0) as [->|Hne].
    + intros [->|Hin]%elem_of_cons; [now left|].
      right. split; [now right|]. intros ->. apply Hnin.
      unfold Map_keys. apply (proj2 (list_elem_of_fmap _ _ _)).
      exists (k0, v'). auto.
    + intros [[= -> ->]|Hin]%elem_of_cons.
      * right. split; [left | congruence].
      * destruct (IH Hnd Hin) as [?|[? ?]]; [now left|].
        right. split; [now right | assumption].
Qed.

Lemma Map_get_elem {V : Type} (m : list (string * V)) (k : string) (v : V) :
  NoDup (Map_keys m) -> (k, v) ∈ m -> Map_get m k = Some v.
Proof.
  induction m as [|[k0 v0] m IH]; simpl; intros Hnd Hin.
  - now apply elem_of_nil in Hin.
  - apply NoDup_cons in Hnd as [Hnin Hnd].
    apply elem_of_cons in Hin as [[= -> ->]|Hin].
    + now rewrite String.eqb_refl.
    + destruct (String.eqb_spec k k0) as [->|_]; [|auto].
      exfalso. apply Hnin. unfold Map_keys.
      apply (proj2 (list_elem_of_fmap _ _ _)). exists (k0, v). auto.
Qed.

Lemma inv_addr_lt (st : Loop.state) (o : Obj) :
  loopInv st -> o ∈ Loop.allRows st ->
  addr o < List.length (Loop.allRows st).
Proof.
  intros I Ho.
  assert (Hin : addr o ∈ map addr (Loop.allRows st)).
  { apply (proj2 (list_elem_of_fmap _ _ _)). eauto. }
  rewrite (inv_addr _ I) in Hin.
  apply list_elem_of_In, in_seq in Hin. lia.
Qed.

(** The survivor of an id is, among the records of that id, one of the
    highest priority, and the earliest of those. *)
Lemma survivor_is_best (rs : list ParsedOT) (k : string) (u o : Obj) :
  (k, u) ∈ Loop.otMapForCompliance (reconcileAll rs) ->
  o ∈ Loop.allRows (reconcileAll rs) -> id (val o) = k ->
  priority (val o) <= priority (val u)
  /\ (priority (val o) = priority (val u) -> addr u <= addr o).
Proof.
  unfold reconcileAll. revert k u o.
  assert (G : forall st,
    loopInv st ->
    (forall k u o,
       (k, u) ∈ Loop.otMapForCompliance st ->
       o ∈ Loop.allRows st -> id (val o) = k ->
       priority (val o) <= priority (val u)
       /\ (priority (val o) = priority (val u) -> addr u <= addr o)) ->
    forall k u o,
      (k, u) ∈ Loop.otMapForCompliance (foldl ingest st rs) ->
      o ∈ Loop.allRows (foldl ingest st rs) -> id (val o) = k ->
      priority (val o) <= priority (val u)
      /\ (priority (val o) = priority (val u) -> addr u <= addr o)).
  { induction rs as [|r rs IH]; intros st I P; simpl; [exact P|].
    apply IH; [now apply ingest_inv|].
    destruct (ingest_map st r) as [-> ->].
    set (n := {| addr := List.length (Loop.allRows st); val := r |}).
    intros k u o Hu Ho Hid. apply elem_of_app in Ho.
    destruct (Map_get (Loop.otMapForCompliance st) (id r)) as [e|] eqn:E.
    - pose proof (Map_get_Some _ _ _ E) as He.
      destruct (inv_entry _ I _ _ He) as [Hide Hein].
      destruct (Nat.ltb_spec (priority (val e)) (priority r)) as [Hlt|Hge].
      + apply (Map_set_elem_ne _ _ _ _ _ (inv_nodup _ I)) in Hu
          as [[= -> ->]|[Hu Hne]].
        * destruct Ho as [Ho| ->%list_elem_of_singleton]; [|simpl; lia].
          destruct (P _ _ _ He Ho Hid) as [Hp _]. simpl. lia.
        * destruct Ho as [Ho| ->%list_elem_of_singleton];
            [now apply (P k u o) | simpl in Hid; congruence].
      + destruct Ho as [Ho| ->%list_elem_of_singleton];
          [now apply (P k u o)|].
        simpl in Hid. subst k.
        rewrite (Map_get_elem _ _ _ (inv_nodup _ I) Hu) in E.
        injection E as ->. simpl. split; [lia|].
        intros _. pose proof (inv_addr_lt _ _ I Hein). lia.
    - apply Map_get_None in E.
      apply elem_of_app in Hu as [Hu|[= -> ->]%list_elem_of_singleton].
      + destruct Ho as [Ho| ->%list_elem_of_singleton];
          [now apply (P k u o)|].
        simpl in Hid. subst k. exfalso. apply E. unfold Map_keys.
        apply (proj2 (list_elem_of_fmap _ _ _)). exists (id r, u). auto.
      + destruct Ho as [Ho| ->%list_elem_of_singleton]; [|simpl; lia].
        exfalso. apply E, (inv_keys _ I). unfold idsOf.
        apply (proj2 (list_elem_of_fmap _ _ _)). eauto. }
  intros k u o. apply G; [apply init_inv|].
  intros k' u' o' Hu'. now apply elem_of_nil in Hu'.
Qed.

(** X9. For every input, the survivor of an OT id in [uniqueOTs] is the
    record of that id of the highest priority, external records before
    internal ones and, between two of the same kind, one with a real
    delivery date before one without; among the records of that priority
    it is the one that comes first in [allRows]. *)
Theorem survivor_has_highest_priority (h : Host) (mapping : ColumnMapping)
    (rows : list ExcelRow) (u o : Obj) :
  let res := processSheet h mapping rows in
  u ∈ uniqueOTs res -> o ∈ allRows res -> id (val o) = id (val u) ->
  priority (val o) <= priority (val u)
  /\ (priority (val o) = priority (val u) -> addr u <= addr o).
Proof.
  intros res. subst res.
  rewrite processSheet_allRows, processSheet_uniqueOTs. unfold survivors.
  intros Hu Ho Hid. unfold Map_values in Hu.
  apply (proj1 (list_elem_of_fmap _ _ _)) in Hu as ([k u'] & -> & Hin).
  simpl in *.
  destruct (inv_entry _ (reconcileAll_inv (recordsOf h mapping rows))
              _ _ Hin) as [Hk _].
  apply (survivor_is_best (recordsOf h mapping rows) k u' o Hin Ho).
  congruence.
Qed.

Lemma survivor_has_highest_priority_witness :
  let rows :=
    [example_row "7" "C0008157";
     <["Real" := Text "10/03/2024"]> (example_row "7" "X");
     example_row "7" "Y"] in
  let res := processSheet example_host example_mapping rows in
  let u :=
    {| addr := 1;
       val := parseRow example_host example_mapping
                (<["Real" := Text "10/03/2024"]> (example_row "7" "X"))
                "7" |} in
  let o :=
    {| addr := 2;
       val := parseRow example_host example_mapping
                (example_row "7" "Y") "7" |} in
  u ∈ uniqueOTs res /\ o ∈ allRows res /\ id (val o) = id (val u)
  /\ priority (val o) <= priority (val u).
Proof.
  intros rows res u o.
  assert (Hu : u ∈ uniqueOTs res) by (vm_compute; left).
  assert (Ho : o ∈ allRows res) by (vm_compute; right; right; left).
  destruct (survivor_has_highest_priority example_host example_mapping
              rows u o Hu Ho eq_refl) as [H _].
  split; [exact Hu|]. split; [exact Ho|]. split; [reflexivity | exact H].
Defined.

(** ** The breakdown of internal clients *)

Lemma tallyInternal_positive (rows : list Obj) (c : string) (n : nat) :
  snd (tallyInternal rows) !! c = Some n -> 1 <= n.
Proof.
  unfold tallyInternal.
  assert (G : forall (acc : nat * gmap string nat),
    (forall c n, snd acc !! c = Some n -> 1 <= n) ->
    forall c n,
      snd (foldl (fun (acc : nat * gmap string nat) ot =>
                    if isInternalClient (val ot)
                    then (S (fst acc),
                          <[clientCode (val ot) :=
                              S (default 0
                                   (snd acc !! clientCode (val ot)))]>
                            (snd acc))
                    else acc) acc rows) !! c = Some n -> 1 <= n).
  { induction rows as [|o rows IH]; intros acc P; simpl; [exact P|].
    apply IH. destruct (isInternalClient (val o)); [|exact P].
    simpl. intros c' n'.
    destruct (decide (clientCode (val o) = c')) as [->|Hne].
    - rewrite lookup_insert_eq. intros [= <-]. lia.
    - rewrite lookup_insert_ne by assumption. apply P. }
  apply G. simpl. intros c' n'. now rewrite lookup_empty.
Qed.

Lemma internal_split (rows : list Obj) :
  (forall r, r ∈ rows ->
     isInternalClient (val r)
     = includesStr INTERNAL_CLIENT_CODES (clientCode (val r))) ->
  List.length (List.filter (fun r => isInternalClient (val r)) rows)
  = List.length
      (List.filter (fun r => isInternalClient (val r)
                             && String.eqb (clientCode (val r)) "C0008157")
         rows)
    + List.length
        (List.filter (fun r => isInternalClient (val r)
                               && String.eqb (clientCode (val r)) "C0001114")
           rows)
    + List.length
        (List.filter (fun r => isInternalClient (val r)
                               && String.eqb (clientCode (val r)) "C0001140")
           rows).
Proof.
  induction rows as [|o rows IH]; intros H; [reflexivity|].
  assert (IH' := IH ltac:(intros r Hr; apply H; now right)).
  clear IH. cbn [List.filter].
  rewrite (H o ltac:(left)).
  unfold INTERNAL_CLIENT_CODES, includesStr. cbn [existsb].
  destruct (String.eqb_spec (clientCode (val o)) "C0008157") as [E|?];
    [try rewrite E; cbn [List.length]; cbn; lia|].
  destruct (String.eqb_spec (clientCode (val o)) "C0001114") as [E|?];
    [try rewrite E; cbn [List.length]; cbn; lia|].
  destruct (String.eqb_spec (clientCode (val o)) "C0001140") as [E|?];
    [try rewrite E; cbn [List.length]; cbn; lia|].
  cbn. exact IH'.
Qed.

(** X10. The per-code breakdown of internal clients has no key but the
    three internal codes and no entry of zero, and its entries add up to
    [internalClientsCount]. *)
Theorem internal_breakdown_adds_up (h : Host) (mapping : ColumnMapping)
    (rows : list ExcelRow) :
  let r := report (processSheet h mapping rows) in
  (forall c n,
     internalClientsByCode r !! c = Some n ->
     c ∈ INTERNAL_CLIENT_CODES /\ 1 <= n)
  /\ internalClientsCount r
     = default 0 (internalClientsByCode r !! "C0008157")
       + default 0 (internalClientsByCode r !! "C0001114")
       + default 0 (internalClientsByCode r !! "C0001140").
Proof.
  intros r. subst r.
  set (res := processSheet h mapping rows).
  change (internalClientsByCode (report res))
    with (snd (tallyInternal (allRows res))).
  change (internalClientsCount (report res))
    with (fst (tallyInternal (allRows res))).
  destruct (tallyInternal_spec (allRows res)) as [Hn Hby].
  split.
  - intros c n Hc. pose proof (tallyInternal_positive _ _ _ Hc) as Hpos.
    split; [|exact Hpos].
    specialize (Hby c). rewrite Hc in Hby. cbn [default] in Hby.
    remember (List.filter
                (fun r => isInternalClient (val r)
                          && String.eqb (clientCode (val r)) c)
                (allRows res)) as l eqn:F.
    destruct l as [|o l]; [cbn in Hby; lia|].
    assert (Ho : In o (List.filter
                         (fun r => isInternalClient (val r)
                                   && String.eqb (clientCode (val r)) c)
                         (allRows res))) by (rewrite <- F; now left).
    apply filter_In in Ho as [Ho [Hi Heq%String.eqb_eq]%andb_prop].
    clear F Hby Hc. subst c.
    apply (proj2 (list_elem_of_In _ _)) in Ho.
    rewrite (allRows_isInternal h mapping rows o Ho) in Hi.
    now apply includesStr_In.
  - rewrite Hn, !Hby. apply internal_split.
    intros o Ho. now apply (allRows_isInternal h mapping rows).
Qed.

(** ** The values of the additional filters *)

Lemma foldl_setProp_lookup (g : string -> string) (l : list string)
    (m0 : gmap string string) (k : string) :
  foldl (fun (cv : gmap string string) field => setProp cv field (g field))
        m0 l !! k
  = if includesStr l k && negb (String.eqb k "__proto__")
    then Some (g k) else m0 !! k.
Proof.
  revert m0. induction l as [|x l IH]; intros m0; [reflexivity|].
  cbn [foldl]. rewrite IH. unfold includesStr. cbn [existsb].
  fold (includesStr l k).
  destruct (String.eqb_spec k "__proto__") as [Hp|Hp]; simpl.
  - rewrite !andb_false_r. unfold setProp.
    destruct (String.eqb_spec x "__proto__") as [Hx|Hx]; [reflexivity|].
    rewrite lookup_insert_ne by congruence. reflexivity.
  - rewrite !andb_true_r. destruct (includesStr l k).
    + now rewrite orb_true_r.
    + rewrite orb_false_r. unfold setProp.
      destruct (String.eqb_spec k x) as [->|Hne].
      * destruct (String.eqb_spec x "__proto__"); [contradiction|].
        now rewrite lookup_insert_eq.
      * destruct (String.eqb_spec x "__proto__"); [reflexivity|].
        rewrite lookup_insert_ne by congruence. reflexivity.
Qed.

Lemma customValues_lookup (h : Host) (mapping : ColumnMapping)
    (row : ExcelRow) (otNumber field : string) :
  customValues (parseRow h mapping row otNumber) !! field
  = if includesStr (ColumnMapping.additionalFilters mapping) field
       && negb (String.eqb field "__proto__")
    then Some (textField h row field "N/A") else None.
Proof.
  unfold parseRow. cbn [customValues].
  now rewrite foldl_setProp_lookup, lookup_empty.
Qed.

(** X11. A dynamic filter of the dashboard selects the rows by the text of
    their cell. With one dynamic filter set to a value and every other
    criterion off, the record of a row passes exactly when the field is one
    of the additional filters of the mapping (and is not [__proto__], which
    a record never holds a value for) and the trimmed text read from the
    row under that field is the value selected; a row whose value under the
    field is [undefined] or falsy is selected by the value ["N/A"] and by no
    other. *)
Theorem custom_filter_selects_by_cell (h : Host) (mapping : ColumnMapping)
    (tza : JsDate.Zone) (row : ExcelRow) (otNumber field value : string) :
  value <> "all" ->
  let ot := parseRow h mapping row otNumber in
  let f :=
    {| selectedYear := "all"; selectedMonth := "all";
       selectedWorkshop := "all"; dynamicFilters := {[ field := value ]} |} in
  (checkFilters tza f ot = true
   <-> field ∈ ColumnMapping.additionalFilters mapping
       /\ field <> "__proto__"
       /\ textField h row field "N/A" = value)
  /\ (field ∈ ColumnMapping.additionalFilters mapping ->
      field <> "__proto__" ->
      falsyCell (rowGet h row field) = true ->
      (checkFilters tza f ot = true <-> value = "N/A")).
Proof.
  intros Hv ot f.
  assert (Hc : checkFilters tza f ot
               = bool_decide (customValues ot !! field = Some value)).
  { unfold checkFilters. subst f.
    cbn [selectedYear selectedMonth selectedWorkshop dynamicFilters].
    rewrite map_to_list_singleton. cbn [forallb].
    destruct (String.eqb_spec value "all"); [contradiction|].
    change (String.eqb "all" "all") with true. simpl.
    now rewrite andb_true_r, negb_involutive. }
  assert (Hiff : checkFilters tza f ot = true
                 <-> field ∈ ColumnMapping.additionalFilters mapping
                     /\ field <> "__proto__"
                     /\ textField h row field "N/A" = value).
  { rewrite Hc, bool_decide_eq_true. subst ot.
    rewrite customValues_lookup.
    destruct (includesStr (ColumnMapping.additionalFilters mapping) field)
      eqn:E.
    - apply includesStr_In in E.
      destruct (String.eqb_spec field "__proto__") as [Hp|Hp]; simpl.
      + split; [discriminate | intros (_ & ? & _); contradiction].
      + split; [intros [= <-]; auto | intros (_ & _ & ->); reflexivity].
    - apply includesStr_false in E. simpl.
      split; [discriminate | intros (? & _); contradiction]. }
  split; [exact Hiff|].
  intros Hin Hp Hf. rewrite Hiff, (textField_falsy _ _ _ _ Hf).
  change (trim "N/A") with "N/A". split; [intros (_ & _ & <-) | intros <-];
    auto.
Qed.

Lemma custom_filter_selects_by_cell_witness :
  let mapping := handleFilterToggle example_mapping "Zona" in
  let ot := parseRow example_host mapping (example_row "7" "X") "7" in
  "Zona" ∈ ColumnMapping.additionalFilters mapping
  /\ falsyCell (rowGet example_host (example_row "7" "X") "Zona") = true
  /\ checkFilters (LocalTZA example_host)
       {| selectedYear := "all"; selectedMonth := "all";
          selectedWorkshop := "all";
          dynamicFilters := {[ "Zona" := "N/A" ]} |} ot = true.
Proof.
  intros mapping ot.
  assert (Hin : "Zona" ∈ ColumnMapping.additionalFilters mapping)
    by (vm_compute; left).
  destruct (custom_filter_selects_by_cell example_host mapping
              (LocalTZA example_host) (example_row "7" "X") "7" "Zona" "N/A"
              ltac:(discriminate)) as [_ H].
  split; [exact Hin|]. split; [reflexivity|].
  apply (H Hin ltac:(discriminate) eq_refl). reflexivity.
Defined.

(** ** The tallies of [calculateStats] *)

Lemma countDelivery_partition (tza : JsDate.Zone) (ots : list Obj) :
  countDelivery tza OnTime ots + countDelivery tza Late ots
  + countDelivery tza Pending ots = List.length ots.
Proof.
  unfold countDelivery. induction ots as [|o ots IH]; [reflexivity|].
  cbn [List.filter List.length].
  destruct (classify tza (val o)); cbn [Delivery_eqb List.length]; lia.
Qed.

(** X12. [calculateStats] counts every record exactly once: [totalOTs] is
    the number of records given, and the on-time, late and pending totals
    add up to it. *)
Theorem calculateStats_counts_each_once (tza : JsDate.Zone) (ots : list Obj) :
  let g := calculateStats tza ots in
  totalOTs g = List.length ots
  /\ totalOnTime g + totalLate g + totalPending g = totalOTs g.
Proof.
  intros g. subst g.
  destruct (calculateStats_totals tza ots) as (H1 & H2 & H3 & H4).
  rewrite H1, H2, H3, H4. split; [reflexivity|].
  apply countDelivery_partition.
Qed.

Lemma Map_get_set {V : Type} (m : list (string * V)) (k k' : string)
    (v : V) :
  Map_get (Map_set m k v) k'
  = if String.eqb k' k then Some v else Map_get m k'.
Proof.
  induction m as [|[k0 v0] m IH]; simpl.
  - reflexivity.
  - destruct (String.eqb_spec k k0) as [->|Hne]; simpl.
    + destruct (String.eqb_spec k' k0); reflexivity.
    + rewrite IH. destruct (String.eqb_spec k' k0) as [->|_];
        [|reflexivity].
      destruct (String.eqb_spec k0 k); [congruence | reflexivity].
Qed.

Lemma Map_set_NoDup {V : Type} (m : list (string * V)) (k : string)
    (v : V) :
  NoDup (Map_keys m) -> NoDup (Map_keys (Map_set m k v)).
Proof.
  intros Hnd. destruct (decide (k ∈ Map_keys m)) as [Hin|Hnin].
  - now rewrite Map_keys_set_old.
  - rewrite (Map_keys_set_new _ _ _ Hnin). unfold Map_keys.
    rewrite map_app. simpl. apply NoDup_app. split; [exact Hnd|].
    split; [|apply NoDup_singleton].
    intros x Hx ->%list_elem_of_singleton. contradiction.
Qed.

(** One record through [statsStep], seen from one workshop. *)
Lemma statsStep_get (tza : JsDate.Zone) (g : GlobalStats) (o : Obj) (w : string) :
  let t0 := default Tally.zero (Map_get (workshopMap g) w) in
  let c := classify tza (val o) in
  if String.eqb (workshop (val o)) w then
    exists t,
      Map_get (workshopMap (statsStep tza g o)) w = Some t
      /\ Tally.total t = S (Tally.total t0)
      /\ Tally.onTime t
         = Tally.onTime t0 + (if Delivery_eqb c OnTime then 1 else 0)
      /\ Tally.late t
         = Tally.late t0 + (if Delivery_eqb c Late then 1 else 0)
      /\ Tally.pending t
         = Tally.pending t0 + (if Delivery_eqb c Pending then 1 else 0)
  else
    Map_get (workshopMap (statsStep tza g o)) w = Map_get (workshopMap g) w.
Proof.
  intros t0 c. subst t0 c. unfold statsStep. cbn [workshopMap].
  rewrite Map_get_set.
  destruct (String.eqb_spec (workshop (val o)) w) as [<-|Hne].
  - rewrite String.eqb_refl. eexists. split; [reflexivity|].
    cbn [Tally.total Tally.onTime Tally.late Tally.pending].
    assert (E : default Tally.zero
                  (Map_get
                     match Map_get (workshopMap g) (workshop (val o)) with
                     | Some _ => workshopMap g
                     | None =>
                         Map_set (workshopMap g) (workshop (val o))
                           Tally.zero
                     end (workshop (val o)))
                = default Tally.zero
                    (Map_get (workshopMap g) (workshop (val o)))).
    { destruct (Map_get (workshopMap g) (workshop (val o))) eqn:E;
        [now rewrite E|].
      now rewrite Map_get_set, String.eqb_refl. }
    rewrite E.
    destruct (classify tza (val o)); cbn [Delivery_eqb]; repeat split; lia.
  - destruct (String.eqb_spec w (workshop (val o))); [congruence|].
    destruct (Map_get (workshopMap g) (workshop (val o))); [reflexivity|].
    rewrite Map_get_set.
    destruct (String.eqb_spec w (workshop (val o))); [congruence|reflexivity].
Qed.

Lemma statsStep_keys_NoDup (tza : JsDate.Zone) (g : GlobalStats) (o : Obj) :
  NoDup (Map_keys (workshopMap g)) ->
  NoDup (Map_keys (workshopMap (statsStep tza g o))).
Proof.
  intros H. unfold statsStep. cbn [workshopMap]. apply Map_set_NoDup.
  destruct (Map_get (workshopMap g) (workshop (val o)));
    [exact H | now apply Map_set_NoDup].
Qed.

Lemma calculateStats_keys_NoDup (tza : JsDate.Zone) (ots : list Obj) :
  NoDup (Map_keys (workshopMap (calculateStats tza ots))).
Proof.
  unfold calculateStats.
  assert (G : forall g, NoDup (Map_keys (workshopMap g)) ->
                        NoDup (Map_keys (workshopMap
                                           (foldl (statsStep tza) g ots)))).
  { induction ots as [|o ots IH]; intros g H; simpl; [exact H|].
    apply IH. now apply statsStep_keys_NoDup. }
  apply G. simpl. apply NoDup_nil_2.
Qed.

(** The tally that [calculateStats] holds for a workshop. *)
Lemma calculateStats_workshop (tza : JsDate.Zone) (ots : list Obj) (w : string) :
  match Map_get (workshopMap (calculateStats tza ots)) w with
  | Some t =>
      Tally.total t = List.length (inWorkshop w ots)
      /\ Tally.onTime t = countDelivery tza OnTime (inWorkshop w ots)
      /\ Tally.late t = countDelivery tza Late (inWorkshop w ots)
      /\ Tally.pending t = countDelivery tza Pending (inWorkshop w ots)
      /\ 1 <= Tally.total t
  | None => inWorkshop w ots = []
  end.
Proof.
  unfold calculateStats.
  assert (G : forall g,
    match Map_get (workshopMap g) w with
    | Some t => 1 <= Tally.total t
    | None => True
    end ->
    let t0 := default Tally.zero (Map_get (workshopMap g) w) in
    match Map_get (workshopMap (foldl (statsStep tza) g ots)) w with
    | Some t =>
        Tally.total t = Tally.total t0 + List.length (inWorkshop w ots)
        /\ Tally.onTime t
           = Tally.onTime t0 + countDelivery tza OnTime (inWorkshop w ots)
        /\ Tally.late t
           = Tally.late t0 + countDelivery tza Late (inWorkshop w ots)
        /\ Tally.pending t
           = Tally.pending t0
             + countDelivery tza Pending (inWorkshop w ots)
        /\ 1 <= Tally.total t
    | None => Map_get (workshopMap g) w = None /\ inWorkshop w ots = []
    end).
  { induction ots as [|o ots IH]; intros g Hpos t0; subst t0.
    - simpl. destruct (Map_get (workshopMap g) w) as [t|];
        [unfold countDelivery; simpl; repeat split; lia | auto].
    - cbn [foldl]. pose proof (statsStep_get tza g o w) as S.
      unfold inWorkshop, countDelivery in *. cbn [List.filter].
      destruct (String.eqb (workshop (val o)) w) eqn:E.
      + destruct S as (t1 & Ht1 & S1 & S2 & S3 & S4).
        specialize (IH (statsStep tza g o)).
        rewrite Ht1 in IH. specialize (IH ltac:(lia)).
        cbn [default] in IH.
        destruct (Map_get (workshopMap (foldl (statsStep tza)
                                          (statsStep tza g o) ots)) w)
          as [t|]; [|destruct IH; discriminate].
        destruct IH as (I1 & I2 & I3 & I4 & I5).
        cbn [List.filter List.length].
        unfold Datatypes.id in *.
        destruct (classify tza (val o)); cbn [Delivery_eqb] in *;
          cbn [List.length]; repeat split; lia.
      + specialize (IH (statsStep tza g o)). rewrite S in IH.
        specialize (IH Hpos). cbn zeta in IH.
        destruct (Map_get (workshopMap (foldl (statsStep tza)
                                          (statsStep tza g o) ots)) w)
          as [t|]; exact IH. }
  specialize (G {| totalOTs := 0; totalOnTime := 0; totalLate := 0;
                   totalPending := 0; totalAmount := 0%float;
                   workshopMap := [] |} I).
  cbn zeta in G. cbn [workshopMap Map_get default] in G.
  destruct (Map_get _ w) as [t|]; [|apply G].
  destruct G as (G1 & G2 & G3 & G4 & G5).
  cbn [Tally.total Tally.onTime Tally.late Tally.pending Tally.zero] in *.
  repeat split; lia.
Qed.

(** X13. The tally that [calculateStats] keeps for a workshop counts the
    records of that workshop and nothing else: its total is their number,
    its on-time, late and pending counts are their numbers by
    classification and add up to the total; a workshop has a tally exactly
    when a record names it, so no tally is empty. *)
Theorem workshop_tally_counts_its_records (tza : JsDate.Zone) (ots : list Obj)
    (w : string) :
  match Map_get (workshopMap (calculateStats tza ots)) w with
  | Some t =>
      Tally.total t = List.length (inWorkshop w ots)
      /\ Tally.onTime t = countDelivery tza OnTime (inWorkshop w ots)
      /\ Tally.late t = countDelivery tza Late (inWorkshop w ots)
      /\ Tally.pending t = countDelivery tza Pending (inWorkshop w ots)
      /\ Tally.onTime t + Tally.late t + Tally.pending t = Tally.total t
      /\ 1 <= Tally.total t
  | None => inWorkshop w ots = []
  end.
Proof.
  pose proof (calculateStats_workshop tza ots w) as H.
  destruct (Map_get (workshopMap (calculateStats tza ots)) w) as [t|];
    [|exact H].
  destruct H as (H1 & H2 & H3 & H4 & H5).
  pose proof (countDelivery_partition tza (inWorkshop w ots)).
  repeat split; try assumption. lia.
Qed.

(** ** Sorting *)

Section SortFacts.
Context {A : Type} (before : A -> A -> bool).

Lemma insertSorted_perm (x : A) (l : list A) :
  insertSorted before x l ≡ₚ x :: l.
Proof.
  induction l as [|y l IH]; simpl; [reflexivity|].
  destruct (before x y); [reflexivity|].
  rewrite IH. apply Permutation_swap.
Qed.

Lemma sortBy_perm (l : list A) : sortBy before l ≡ₚ l.
Proof.
  unfold sortBy. induction l as [|x l IH]; simpl; [reflexivity|].
  rewrite insertSorted_perm. now rewrite IH.
Qed.

Hypothesis before_total :
  forall x y, before x y = false -> before y x = true.
Hypothesis before_trans :
  forall x y z, before x y = true -> before y z = true -> before x z = true.

Lemma insertSorted_sorted (x : A) (l : list A) :
  StronglySorted (fun a b => before a b = true) l ->
  StronglySorted (fun a b => before a b = true) (insertSorted before x l).
Proof.
  induction 1 as [|y l Hs IH Hall]; simpl.
  - constructor; constructor.
  - destruct (before x y) eqn:E.
    + constructor; [now constructor|].
      constructor; [exact E|].
      eapply Forall_impl; [exact Hall|]. simpl. eauto.
    + constructor; [exact IH|].
      rewrite insertSorted_perm. constructor; [now apply before_total|].
      exact Hall.
Qed.

Lemma sortBy_sorted (l : list A) :
  StronglySorted (fun a b => before a b = true) (sortBy before l).
Proof.
  unfold sortBy. induction l as [|x l IH]; simpl; [constructor|].
  now apply insertSorted_sorted.
Qed.
End SortFacts.

Lemma StronglySorted_weaken {A : Type} (R R' : A -> A -> Prop)
    (l : list A) :
  (forall a b, R a b -> R' a b) ->
  StronglySorted R l -> StronglySorted R' l.
Proof.
  intros H. induction 1 as [|x l Hs IH Hall]; constructor; [exact IH|].
  eapply Forall_impl; [exact Hall|]. simpl. auto.
Qed.

Lemma Map_get_keys_elem {V : Type} (m : list (string * V)) (k : string) :
  k ∈ Map_keys m <-> exists v, (k, v) ∈ m.
Proof.
  unfold Map_keys. split.
  - intros ([k' v] & -> & Hin)%list_elem_of_fmap. eauto.
  - intros [v Hin]. apply (proj2 (list_elem_of_fmap _ _ _)).
    exists (k, v). auto.
Qed.

Lemma inWorkshop_nonempty (w : string) (ots : list Obj) :
  inWorkshop w ots <> [] <-> exists o, o ∈ ots /\ workshop (val o) = w.
Proof.
  unfold inWorkshop. split.
  - intros H. destruct (List.filter _ ots) as [|o l] eqn:F; [congruence|].
    assert (Ho : In o (List.filter
                         (fun o => String.eqb (workshop (val o)) w) ots))
      by (rewrite F; now left).
    apply filter_In in Ho as [Ho E%String.eqb_eq].
    exists o. split; [now apply list_elem_of_In | exact E].
  - intros (o & Ho & E) F.
    assert (Hin : In o (List.filter
                          (fun o => String.eqb (workshop (val o)) w) ots)).
    { apply filter_In. split; [now apply list_elem_of_In|].
      now apply String.eqb_eq. }
    rewrite F in Hin. destruct Hin.
Qed.

(** X14. The workshop ranking of [calculateStats] is sorted by decreasing
    number of records, has exactly one line per workshop named by a record,
    and each line carries the counts of the records of its workshop,
    whatever the engine's rendering of the percentages. *)
Theorem workshops_ranking (h : Host) (toFixed2 : float -> string)
    (tza : JsDate.Zone) (ots : list Obj) :
  let ws := workshops h toFixed2 (calculateStats tza ots) in
  StronglySorted
    (fun a b => WorkshopStats.totalOTs b <= WorkshopStats.totalOTs a) ws
  /\ NoDup (map WorkshopStats.name ws)
  /\ (forall w,
        w ∈ map WorkshopStats.name ws
        <-> exists o, o ∈ ots /\ workshop (val o) = w)
  /\ (forall a, a ∈ ws ->
        WorkshopStats.totalOTs a
        = List.length (inWorkshop (WorkshopStats.name a) ots)
        /\ WorkshopStats.onTime a + WorkshopStats.late a
           + WorkshopStats.pending a = WorkshopStats.totalOTs a
        /\ 1 <= WorkshopStats.totalOTs a).
Proof.
  intros ws. subst ws. unfold workshops.
  set (mk := fun '(key, v) =>
               {| WorkshopStats.name := key;
                  WorkshopStats.totalOTs := Tally.total v;
                  WorkshopStats.onTime := Tally.onTime v;
                  WorkshopStats.late := Tally.late v;
                  WorkshopStats.pending := Tally.pending v;
                  WorkshopStats.complianceRate :=
                    rate h toFixed2 (Tally.onTime v) (Tally.total v);
                  WorkshopStats.totalAmount := Tally.amount v |}).
  set (wm := workshopMap (calculateStats tza ots)).
  set (before := fun a b =>
                   (WorkshopStats.totalOTs b <=? WorkshopStats.totalOTs a)%nat).
  pose proof (sortBy_perm before (map mk wm)) as Hp.
  assert (Hnames : map WorkshopStats.name (map mk wm) = Map_keys wm).
  { unfold Map_keys. rewrite map_map. apply map_ext. now intros [k v]. }
  assert (Hnd : NoDup (Map_keys wm)) by apply calculateStats_keys_NoDup.
  assert (Hkeys : forall w, w ∈ Map_keys wm
                            <-> exists o, o ∈ ots /\ workshop (val o) = w).
  { intros w. rewrite <- inWorkshop_nonempty, <- Map_get_is_Some.
    pose proof (calculateStats_workshop tza ots w) as Hw. fold wm in Hw.
    destruct (Map_get wm w) as [t|].
    - split; [|eauto]. intros _ E. rewrite E in Hw. simpl in Hw. lia.
    - split; [intros [? ?]; discriminate | contradiction]. }
  split; [|split; [|split]].
  - apply (StronglySorted_weaken (fun a b => before a b = true)).
    { intros a b Hab. now apply Nat.leb_le in Hab. }
    apply (sortBy_sorted before).
    + intros x y Hxy. unfold before in *.
      apply Nat.leb_gt in Hxy. apply Nat.leb_le. lia.
    + intros x y z Hxy Hyz. unfold before in *.
      apply Nat.leb_le in Hxy, Hyz. apply Nat.leb_le. lia.
  - rewrite Hp, Hnames. exact Hnd.
  - intros w. rewrite Hp, Hnames. apply Hkeys.
  - intros a Ha. rewrite Hp in Ha.
    apply (proj1 (list_elem_of_fmap _ _ _)) in Ha as ([k v] & -> & Hin).
    cbn [mk WorkshopStats.name WorkshopStats.totalOTs WorkshopStats.onTime
         WorkshopStats.late WorkshopStats.pending].
    pose proof (calculateStats_workshop tza ots k) as Hw. fold wm in Hw.
    rewrite (Map_get_elem _ _ _ Hnd Hin) in Hw.
    destruct Hw as (H1 & H2 & H3 & H4 & H5).
    pose proof (countDelivery_partition tza (inWorkshop k ots)).
    repeat split; lia.
Qed.

(** X15. The workshop filter of the dashboard offers every workshop that a
    row of [allRows] names, each once, and nothing else. *)
Theorem availableWorkshops_complete (allRows : list Obj) :
  NoDup (availableWorkshops allRows)
  /\ forall w,
       w ∈ availableWorkshops allRows
       <-> exists o, o ∈ allRows /\ workshop (val o) = w.
Proof.
  unfold availableWorkshops.
  pose proof (sortBy_perm String.leb
                (remove_dups (map (fun o => workshop (val o)) allRows)))
    as Hp.
  split.
  - rewrite Hp. apply NoDup_remove_dups.
  - intros w. rewrite Hp, elem_of_remove_dups. split.
    + intros (o & -> & Ho)%list_elem_of_fmap. eauto.
    + intros (o & Ho & <-). apply (proj2 (list_elem_of_fmap _ _ _)). eauto.
Qed.

(** ** The views *)

Lemma filter_map_NoDup {A B : Type} (g : A -> B) (p : A -> bool)
    (l : list A) :
  NoDup (map g l) -> NoDup (map g (List.filter p l)).
Proof.
  induction l as [|x l IH]; simpl; [auto|].
  intros [Hnin Hnd]%NoDup_cons. destruct (p x); simpl; [|auto].
  apply NoDup_cons. split; [|auto].
  intros (y & Hy & Hin)%list_elem_of_fmap. apply Hnin.
  apply (proj2 (list_elem_of_fmap _ _ _)). exists y. split; [exact Hy|].
  apply list_elem_of_In, filter_In in Hin as [Hin _].
  now apply list_elem_of_In.
Qed.

Lemma uniqueOTs_ids_NoDup (h : Host) (mapping : ColumnMapping)
    (rows : list ExcelRow) :
  NoDup (idsOf (uniqueOTs (processSheet h mapping rows))).
Proof.
  rewrite processSheet_uniqueOTs. unfold survivors.
  pose proof (reconcileAll_inv (recordsOf h mapping rows)) as I.
  rewrite idsOf_values; [apply (inv_nodup _ I)|].
  intros k o Hin. now apply (inv_entry _ I).
Qed.

Lemma uniqueOTs_in_allRows (h : Host) (mapping : ColumnMapping)
    (rows : list ExcelRow) (u : Obj) :
  u ∈ uniqueOTs (processSheet h mapping rows) ->
  u ∈ allRows (processSheet h mapping rows).
Proof.
  rewrite processSheet_uniqueOTs, processSheet_allRows. unfold survivors.
  intros ([k o] & -> & Hin)%list_elem_of_fmap.
  now apply (inv_entry _ (reconcileAll_inv (recordsOf h mapping rows)) k o).
Qed.

(** X16. The compliance view never shows an OT twice: for every filter
    state its records have pairwise distinct ids, each is a survivor of
    [uniqueOTs] and a record of [allRows], is not of an internal client and
    passes the common filters. *)
Theorem compliance_view_one_record_per_OT (h : Host)
    (mapping : ColumnMapping) (rows : list ExcelRow) (tza : JsDate.Zone)
    (f : FilterState) :
  let res := processSheet h mapping rows in
  let view := complianceData tza f (uniqueOTs res) in
  NoDup (idsOf view)
  /\ forall o, o ∈ view ->
       o ∈ uniqueOTs res /\ o ∈ allRows res
       /\ isInternalClient (val o) = false
       /\ checkFilters tza f (val o) = true.
Proof.
  intros res view. subst res view. split.
  - unfold complianceData, idsOf. apply filter_map_NoDup.
    apply uniqueOTs_ids_NoDup.
  - intros o Ho. unfold complianceData in Ho.
    apply list_elem_of_In, filter_In in Ho as [Ho Hk].
    apply (proj2 (list_elem_of_In _ _)) in Ho.
    pose proof (uniqueOTs_in_allRows h mapping rows o Ho) as Ha.
    split; [exact Ho|]. split; [exact Ha|].
    rewrite (allRows_isInternal h mapping rows o Ha).
    unfold keepExternal, INTERNAL_CLIENT_CODES in *.
    destruct (includesStr _ (clientCode (val o))); [discriminate|].
    auto.
Qed.

Lemma checkFilters_noFilter (tza : JsDate.Zone) (f : FilterState) (ot : ParsedOT) :
  noFilter f -> checkFilters tza f ot = true.
Proof.
  intros (Hy & Hw & Hd). unfold checkFilters. rewrite Hy, Hw. simpl.
  apply forallb_forall. intros [field value] Hin.
  apply (proj2 (list_elem_of_In _ _)), elem_of_map_to_list in Hin.
  rewrite (Hd _ _ Hin). reflexivity.
Qed.

Lemma filter_complement_length {A : Type} (p q : A -> bool) (l : list A) :
  (forall x, In x l -> p x = true -> q x = false) ->
  List.length (List.filter p l) + List.length (List.filter q l)
  <= List.length l.
Proof.
  induction l as [|x l IH]; intros H; simpl; [lia|].
  assert (IH' := IH ltac:(intros y Hy; apply H; now right)).
  pose proof (H x ltac:(now left)) as Hx.
  destruct (p x); [rewrite (Hx eq_refl)|destruct (q x)]; simpl; lia.
Qed.

Lemma filter_negb_length {A : Type} (p q : A -> bool) (l : list A) :
  (forall x, In x l -> p x = negb (q x)) ->
  List.length (List.filter p l) + List.length (List.filter q l)
  = List.length l.
Proof.
  induction l as [|x l IH]; intros H; simpl; [lia|].
  assert (IH' := IH ltac:(intros y Hy; apply H; now right)).
  rewrite (H x ltac:(now left)).
  destruct (q x); simpl; lia.
Qed.

(** X17. The financial view and the internal clients of the audit report
    never overlap: for every filter state the number of rows of the
    financial view plus [internalClientsCount] is at most the number of
    records of [allRows], and with no filter set the two add up to it
    exactly. *)
Theorem financial_view_and_internal_count (h : Host)
    (mapping : ColumnMapping) (rows : list ExcelRow) (tza : JsDate.Zone)
    (f : FilterState) :
  let res := processSheet h mapping rows in
  financialCount tza f (allRows res) + internalClientsCount (report res)
  <= List.length (allRows res)
  /\ (noFilter f ->
      financialCount tza f (allRows res) + internalClientsCount (report res)
      = List.length (allRows res)).
Proof.
  intros res. subst res.
  set (res := processSheet h mapping rows).
  change (internalClientsCount (report res))
    with (fst (tallyInternal (allRows res))).
  destruct (tallyInternal_spec (allRows res)) as [-> _].
  unfold financialCount, financialData. split.
  - apply filter_complement_length. intros o Ho%list_elem_of_In Hk.
    rewrite (allRows_isInternal h mapping rows o Ho).
    unfold keepExternal, INTERNAL_CLIENT_CODES in *.
    destruct (includesStr _ (clientCode (val o))); [discriminate|].
    reflexivity.
  - intros Hnf. apply filter_negb_length. intros o Ho%list_elem_of_In.
    rewrite (allRows_isInternal h mapping rows o Ho).
    unfold keepExternal, INTERNAL_CLIENT_CODES.
    destruct (includesStr _ (clientCode (val o))); [reflexivity|].
    now rewrite (checkFilters_noFilter _ _ _ Hnf).
Qed.

Lemma financial_view_witness :
  noFilter example_filter
  /\ financialCount (LocalTZA example_host) example_filter
       (allRows (processSheet example_host example_mapping
                   [example_row "7" "C0008157"; example_row "8" "X"]))
     + internalClientsCount
         (report (processSheet example_host example_mapping
                    [example_row "7" "C0008157"; example_row "8" "X"]))
     = List.length
         (allRows (processSheet example_host example_mapping
                     [example_row "7" "C0008157"; example_row "8" "X"])).
Proof.
  assert (Hnf : noFilter example_filter).
  { split; [reflexivity|]. split; [reflexivity|].
    intros field value H. unfold example_filter in H.
    cbn [dynamicFilters] in H. now rewrite lookup_empty in H. }
  split; [exact Hnf|].
  apply (financial_view_and_internal_count example_host example_mapping
           [example_row "7" "C0008157"; example_row "8" "X"]
           (LocalTZA example_host) example_filter).
  exact Hnf.
Defined.

(** ** Claims *)

Lemma remove_dups_length_le {A : Type} `{EqDecision A} (l : list A) :
  List.length (remove_dups l) <= List.length l.
Proof.
  induction l as [|x l IH]; simpl; [lia|].
  destruct (decide_rel elem_of x l); simpl; lia.
Qed.

Lemma keepClaim_inv (tza : JsDate.Zone) (f : FilterState) (o : Obj) :
  keepClaim tza f o = true ->
  clientCode (val o) = "C0008157"
  /\ otType (val o) <> ""
  /\ includesText (toLowerCase (otType (val o))) "reclamo" = true
  /\ checkFilters tza f (val o) = true.
Proof.
  unfold keepClaim.
  destruct (String.eqb_spec (clientCode (val o)) "C0008157") as [E|_];
    [|discriminate].
  destruct (nonEmpty (otType (val o))) eqn:N; [|discriminate].
  destruct (includesText (toLowerCase (otType (val o))) "reclamo") eqn:I;
    [|discriminate].
  simpl. intros H. apply nonEmpty_true in N. auto.
Qed.

(** X18. Every claim is a row of the designated client "C0008157" with a
    non-empty OT type that passes the common filters. That client being one
    of the internal ones, a claim is in neither the compliance nor the
    financial view, whatever the filters; the claims are no more than the
    rows that the audit report counts under that code, and the distinct OTs
    among them no more than the claims. *)
Theorem claims_are_internal_rows (h : Host) (mapping : ColumnMapping)
    (rows : list ExcelRow) (tza : JsDate.Zone) (f f' : FilterState) :
  let res := processSheet h mapping rows in
  (forall o, o ∈ claimsData tza f (allRows res) ->
     o ∈ allRows res
     /\ clientCode (val o) = "C0008157"
     /\ otType (val o) <> ""
     /\ checkFilters tza f (val o) = true
     /\ (o ∉ complianceData tza f' (uniqueOTs res))
     /\ (o ∉ financialData tza f' (allRows res)))
  /\ claimsUniqueOTs tza f (allRows res) <= claimsCount tza f (allRows res)
  /\ claimsCount tza f (allRows res)
     <= default 0 (internalClientsByCode (report res) !! "C0008157").
Proof.
  intros res. subst res.
  set (res := processSheet h mapping rows).
  split; [|split].
  - intros o Ho. unfold claimsData in Ho.
    apply list_elem_of_In, filter_In in Ho as [Ho Hk].
    apply (proj2 (list_elem_of_In _ _)) in Ho.
    destruct (keepClaim_inv _ _ _ Hk) as (Hc & Ht & _ & Hf).
    assert (Hi : includesStr INTERNAL_CLIENT_CODES (clientCode (val o))
                 = true) by now rewrite Hc.
    destruct (internal_never_kept tza f' (uniqueOTs res) o Hi) as [H1 _].
    destruct (internal_never_kept tza f' (allRows res) o Hi) as [_ H2].
    auto 10.
  - unfold claimsUniqueOTs, claimsCount, idsOf.
    etransitivity; [apply remove_dups_length_le|]. now rewrite length_map.
  - change (internalClientsByCode (report res))
      with (snd (tallyInternal (allRows res))).
    destruct (tallyInternal_spec (allRows res)) as [_ ->].
    unfold claimsCount, claimsData.
    assert (G : forall l : list Obj,
      (forall o, In o l ->
         isInternalClient (val o)
         = includesStr INTERNAL_CLIENT_CODES (clientCode (val o))) ->
      List.length (List.filter (keepClaim tza f) l)
      <= List.length
           (List.filter
              (fun r => isInternalClient (val r)
                        && String.eqb (clientCode (val r)) "C0008157") l)).
    { induction l as [|o l IH]; intros H; simpl; [lia|].
      assert (IH' := IH ltac:(intros y Hy; apply H; now right)).
      destruct (keepClaim tza f o) eqn:K.
      - destruct (keepClaim_inv _ _ _ K) as (Hc & _).
        rewrite (H o ltac:(now left)), Hc. simpl. lia.
      - destruct (isInternalClient (val o) && _); simpl; lia. }
    apply G. intros o Ho%list_elem_of_In.
    now apply (allRows_isInternal h mapping rows).
Qed.

Lemma lowerChar_eqb (a b : ascii) :
  Ascii.eqb a b = true -> Ascii.eqb (lowerChar a) (lowerChar b) = true.
Proof. intros ->%Ascii.eqb_eq. apply Ascii.eqb_refl. Qed.

Lemma startsWith_lower (s p : string) :
  startsWith s p = true ->
  startsWith (toLowerCase s) (toLowerCase p) = true.
Proof.
  revert s. induction p as [|a p IH]; intros s; [now destruct s|].
  destruct s as [|b s]; [discriminate|]. simpl.
  intros [E H]%andb_prop. rewrite (lowerChar_eqb _ _ E). simpl. auto.
Qed.

Lemma includesText_lower (s p : string) :
  includesText s p = true ->
  includesText (toLowerCase s) (toLowerCase p) = true.
Proof.
  induction s as [|b s IH].
  - cbn [includesText toLowerCase]. rewrite !orb_false_r.
    intros H. exact (startsWith_lower "" p H).
  - cbn [includesText]. intros [H|H]%orb_prop.
    + pose proof (startsWith_lower _ _ H) as H'.
      cbn [toLowerCase] in *. cbn [includesText]. now rewrite H'.
    + cbn [toLowerCase includesText]. rewrite (IH H). apply orb_true_r.
Qed.

(** X19. The selection of claims does not depend on the case of the OT
    type: a row of the designated client whose OT type contains the word
    "reclamo" written in any mix of capitals and small letters, and which
    passes the common filters, is a claim. *)
Theorem claims_ignore_case (tza : JsDate.Zone) (f : FilterState) (o : Obj)
    (word : string) :
  clientCode (val o) = "C0008157" ->
  toLowerCase word = "reclamo" ->
  includesText (otType (val o)) word = true ->
  checkFilters tza f (val o) = true ->
  keepClaim tza f o = true.
Proof.
  intros Hc Hw Hi Hf. unfold keepClaim.
  rewrite Hc, Hf. apply includesText_lower in Hi. rewrite Hw in Hi.
  rewrite Hi.
  destruct (otType (val o)) as [|c s] eqn:E; [|reflexivity].
  destruct word; discriminate.
Qed.

Lemma claims_ignore_case_witness :
  let o :=
    {| addr := 0;
       val := {| id := "7"; invoiceId := None; folio := "";
                 workshop := "Taller 1"; estimatedDate := None;
                 secondEstimatedDate := None; realDate := None;
                 billingDate := None; status := "Procesado";
                 clientCode := "C0008157"; isInternalClient := true;
                 amount := 0%float; otType := "RECLAMO Garantia";
                 customValues := ∅ |} |} in
  clientCode (val o) = "C0008157"
  /\ toLowerCase "RECLAMO" = "reclamo"
  /\ includesText (otType (val o)) "RECLAMO" = true
  /\ checkFilters (LocalTZA example_host) example_filter (val o) = true
  /\ keepClaim (LocalTZA example_host) example_filter o = true.
Proof.
  intros o. do 4 (split; [reflexivity|]).
  apply (claims_ignore_case (LocalTZA example_host) example_filter o "RECLAMO");
    reflexivity.
Defined.

(** ** The common filters *)

(** What [checkFilters] accepts, read without the order in which the
    dynamic filters are visited. *)
Lemma checkFilters_iff (tza : JsDate.Zone) (f : FilterState) (ot : ParsedOT) :
  checkFilters tza f ot = true
  <-> (selectedYear f = "all"
       \/ exists d, billingDate ot = Some d
                    /\ yearText tza d = selectedYear f
                    /\ (selectedMonth f = "all"
                        \/ monthText tza d = selectedMonth f))
      /\ (selectedWorkshop f = "all" \/ workshop ot = selectedWorkshop f)
      /\ (forall field value,
            dynamicFilters f !! field = Some value ->
            value = "all" \/ customValues ot !! field = Some value).
Proof.
  unfold checkFilters. rewrite !andb_true_iff, forallb_forall.
  assert (Hdate :
    (if negb (String.eqb (selectedYear f) "all") then
       match billingDate ot with
       | Some d =>
           String.eqb (yearText tza d) (selectedYear f)
           && (String.eqb (selectedMonth f) "all"
               || String.eqb (monthText tza d) (selectedMonth f))
       | None => false
       end
     else true) = true
    <-> (selectedYear f = "all"
         \/ exists d, billingDate ot = Some d
                      /\ yearText tza d = selectedYear f
                      /\ (selectedMonth f = "all"
                          \/ monthText tza d = selectedMonth f))).
  { destruct (String.eqb_spec (selectedYear f) "all") as [E|NE]; simpl.
    - split; auto.
    - destruct (billingDate ot) as [d|].
      + rewrite andb_true_iff, orb_true_iff, !String.eqb_eq. split.
        * intros [H1 H2]. right. eauto.
        * intros [?|(d' & [= <-] & H1 & H2)]; [contradiction | auto].
      + split; [discriminate|].
        intros [?|(d' & ? & _)]; [contradiction | discriminate]. }
  rewrite Hdate, orb_true_iff, !String.eqb_eq.
  assert (Hdyn :
    (forall x, In x (map_to_list (dynamicFilters f)) ->
       (let '(field, value) := x in
        negb (negb (String.eqb value "all")
              && negb (bool_decide (customValues ot !! field = Some value))))
       = true)
    <-> (forall field value,
           dynamicFilters f !! field = Some value ->
           value = "all" \/ customValues ot !! field = Some value)).
  { split.
    - intros H field value Hl.
      specialize (H (field, value)
                    ltac:(apply list_elem_of_In, elem_of_map_to_list, Hl)).
      simpl in H. apply negb_true_iff, andb_false_iff in H as [H|H].
      + left. apply negb_false_iff in H. now apply String.eqb_eq.
      + right. apply negb_false_iff in H. now apply bool_decide_eq_true in H.
    - intros H [field value] Hin.
      apply (proj2 (list_elem_of_In _ _)), elem_of_map_to_list in Hin.
      apply negb_true_iff, andb_false_iff.
      destruct (H _ _ Hin) as [->|E]; [left; reflexivity|].
      right. apply negb_false_iff. now apply bool_decide_eq_true. }
  rewrite Hdyn. tauto.
Qed.

Lemma filter_sublist_impl {A : Type} (p q : A -> bool) (l : list A) :
  (forall x, p x = true -> q x = true) ->
  sublist (List.filter p l) (List.filter q l).
Proof.
  intros H. induction l as [|x l IH]; simpl; [constructor|].
  destruct (p x) eqn:P.
  - rewrite (H x P). now constructor.
  - destruct (q x); [now constructor | exact IH].
Qed.

Lemma noFilter_relaxes (g f : FilterState) : noFilter g -> relaxes g f.
Proof.
  intros (Hy & Hw & Hd). split; [now left|]. split; [now left|].
  intros field value Hl. left. eauto.
Qed.

(** X20. Filters only narrow. When the filter state [g] is [f] with some
    criteria switched off (the year, or the month under the same year, or
    the workshop, or some dynamic filters put back on ["all"]), every
    record that passes [f] passes [g], and each of the three views under
    [f] is, in order, a part of the same view under [g]; so no view grows
    when a criterion is set, and the financial count does not. *)
Theorem filters_only_narrow (tza : JsDate.Zone) (f g : FilterState) :
  relaxes g f ->
  (forall ot, checkFilters tza f ot = true -> checkFilters tza g ot = true)
  /\ (forall l, sublist (complianceData tza f l) (complianceData tza g l))
  /\ (forall l, sublist (financialData tza f l) (financialData tza g l))
  /\ (forall l, sublist (claimsData tza f l) (claimsData tza g l))
  /\ (forall l, financialCount tza f l <= financialCount tza g l).
Proof.
  intros (Hy & Hw & Hd).
  assert (Hc : forall ot, checkFilters tza f ot = true ->
                          checkFilters tza g ot = true).
  { intros ot. rewrite !checkFilters_iff. intros (Fy & Fw & Fd).
    split; [|split].
    - destruct Hy as [Ey|[Ey Em]]; [now left|].
      destruct Fy as [Fy|(d & Hb & Hyr & Hmo)].
      + left. congruence.
      + right. exists d. split; [exact Hb|]. split; [congruence|].
        destruct Em as [Em|Em]; [now left|].
        destruct Hmo as [Hmo|Hmo]; [left | right]; congruence.
    - destruct Hw as [Ew|Ew]; [now left|].
      destruct Fw as [Fw|Fw]; [left | right]; congruence.
    - intros field value Hl.
      destruct (Hd field value Hl) as [Ev|Ev]; [now left|].
      exact (Fd field value Ev). }
  assert (Hk : forall o, keepExternal tza f o = true ->
                         keepExternal tza g o = true).
  { intros o. unfold keepExternal.
    destruct (includesStr _ (clientCode (val o))); [discriminate|].
    apply Hc. }
  split; [exact Hc|]. split; [|split; [|split]].
  - intros l. now apply filter_sublist_impl.
  - intros l. now apply filter_sublist_impl.
  - intros l. apply filter_sublist_impl. intros o. unfold keepClaim.
    destruct (negb _ || negb _); [discriminate | apply Hc].
  - intros l. unfold financialCount. apply sublist_length.
    now apply filter_sublist_impl.
Qed.

(** March 2024 against the whole of 2024, on a record billed on
    10 March 2024. *)
Lemma filters_only_narrow_witness :
  let f :=
    {| selectedYear := "2024"; selectedMonth := "2";
       selectedWorkshop := "all"; dynamicFilters := ∅ |} in
  let g :=
    {| selectedYear := "2024"; selectedMonth := "all";
       selectedWorkshop := "all"; dynamicFilters := ∅ |} in
  let ot := billed_record "7" "X" (JsDate.at_ms 1710039600000) in
  relaxes g f
  /\ checkFilters (LocalTZA example_host) f ot = true
  /\ checkFilters (LocalTZA example_host) g ot = true.
Proof.
  intros f g ot.
  assert (Hr : relaxes g f).
  { split; [right; split; [reflexivity | now left]|].
    split; [now left|]. intros field value Hl. right. exact Hl. }
  destruct (filters_only_narrow (LocalTZA example_host) f g Hr) as [H _].
  split; [exact Hr|]. split; [reflexivity|]. apply H. reflexivity.
Defined.

(** ** Amounts *)

Lemma parseAmount_nan (h : Host) (val : option cell) :
  PrimFloat.is_nan (parseAmount h val) = true ->
  exists x, val = Some (Num x) /\ PrimFloat.is_nan x = true.
Proof.
  destruct val as [[s|x|b|d| |o]|]; simpl; try discriminate.
  - destruct (PrimFloat.is_nan (parseFloat h (keepAmountChars s))) eqn:E;
      [discriminate | congruence].
  - eauto.
Qed.

(** X21. What the amount of a record can be. It is NaN exactly when the
    amount column is mapped and the value read under it is the number NaN.
    It is exactly [0] when no amount column is mapped, when the value read
    is neither a number nor a text (a gap, a boolean, a date, [null], an
    inherited object), and when it is a text in which the engine finds no
    number once all but digits, dots and minus signs are removed. So when
    no value read from the amount column is the number NaN, no record of
    [allRows] has a NaN amount. *)
Theorem record_amounts_are_numbers (h : Host) (mapping : ColumnMapping) :
  (forall row otNumber,
     let a := amount (parseRow h mapping row otNumber) in
     let v := rowGet h row (ColumnMapping.amount mapping) in
     (PrimFloat.is_nan a = true
      <-> ColumnMapping.amount mapping <> ""
          /\ exists x, v = Some (Num x) /\ PrimFloat.is_nan x = true)
     /\ (ColumnMapping.amount mapping = "" -> a = 0%float)
     /\ ((forall x, v <> Some (Num x)) -> (forall s, v <> Some (Text s)) ->
         a = 0%float)
     /\ (forall s, v = Some (Text s) ->
           PrimFloat.is_nan (parseFloat h (keepAmountChars s)) = true ->
           a = 0%float))
  /\ (forall rows,
        (forall row x,
           row ∈ rows ->
           rowGet h row (ColumnMapping.amount mapping) = Some (Num x) ->
           PrimFloat.is_nan x = false) ->
        forall o, o ∈ allRows (processSheet h mapping rows) ->
                  PrimFloat.is_nan (amount (val o)) = false).
Proof.
  split.
  - intros row otNumber a v. subst a v. unfold parseRow. cbn [amount].
    destruct (nonEmpty (ColumnMapping.amount mapping)) eqn:Em.
    + apply nonEmpty_true in Em. split; [|split; [|split]].
      * split.
        -- intros E. split; [exact Em|]. now apply parseAmount_nan in E.
        -- intros (_ & x & -> & Hx). exact Hx.
      * intros E. contradiction.
      * intros Hn Ht.
        destruct (rowGet h row (ColumnMapping.amount mapping))
          as [[s|x|b|d| |o]|]; try reflexivity.
        -- now destruct (Ht s).
        -- now destruct (Hn x).
      * intros s -> E. simpl. now rewrite E.
    + apply nonEmpty_false in Em. split; [|split; [|split]]; try reflexivity.
      split; [discriminate | intros (? & _); contradiction].
  - intros rows Hcells o (row & Hrow & _ & ->)%allRows_parseRow.
    unfold parseRow. cbn [amount].
    destruct (nonEmpty (ColumnMapping.amount mapping)); [|reflexivity].
    destruct (PrimFloat.is_nan
                (parseAmount h
                   (rowGet h row (ColumnMapping.amount mapping)))) eqn:E;
      [|reflexivity].
    destruct (parseAmount_nan _ _ E) as (x & Hx & Hn).
    now rewrite (Hcells row x Hrow Hx) in Hn.
Qed.

(** A row whose amount cell is a text without a number. *)
Lemma record_amounts_witness :
  let row := <["Importe" := Text "Gs. s/d"]> (example_row "7" "X") in
  let rows := [row] in
  let o :=
    {| addr := 0;
       val := parseRow example_host example_mapping_amount row "7" |} in
  rowGet example_host row (ColumnMapping.amount example_mapping_amount)
  = Some (Text "Gs. s/d")
  /\ PrimFloat.is_nan (parseFloat example_host (keepAmountChars "Gs. s/d"))
     = true
  /\ amount (val o) = 0%float
  /\ o ∈ allRows (processSheet example_host example_mapping_amount rows)
  /\ PrimFloat.is_nan (amount (val o)) = false.
Proof.
  intros row rows o.
  assert (Ho : o ∈ allRows (processSheet example_host example_mapping_amount
                              rows))
    by (vm_compute; left).
  destruct (record_amounts_are_numbers example_host example_mapping_amount)
    as [H1 H2].
  destruct (H1 row "7") as (_ & _ & _ & H3).
  split; [reflexivity|]. split; [reflexivity|].
  split; [exact (H3 "Gs. s/d" eq_refl eq_refl)|].
  split; [exact Ho|].
  apply (H2 rows); [|exact Ho].
  intros r x ->%list_elem_of_singleton H. vm_compute in H. discriminate.
Defined.

(** ** The column mapper *)

Lemma filter_neq_notin (l : list string) (x : string) :
  x ∉ l -> List.filter (fun f => negb (String.eqb f x)) l = l.
Proof.
  induction l as [|y l IH]; [reflexivity|].
  rewrite not_elem_of_cons. intros [Hne Hnin]. simpl.
  destruct (String.eqb_spec y x); [congruence|]. simpl. now rewrite IH.
Qed.

(** X22. Toggling an additional filter in the column mapper flips that
    header in the list and touches nothing else: the header is listed
    afterwards exactly when it was not before, every other header keeps its
    place in or out of the list, a list without repetition stays so, and
    toggling a header that was not listed on and off again gives back the
    mapping. *)
Theorem handleFilterToggle_flips (prev : ColumnMapping) (header : string) :
  let next := handleFilterToggle prev header in
  (header ∈ ColumnMapping.additionalFilters next
   <-> header ∉ ColumnMapping.additionalFilters prev)
  /\ (forall x, x <> header ->
        (x ∈ ColumnMapping.additionalFilters next
         <-> x ∈ ColumnMapping.additionalFilters prev))
  /\ (NoDup (ColumnMapping.additionalFilters prev) ->
      NoDup (ColumnMapping.additionalFilters next))
  /\ (header ∉ ColumnMapping.additionalFilters prev ->
      handleFilterToggle next header = prev).
Proof.
  intros next. subst next. unfold handleFilterToggle.
  cbn [ColumnMapping.additionalFilters].
  destruct (includesStr (ColumnMapping.additionalFilters prev) header)
    eqn:E.
  - apply includesStr_In in E. split; [|split; [|split]].
    + split; [|contradiction].
      intros [_ H]%list_elem_of_In%filter_In.
      now rewrite String.eqb_refl in H.
    + intros x Hne. split.
      * intros [H _]%list_elem_of_In%filter_In. now apply list_elem_of_In.
      * intros H. apply list_elem_of_In, filter_In.
        split; [now apply list_elem_of_In|].
        destruct (String.eqb_spec x header); [contradiction | reflexivity].
    + intros Hnd. apply NoDup_ListNoDup, List.NoDup_filter.
      now apply NoDup_ListNoDup.
    + contradiction.
  - apply includesStr_false in E. split; [|split; [|split]].
    + rewrite elem_of_app, list_elem_of_singleton. tauto.
    + intros x Hne. rewrite elem_of_app, list_elem_of_singleton. tauto.
    + intros Hnd. apply NoDup_app. split; [exact Hnd|].
      split; [|apply NoDup_singleton].
      intros x Hx ->%list_elem_of_singleton. contradiction.
    + intros _.
      assert (Hi : includesStr
                     (ColumnMapping.additionalFilters prev ++ [header])
                     header = true).
      { apply includesStr_In, elem_of_app. right.
        now apply list_elem_of_singleton. }
      rewrite Hi, List.filter_app, (filter_neq_notin _ _ E). simpl.
      rewrite String.eqb_refl. simpl. rewrite app_nil_r.
      now destruct prev.
Qed.

Lemma handleFilterToggle_witness :
  ("Zona" ∉ ColumnMapping.additionalFilters example_mapping)
  /\ handleFilterToggle (handleFilterToggle example_mapping "Zona") "Zona"
     = example_mapping.
Proof.
  assert (H : "Zona" ∉ ColumnMapping.additionalFilters example_mapping)
    by (intros H; now apply elem_of_nil in H).
  split; [exact H|].
  apply (handleFilterToggle_flips example_mapping "Zona"). exact H.
Defined.

(** ** The exported status *)



(** The two can differ: a delivery later on the day of the target is
    "Retraso" in the export and [OnTime] on the dashboard, and a record
    with a real date and no estimated date is "Retraso" in the export and
    [Pending] on the dashboard. *)
Example estado_differs_from_classify :
  let day10 := JsDate.at_ms 1710039600000 in
  let day10_evening := JsDate.at_ms 1710125999999 in
  estado (example_record "7" "X" (Some day10) (Some day10_evening))
  = "Retraso"
  /\ classify (LocalTZA example_host)
       (example_record "7" "X" (Some day10) (Some day10_evening)) = OnTime
  /\ estado (example_record "7" "X" None (Some day10)) = "Retraso"
  /\ classify (LocalTZA example_host) (example_record "7" "X" None (Some day10))
     = Pending.
Proof. repeat split; reflexivity. Qed.
